(** * ShutterSense: camera-settings backend and dataset preprocessing

    A shallow embedding of the Python sources

      - backend/app/settings_predictor.py   (module [Predictor])
      - backend/app/llm_advisor.py          (module [Advisor])
      - backend/app/metadata_extractor.py,
        backend/main.py                     (module [Metadata])
      - ml_training/scripts/preprocess.py   (module [Preprocess])

    Conventions of the embedding.

    - A Python call that may raise returns a [result]: [Ok v] for a normal
      return, [Raise e] for an exception; [try_except] is the
      [try: ... except Exception] block.
    - A Python [str] is a [string] whose characters are read as the code
      points U+0000..U+00FF; [lower], [isspace], [isdigit] follow Python on
      that range.
    - A Python [float] is a [pyfloat]: an exact rational or NaN.  Rounding
      and infinities are not represented; where the code would go through
      an infinity the model says so at that place.  The functions whose
      results depend on rounding, overflow or the infinities
      ([split_dataset], the reading of the model's outputs) are embedded
      a second time over IEEE 754 numbers, in module [Ieee].
    - A dict with string keys is a [gmap string _]; the external libraries
      (Pillow, numpy/ONNX runtime, the OpenAI client, pandas' random
      permutation, Python's formatting) are the fields of type classes. *)

From Stdlib Require Import ZArith QArith Qabs String Ascii List Lia Permutation.
From Stdlib.Strings Require Import Byte.
From Stdlib Require Import DecimalString Lqa Qround.
From Stdlib Require SpecFloat.
From stdpp Require Import base option list gmap strings.

Open Scope Z_scope.

Set Warnings "-register-all,-clear-no-such-hyp".

(** ** The Python runtime *)

Module Py.

(** An exception object: its class name and [str(e)]. *)
Record exn : Type := Exn { exn_class : string; exn_msg : string }.

Inductive result (A : Type) : Type :=
| Ok (a : A)
| Raise (e : exn).
Arguments Ok {A} a.
Arguments Raise {A} e.

Definition bind {A B : Type} (m : result A) (k : A -> result B) : result B :=
  match m with
  | Ok a => k a
  | Raise e => Raise e
  end.

#[global] Instance result_bind : MBind result := fun A B k m => bind m k.
#[global] Instance result_ret : MRet result := fun A a => Ok a.

(** [try: body except Exception as e: handler(e)] *)
Definition try_except {A : Type} (body : result A) (handler : exn -> result A)
  : result A :=
  match body with
  | Ok a => Ok a
  | Raise e => handler e
  end.

Definition returns {A : Type} (m : result A) : bool :=
  match m with Ok _ => true | Raise _ => false end.

Definition raises {A : Type} (m : result A) : bool := negb (returns m).

(** Python floats: exact rationals and NaN. *)
Inductive pyfloat : Type :=
| Fin (q : Q)
| NaN.

Definition of_int (z : Z) : pyfloat := Fin (inject_Z z).

Definition lift2 (f : Q -> Q -> Q) (x y : pyfloat) : pyfloat :=
  match x, y with
  | Fin a, Fin b => Fin (f a b)
  | _, _ => NaN
  end.

Definition fadd : pyfloat -> pyfloat -> pyfloat := lift2 Qplus.
Definition fsub : pyfloat -> pyfloat -> pyfloat := lift2 Qminus.
Definition fmul : pyfloat -> pyfloat -> pyfloat := lift2 Qmult.

Definition fabs (x : pyfloat) : pyfloat :=
  match x with Fin a => Fin (Qabs a) | NaN => NaN end.

Definition Qltb (a b : Q) : bool := negb (Qle_bool b a).

(** [x < y]: false as soon as one side is NaN. *)
Definition flt (x y : pyfloat) : bool :=
  match x, y with
  | Fin a, Fin b => Qltb a b
  | _, _ => false
  end.

Definition is_zero (q : Q) : bool := Qeq_bool q 0.

(** numpy / pandas element-wise division.  A zero divisor yields an
    infinity or NaN in numpy; the model has no infinity and answers NaN. *)
Definition np_div (x y : pyfloat) : pyfloat :=
  match x, y with
  | Fin a, Fin b => if is_zero b then NaN else Fin (a / b)
  | _, _ => NaN
  end.

(** Python's [/] raises on a zero divisor; [msg] is the message, which
    differs between floats and ints. *)
Definition truediv_msg (msg : string) (x y : pyfloat) : result pyfloat :=
  match x, y with
  | Fin a, Fin b =>
      if is_zero b then Raise (Exn "ZeroDivisionError" msg)
      else Ok (Fin (a / b))
  | _, _ => Ok NaN
  end.

Definition truediv : pyfloat -> pyfloat -> result pyfloat :=
  truediv_msg "float division by zero".

(** Truncation toward zero of a rational. *)
Definition Qtrunc (q : Q) : Z := Z.quot (Qnum q) (Zpos (Qden q)).

(** [int(x)] for a float [x]. *)
Definition int_of_float (x : pyfloat) : result Z :=
  match x with
  | Fin q => Ok (Qtrunc q)
  | NaN => Raise (Exn "ValueError" "cannot convert float NaN to integer")
  end.

(** Python values that appear in EXIF tables, JSON bodies and DataFrame
    cells. *)
Inductive pyval : Type :=
| VNone
| VInt (z : Z)
| VFloat (x : pyfloat)
| VStr (s : string)
| VBytes (b : list byte)
| VTuple (l : list pyval).

(** Formatting and parsing done by the Python runtime itself. *)
Class Runtime : Type := {
  py_str : pyval -> string;                 (* str(v), f"{v}" *)
  fmt_1f : pyfloat -> string;               (* f"{x:.1f}" *)
  float_of_str : string -> result pyfloat;  (* float(s) for a str s *)
  bytes_decode : list byte -> result string (* b.decode() *)
}.

(** [float(v)] *)
Definition py_float `{Runtime} (v : pyval) : result pyfloat :=
  match v with
  | VInt z => Ok (of_int z)
  | VFloat x => Ok x
  | VStr s => float_of_str s
  | VBytes _ => Raise (Exn "ValueError" "could not convert bytes to float")
  | VNone | VTuple _ =>
      Raise (Exn "TypeError"
               "float() argument must be a string or a real number")
  end.

(** [t[i]] on a tuple; anything else is not subscriptable here. *)
Definition subscript (v : pyval) (i : nat) : result pyval :=
  match v with
  | VTuple l =>
      match nth_error l i with
      | Some x => Ok x
      | None => Raise (Exn "IndexError" "tuple index out of range")
      end
  | _ => Raise (Exn "TypeError" "object is not subscriptable")
  end.

Definition is_tuple (v : pyval) : bool :=
  match v with VTuple _ => true | _ => false end.

Definition is_bytes (v : pyval) : bool :=
  match v with VBytes _ => true | _ => false end.

(** [a / b] on two values: numbers only. *)
Definition py_truediv (a b : pyval) : result pyfloat :=
  match a, b with
  | VInt x, VInt y => truediv_msg "division by zero" (of_int x) (of_int y)
  | VInt x, VFloat y => truediv (of_int x) y
  | VFloat x, VInt y => truediv x (of_int y)
  | VFloat x, VFloat y => truediv x y
  | _, _ => Raise (Exn "TypeError" "unsupported operand type(s) for /")
  end.

(** *** Strings *)

Definition nl : string := String (ascii_of_nat 10) EmptyString.

Definition code (c : ascii) : N := N_of_ascii c.

Definition between (lo hi n : N) : bool := ((lo <=? n) && (n <=? hi))%N.

(** Upper-case letters of U+0000..U+00FF: A-Z, and the accented capitals
    except the multiplication sign. *)
Definition is_upper (c : ascii) : bool :=
  between 65 90 (code c) || between 192 214 (code c)
  || between 216 222 (code c).

Definition lower_char (c : ascii) : ascii :=
  if is_upper c then ascii_of_N (code c + 32) else c.

(** [s.lower()] *)
Fixpoint lower (s : string) : string :=
  match s with
  | EmptyString => EmptyString
  | String c s' => String (lower_char c) (lower s')
  end.

(** [c.isspace()] *)
Definition isspace (c : ascii) : bool :=
  between 9 13 (code c) || between 28 32 (code c)
  || (code c =? 133)%N || (code c =? 160)%N.

(** Decimal digits 0-9 (what [\d] and [str.isdecimal] accept). *)
Definition isdecimal (c : ascii) : bool := between 48 57 (code c).

(** [c.isdigit()]: the decimal digits and the superscripts 1, 2, 3. *)
Definition isdigit_char (c : ascii) : bool :=
  isdecimal c || (code c =? 178)%N || (code c =? 179)%N || (code c =? 185)%N.

Fixpoint forallb_str (p : ascii -> bool) (s : string) : bool :=
  match s with
  | EmptyString => true
  | String c s' => p c && forallb_str p s'
  end.

Definition nonempty (s : string) : bool :=
  match s with EmptyString => false | String _ _ => true end.

(** [s.isdigit()] *)
Definition isdigit (s : string) : bool :=
  nonempty s && forallb_str isdigit_char s.

(** A non-empty run of decimal digits. *)
Definition all_decimal (s : string) : bool :=
  nonempty s && forallb_str isdecimal s.

(** [needle in hay] *)
Fixpoint contains (needle hay : string) : bool :=
  String.prefix needle hay
  || match hay with
     | EmptyString => false
     | String _ hay' => contains needle hay'
     end.

(** [any(word in hay for word in words)] *)
Definition any_in (words : list string) (hay : string) : bool :=
  existsb (fun word => contains word hay) words.

Definition snoc (s : string) (c : ascii) : string :=
  s +:+ String c EmptyString.

Definition flush (acc : string) (rest : list string) : list string :=
  if nonempty acc then acc :: rest else rest.

(** [s.split()]: the maximal runs of non-space characters. *)
Fixpoint split_from (acc s : string) : list string :=
  match s with
  | EmptyString => flush acc []
  | String c s' =>
      if isspace c then flush acc (split_from EmptyString s')
      else split_from (snoc acc c) s'
  end.

Definition split (s : string) : list string := split_from EmptyString s.

(** Value of a run of decimal digits, most significant first. *)
Fixpoint digits_value (acc : Z) (s : string) : Z :=
  match s with
  | EmptyString => acc
  | String c s' => digits_value (10 * acc + (Z.of_N (code c) - 48)) s'
  end.

(** [int(word)] for a word that passed [isdigit]: superscript digits are
    digits for [isdigit] but not for [int].  The bound that recent
    interpreters put on the number of digits [int] accepts (4300 by
    default) is not represented. *)
Definition int_of_str (word : string) : result Z :=
  if all_decimal word then Ok (digits_value 0 word)
  else Raise (Exn "ValueError"
                ("invalid literal for int() with base 10: " +:+ word)).

(** The longest prefix of decimal digits, and what follows it. *)
Fixpoint span_digits (s : string) : string * string :=
  match s with
  | EmptyString => (EmptyString, EmptyString)
  | String c s' =>
      if isdecimal c then
        let '(d, r) := span_digits s' in (String c d, r)
      else (EmptyString, s)
  end.

Fixpoint drop_prefix (p s : string) : option string :=
  match p, s with
  | EmptyString, _ => Some s
  | String a p', String b s' =>
      if Ascii.eqb a b then drop_prefix p' s' else None
  | String _ _, EmptyString => None
  end.

(** [re.search]: the match at the leftmost position where [at_start]
    matches. *)
Fixpoint re_search {A : Type} (at_start : string -> option A) (s : string)
  : option A :=
  match at_start s with
  | Some g => Some g
  | None =>
      match s with
      | EmptyString => None
      | String _ s' => re_search at_start s'
      end
  end.

(** *** Sequences *)

(** A slice bound [i] of a sequence of length [n]: negative bounds count
    from the end, and the result is clamped to [0..n]. *)
Definition slice_bound (n : nat) (i : Z) : nat :=
  let j := if i <? 0 then i + Z.of_nat n else i in
  Z.to_nat (Z.min (Z.max j 0) (Z.of_nat n)).

(** [l[start:stop]], each bound optional. *)
Definition slice {A : Type} (start stop : option Z) (l : list A) : list A :=
  let n := length l in
  let a := match start with Some i => slice_bound n i | None => O end in
  let b := match stop with Some i => slice_bound n i | None => n end in
  firstn (b - a) (skipn a l).

End Py.

Export Py.


(** ** backend/app/llm_advisor.py *)

Module Advisor.

(** The part of the OpenAI client the advisor uses.  A completion is
    reduced to [choices[i].message.content] of each choice, which the
    client library types as an optional string. *)
Record chat_message : Type := ChatMessage { role : string; content : string }.

Record chat_request : Type := ChatRequest {
  req_model : string;
  req_messages : list chat_message;
  req_temperature : Q;
  req_max_tokens : Z
}.

Record chat_completion : Type := ChatCompletion {
  choices : list (option string)
}.

Class OpenAI : Type := {
  client : Type;
  OpenAI_new : string -> client;   (* OpenAI(api_key=...) *)
  chat_completions_create : client -> chat_request -> result chat_completion
}.

(** [Optional[Dict[str, Any]]]: the items in insertion order. *)
Definition settings_arg : Type := option (list (string * pyval)).

Record LLMAdvisor `{OpenAI} : Type := MkAdvisor {
  api_key : option string;
  advisor_client : option client
}.

(** A string is truthy when it is not empty, [None] is falsy. *)
Definition truthy_str (o : option string) : bool :=
  match o with Some k => nonempty k | None => false end.

(** [LLMAdvisor.__init__], given [os.getenv("OPENAI_API_KEY")]. *)
Definition LLMAdvisor_init `{OpenAI} (getenv : option string) : LLMAdvisor :=
  {| api_key := getenv;
     advisor_client :=
       if truthy_str getenv then OpenAI_new <$> getenv else None |}.

Fixpoint join (sep : string) (l : list string) : string :=
  match l with
  | [] => ""
  | [x] => x
  | x :: rest => x +:+ sep +:+ join sep rest
  end.

Definition _format_settings `{Runtime} (settings : list (string * pyval))
  : string :=
  join ", " (map (fun kv => fst kv +:+ ": " +:+ py_str (snd kv)) settings).

Definition iso_values : list Z := [100; 200; 400; 800; 1600; 3200; 6400].

Definition in_list (n : Z) (l : list Z) : bool := existsb (Z.eqb n) l.

(** The loop over [text.split()]: the first word that is all digits and
    whose value is a standard ISO ends the loop; [int(word)] is evaluated
    only for words that pass [isdigit]. *)
Fixpoint find_iso (words : list string) : result (option Z) :=
  match words with
  | [] => Ok None
  | word :: rest =>
      if isdigit word then
        n ← int_of_str word;
        if in_list n iso_values then Ok (Some n) else find_iso rest
      else find_iso rest
  end.

(** The aperture pattern matched at the start of [s]: the characters f/,
    then one or more decimal digits, an optional dot and further decimal
    digits; the result is group 1, everything after f/. *)
Definition aperture_at (s : string) : option string :=
  match drop_prefix "f/" s with
  | None => None
  | Some r =>
      let '(d1, r1) := span_digits r in
      if nonempty d1 then
        match r1 with
        | String "." r2 => Some (d1 +:+ "." +:+ fst (span_digits r2))
        | _ => Some d1
        end
      else None
  end.

(** The shutter pattern matched at the start of [s]: the characters 1/
    and one or more decimal digits, which are group 1. *)
Definition shutter_at (s : string) : option string :=
  match drop_prefix "1/" s with
  | None => None
  | Some r =>
      let d := fst (span_digits r) in
      if nonempty d then Some d else None
  end.

Definition _parse_llm_response (text : string)
  : result (gmap string pyval) :=
  let settings : gmap string pyval := ∅ in
  let text_lower := lower text in
  settings ←
    (if contains "iso" text_lower then
       found ← find_iso (split text);
       Ok (match found with
           | Some n => <["iso" := VInt n]> settings
           | None => settings
           end)
     else Ok settings);
  let settings :=
    if contains "f/" text_lower || contains "aperture" text_lower then
      match re_search aperture_at text_lower with
      | Some g => <["aperture" := VStr ("f/" +:+ g)]> settings
      | None => settings
      end
    else settings in
  let settings :=
    if contains "shutter" text_lower || contains "1/" text then
      match re_search shutter_at text with
      | Some g => <["shutter_speed" := VStr ("1/" +:+ g +:+ "s")]> settings
      | None => settings
      end
    else settings in
  Ok settings.

Definition profile (iso : Z) (aperture shutter explanation : string)
  : gmap string pyval :=
  <["iso" := VInt iso]>
    (<["aperture" := VStr aperture]>
       (<["shutter_speed" := VStr shutter]>
          (<["explanation" := VStr explanation]>
             (<["source" := VStr "rule-based"]> ∅)))).

Definition portrait_profile : gmap string pyval :=
  profile 400 "f/2.8" "1/125s"
    "Portrait settings: Wide aperture (f/2.8) for shallow depth of field, moderate ISO and shutter speed".

Definition landscape_profile : gmap string pyval :=
  profile 100 "f/11" "1/60s"
    "Landscape settings: Narrow aperture (f/11) for deep depth of field, low ISO for quality".

Definition action_profile : gmap string pyval :=
  profile 800 "f/4" "1/1000s"
    "Action settings: Fast shutter (1/1000s) to freeze motion, moderate aperture and higher ISO".

Definition low_light_profile : gmap string pyval :=
  profile 1600 "f/2.8" "1/60s"
    "Low light settings: High ISO (1600), wide aperture (f/2.8) to gather more light".

Definition default_profile : gmap string pyval :=
  profile 400 "f/5.6" "1/125s"
    "General purpose settings: Balanced settings suitable for most situations".

Definition portrait_words : list string :=
  ["portrait"; "person"; "people"; "face"].
Definition landscape_words : list string :=
  ["landscape"; "scenery"; "mountain"; "nature"].
Definition action_words : list string :=
  ["action"; "sport"; "fast"; "moving"; "running"].
Definition low_light_words : list string :=
  ["dark"; "night"; "low light"; "indoor"].

Definition _rule_based_suggestions (prompt : string)
  (current_settings : settings_arg) : gmap string pyval :=
  let prompt_lower := lower prompt in
  if any_in portrait_words prompt_lower then portrait_profile
  else if any_in landscape_words prompt_lower then landscape_profile
  else if any_in action_words prompt_lower then action_profile
  else if any_in low_light_words prompt_lower then low_light_profile
  else default_profile.

Definition system_message : string :=
  "You are an expert photographer and camera settings advisor. " +:+ nl +:+
  "Your job is to suggest optimal camera settings based on user requests. "
  +:+ nl +:+
  "Provide specific values for ISO, aperture (f-stop), shutter speed, and any other relevant parameters."
  +:+ nl +:+
  "Always explain your reasoning briefly.".

(** [if current_settings:] holds for a dict that is present and not
    empty. *)
Definition context_of `{Runtime} (current_settings : settings_arg) : string :=
  match current_settings with
  | Some (kv :: rest) =>
      nl +:+ nl +:+ "Current settings: " +:+ _format_settings (kv :: rest)
  | _ => ""
  end.

Definition build_request `{Runtime} (prompt : string)
  (current_settings : settings_arg) : chat_request :=
  let context := context_of current_settings in
  let user_message :=
    "User request: " +:+ prompt +:+ context +:+ nl +:+ nl +:+
    "Suggest optimal camera settings." in
  {| req_model := "gpt-3.5-turbo";
     req_messages := [ChatMessage "system" system_message;
                      ChatMessage "user" user_message];
     req_temperature := 7 # 10;
     req_max_tokens := 500 |}.

(** [response.choices[0].message.content] *)
Definition first_content (response : chat_completion)
  : result (option string) :=
  match choices response with
  | c :: _ => Ok c
  | [] => Raise (Exn "IndexError" "list index out of range")
  end.

(** The body of the [try] block of [suggest].  A [None] content reaches
    [_parse_llm_response] and fails at [text.lower()]. *)
Definition llm_branch `{OpenAI, Runtime} (c : client) (prompt : string)
  (current_settings : settings_arg) : result (gmap string pyval) :=
  response ← chat_completions_create c (build_request prompt current_settings);
  suggestion_text ← first_content response;
  match suggestion_text with
  | None =>
      Raise (Exn "AttributeError"
               "'NoneType' object has no attribute 'lower'")
  | Some text =>
      suggestions ← _parse_llm_response text;
      let suggestions := <["explanation" := VStr text]> suggestions in
      let suggestions := <["source" := VStr "llm"]> suggestions in
      Ok suggestions
  end.

Definition suggest `{OpenAI, Runtime} (self : LLMAdvisor) (prompt : string)
  (current_settings : settings_arg) : result (gmap string pyval) :=
  match advisor_client self with
  | None => Ok (_rule_based_suggestions prompt current_settings)
  | Some c =>
      try_except (llm_branch c prompt current_settings)
        (fun _ => Ok (_rule_based_suggestions prompt current_settings))
  end.

(** [suggest_parameters], with the module-level [_advisor] passed in. *)
Definition suggest_parameters `{OpenAI, Runtime} (_advisor : LLMAdvisor)
  (prompt : string) (current_settings : settings_arg)
  : result (gmap string pyval) :=
  suggest _advisor prompt current_settings.

End Advisor.

(** ** Pillow, numpy and the ONNX runtime *)

Module Imaging.

(** A numpy array as nested sequences of numbers. *)
Inductive ndarray : Type :=
| Scalar (x : pyfloat)
| Arr (items : list ndarray).

Fixpoint map_scalars (f : pyfloat -> pyfloat) (a : ndarray) : ndarray :=
  match a with
  | Scalar x => Scalar (f x)
  | Arr l => Arr (map (map_scalars f) l)
  end.

Fixpoint flatten (a : ndarray) : list pyfloat :=
  match a with
  | Scalar x => [x]
  | Arr l => flat_map flatten l
  end.

Definition fsum (l : list pyfloat) : pyfloat := fold_left fadd l (of_int 0).

(** [np.mean(a)]: NaN for an array without elements. *)
Definition np_mean (a : ndarray) : pyfloat :=
  let xs := flatten a in
  np_div (fsum xs) (of_int (Z.of_nat (length xs))).

(** [a[i]] *)
Definition item (a : ndarray) (i : nat) : result ndarray :=
  match a with
  | Arr l =>
      match nth_error l i with
      | Some x => Ok x
      | None => Raise (Exn "IndexError" "index is out of bounds")
      end
  | Scalar _ => Raise (Exn "IndexError" "invalid index to scalar variable")
  end.

(** A zero-dimensional element read as a number. *)
Definition scalar (a : ndarray) : result pyfloat :=
  match a with
  | Scalar x => Ok x
  | Arr _ =>
      Raise (Exn "TypeError"
               "only length-1 arrays can be converted to Python scalars")
  end.

(** [len(a)] *)
Definition np_len (a : ndarray) : result Z :=
  match a with
  | Arr l => Ok (Z.of_nat (length l))
  | Scalar _ => Raise (Exn "TypeError" "len() of unsized object")
  end.

Definition children (a : ndarray) : option (list ndarray) :=
  match a with Arr l => Some l | Scalar _ => None end.

(** [a[:, :, c]] of a height x width x channels array. *)
Definition channel (c : nat) (a : ndarray) : option ndarray :=
  rows ← children a;
  planes ← mapM (fun row =>
                   pixels ← children row;
                   line ← mapM (fun px => chans ← children px; chans !! c)
                            pixels;
                   Some (Arr line)) rows;
  Some (Arr planes).

(** Number of channels, read off the first pixel. *)
Definition channels (a : ndarray) : option nat :=
  rows ← children a;
  row ← head rows;
  pixels ← children row;
  px ← head pixels;
  chans ← children px;
  Some (length chans).

(** [np.transpose(a, (2, 0, 1))]: height x width x channels to
    channels x height x width. *)
Definition transpose_201 (a : ndarray) : result ndarray :=
  match channels a with
  | Some n =>
      match mapM (fun c => channel c a) (seq 0 n) with
      | Some planes => Ok (Arr planes)
      | None => Raise (Exn "ValueError" "axes don't match array")
      end
  | None => Raise (Exn "ValueError" "axes don't match array")
  end.

(** [np.expand_dims(a, axis=0)] *)
Definition expand_dims0 (a : ndarray) : ndarray := Arr [a].

(** The part of Pillow (and of numpy's conversion of an image) the
    program calls. *)
Class Pillow : Type := {
  image : Type;
  Image_open : list byte -> result image;   (* Image.open(io.BytesIO(b)) *)
  Image_open_path : string -> result image; (* Image.open(path) *)
  image_format : image -> pyval;
  image_mode : image -> string;
  image_width : image -> Z;
  image_height : image -> Z;
  image_convert : image -> string -> result image;
  image_resize : image -> Z * Z -> result image;
  image_getexif : image -> result (list (Z * pyval));
  np_array : image -> result ndarray;
  TAGS : Z -> option string                 (* PIL.ExifTags.TAGS *)
}.

(** The part of onnxruntime the predictor calls. *)
Class Onnx : Type := {
  session : Type;
  InferenceSession : string -> result session;
  get_inputs : session -> list string;      (* the inputs' names *)
  session_run : session -> string -> ndarray -> result (list ndarray)
}.

End Imaging.

(** ** backend/app/settings_predictor.py *)

Module Predictor.
Import Imaging.

Record SettingsPredictor `{Onnx} : Type := MkPredictor {
  model_path : string;
  predictor_session : option session
}.

Definition default_model_path (module_dir : string) : string :=
  module_dir +:+ "/" +:+ "../models/camera_settings_model.onnx".

(** [SettingsPredictor.__init__]; [HAS_ONNX] is whether onnxruntime could
    be imported, [exists] is [os.path.exists]. *)
Definition SettingsPredictor_init `{Onnx} (HAS_ONNX : bool)
  (exists_ : string -> bool) (module_dir : string) (path : option string)
  : result SettingsPredictor :=
  let model_path :=
    match path with
    | Some p => if nonempty p then p else default_model_path module_dir
    | None => default_model_path module_dir
    end in
  if HAS_ONNX && exists_ model_path then
    s ← InferenceSession model_path;
    Ok (MkPredictor _ model_path (Some s))
  else Ok (MkPredictor _ model_path None).

Definition preprocess_image `{Pillow} (image_bytes : list byte)
  : result ndarray :=
  image ← Image_open image_bytes;
  image ← (if negb (String.eqb (image_mode image) "RGB")
           then image_convert image "RGB" else Ok image);
  image ← image_resize image (224, 224);
  img_array ← np_array image;
  let img_array := map_scalars (fun x => np_div x (of_int 255)) img_array in
  img_array ← transpose_201 img_array;
  let img_array := expand_dims0 img_array in
  Ok img_array.

Definition _rule_based_prediction `{Pillow} (image_bytes : list byte)
  : result (gmap string pyval) :=
  image ← Image_open image_bytes;
  gray_image ← (if negb (String.eqb (image_mode image) "L")
                then image_convert image "L" else Ok image);
  img_array ← np_array gray_image;
  let avg_brightness := np_mean img_array in
  let '(iso, aperture, shutter) :=
    if flt avg_brightness (of_int 85) then (1600, "f/2.8", "1/60s")
    else if flt avg_brightness (of_int 170) then (400, "f/5.6", "1/125s")
    else (100, "f/8.0", "1/500s") in
  Ok (<["iso" := VInt iso]>
        (<["aperture" := VStr aperture]>
           (<["shutter_speed" := VStr shutter]>
              (<["avg_brightness" := VFloat avg_brightness]>
                 (<["note" :=
                      VStr "Rule-based prediction (ML model not available)"]>
                    ∅))))).

(** [int(1 / y)] for a numpy float [y]: a zero [y] gives an infinity, on
    which [int] raises. *)
Definition int_of_reciprocal (y : pyfloat) : result Z :=
  match y with
  | Fin q =>
      if is_zero q then
        Raise (Exn "OverflowError" "cannot convert float infinity to integer")
      else Ok (Qtrunc (1 / q))
  | NaN => Raise (Exn "ValueError" "cannot convert float NaN to integer")
  end.

(** [outputs[0][0][k]] as a number. *)
Definition output_at (row : ndarray) (k : nat) : result pyfloat :=
  x ← item row k; scalar x.

(** The dict literal built from the model's outputs, entries evaluated in
    order. *)
Definition parse_outputs `{Runtime} (outputs : list ndarray)
  : result (gmap string pyval) :=
  let first_row :=
    match outputs with
    | o :: _ => item o 0
    | [] => Raise (Exn "IndexError" "list index out of range")
    end in
  row ← first_row;
  x0 ← output_at row 0;
  iso ← int_of_float (fmul x0 (of_int 6400));
  row ← first_row;
  x1 ← output_at row 1;
  let aperture := "f/" +:+ fmt_1f (fmul x1 (of_int 22)) in
  row ← first_row;
  x2 ← output_at row 2;
  t ← int_of_reciprocal (fmul x2 (of_int 8000));
  let shutter := "1/" +:+ py_str (VInt t) +:+ "s" in
  row ← first_row;
  n ← np_len row;
  confidence ← (if 3 <? n then output_at row 3 else Ok (Fin (8 # 10)));
  Ok (<["iso" := VInt iso]>
        (<["aperture" := VStr aperture]>
           (<["shutter_speed" := VStr shutter]>
              (<["confidence" := VFloat confidence]> ∅)))).

(** The body of the [try] block of [predict]. *)
Definition onnx_branch `{Pillow, Onnx, Runtime} (s : session)
  (image_bytes : list byte) : result (gmap string pyval) :=
  input_data ← preprocess_image image_bytes;
  input_name ← match get_inputs s with
               | name :: _ => Ok name
               | [] => Raise (Exn "IndexError" "list index out of range")
               end;
  outputs ← session_run s input_name input_data;
  predictions ← parse_outputs outputs;
  Ok predictions.

Definition predict `{Pillow, Onnx, Runtime} (self : SettingsPredictor)
  (image_bytes : list byte) : result (gmap string pyval) :=
  match predictor_session self with
  | None => _rule_based_prediction image_bytes
  | Some s =>
      try_except (onnx_branch s image_bytes)
        (fun _ => _rule_based_prediction image_bytes)
  end.

(** [predict_settings], with the module-level [_predictor] passed in. *)
Definition predict_settings `{Pillow, Onnx, Runtime}
  (_predictor : SettingsPredictor) (image_bytes : list byte)
  : result (gmap string pyval) :=
  predict _predictor image_bytes.

End Predictor.

(** ** backend/app/metadata_extractor.py and the endpoints of backend/main.py *)

Module Metadata.
Import Imaging.

(** A key of the EXIF table: the tag's name, or its number when
    [TAGS] does not know it. *)
Definition tag : Type := string + Z.

Definition tag_of `{Pillow} (tag_id : Z) : tag :=
  match TAGS tag_id with
  | Some name => inl name
  | None => inr tag_id
  end.

(** The returned dict: the keys format, mode and size are always there,
    exif and camera_settings only for an image with EXIF entries. *)
Record metadata : Type := MkMetadata {
  md_format : pyval;
  md_mode : string;
  md_size : Z * Z;                               (* width, height *)
  md_exif : option (gmap tag pyval);
  md_camera_settings : option (gmap string pyval)
}.

(** Bytes are decoded, or shown with [str] when decoding fails. *)
Definition readable `{Runtime} (value : pyval) : pyval :=
  match value with
  | VBytes b =>
      match bytes_decode b with
      | Ok s => VStr s
      | Raise _ => VStr (py_str value)
      end
  | _ => value
  end.

Definition exif_info_of `{Pillow, Runtime} (items : list (Z * pyval))
  : gmap tag pyval :=
  fold_left (fun info kv => <[tag_of (fst kv) := readable (snd kv)]> info)
    items ∅.

(** [f"{v[0]/v[1]:.1f}"] *)
Definition quotient_1f `{Runtime} (v : pyval) : result string :=
  a ← subscript v 0;
  b ← subscript v 1;
  q ← py_truediv a b;
  Ok (fmt_1f q).

Definition copy_key (src : gmap tag pyval) (name : string) (key : string)
  (cs : gmap string pyval) : gmap string pyval :=
  match src !! (inl name : tag) with
  | Some v => <[key := v]> cs
  | None => cs
  end.

Definition camera_settings_of `{Runtime} (exif_info : gmap tag pyval)
  : result (gmap string pyval) :=
  let cs : gmap string pyval := ∅ in
  let cs := copy_key exif_info "ISOSpeedRatings" "iso" cs in
  cs ← match exif_info !! (inl "FNumber" : tag) with
       | Some f_number =>
           if is_tuple f_number then
             q ← quotient_1f f_number;
             Ok (<["aperture" := VStr ("f/" +:+ q)]> cs)
           else Ok (<["aperture" := VStr ("f/" +:+ py_str f_number)]> cs)
       | None => Ok cs
       end;
  cs ← match exif_info !! (inl "ExposureTime" : tag) with
       | Some exp_time =>
           if is_tuple exp_time then
             a ← subscript exp_time 0;
             b ← subscript exp_time 1;
             Ok (<["shutter_speed" :=
                     VStr (py_str a +:+ "/" +:+ py_str b +:+ "s")]> cs)
           else Ok (<["shutter_speed" := VStr (py_str exp_time +:+ "s")]> cs)
       | None => Ok cs
       end;
  cs ← match exif_info !! (inl "FocalLength" : tag) with
       | Some focal =>
           if is_tuple focal then
             q ← quotient_1f focal;
             Ok (<["focal_length" := VStr (q +:+ "mm")]> cs)
           else Ok (<["focal_length" := VStr (py_str focal +:+ "mm")]> cs)
       | None => Ok cs
       end;
  let cs := copy_key exif_info "Make" "camera_make" cs in
  let cs := copy_key exif_info "Model" "camera_model" cs in
  let cs := copy_key exif_info "LensModel" "lens_model" cs in
  let cs := copy_key exif_info "WhiteBalance" "white_balance" cs in
  Ok cs.

(** The body of the [try] block of [extract_metadata]. *)
Definition extract_body `{Pillow, Runtime} (image_bytes : list byte)
  : result metadata :=
  image ← Image_open image_bytes;
  let fmt := image_format image in
  let mode := image_mode image in
  let size := (image_width image, image_height image) in
  exif_data ← image_getexif image;
  match exif_data with
  | [] => Ok (MkMetadata fmt mode size None None)
  | _ :: _ =>
      let exif_info := exif_info_of exif_data in
      camera_settings ← camera_settings_of exif_info;
      Ok (MkMetadata fmt mode size (Some exif_info) (Some camera_settings))
  end.

(** The [except] clause raises a new exception that carries the message
    of the one it caught. *)
Definition extract_metadata `{Pillow, Runtime} (image_bytes : list byte)
  : result metadata :=
  try_except (extract_body image_bytes)
    (fun e =>
       Raise (Exn "Exception" ("Failed to extract metadata: " +:+ exn_msg e))).

(** *** The endpoints of main.py *)

Record UploadFile : Type := MkUpload { file_read : result (list byte) }.

(** What an endpoint hands to the web framework: a JSON body with
    success set to True, or an [HTTPException]. *)
Inductive response (A : Type) : Type :=
| Success (payload : A)
| HTTPException (status_code : Z) (detail : string).
Arguments Success {A} payload.
Arguments HTTPException {A} status_code detail.

Definition endpoint {A : Type} (body : result A) : response A :=
  match body with
  | Ok a => Success a
  | Raise e => HTTPException 500 (exn_msg e)
  end.

Definition get_metadata `{Pillow, Runtime} (file : UploadFile)
  : response metadata :=
  endpoint (contents ← file_read file;
            metadata ← extract_metadata contents;
            Ok metadata).

Definition predict_camera_settings `{Pillow, Onnx, Runtime}
  (_predictor : Predictor.SettingsPredictor) (file : UploadFile)
  : response (gmap string pyval) :=
  endpoint (contents ← file_read file;
            predictions ← Predictor.predict_settings _predictor contents;
            Ok predictions).

Definition suggest_camera_parameters `{Advisor.OpenAI, Runtime}
  (_advisor : Advisor.LLMAdvisor) (prompt : string)
  (current_settings : Advisor.settings_arg) : response (gmap string pyval) :=
  endpoint (suggestions ←
              Advisor.suggest_parameters _advisor prompt current_settings;
            Ok suggestions).

End Metadata.

(** ** ml_training/scripts/preprocess.py *)

Module Preprocess.
Import Imaging.

Definition tag : Type := string + Z.

(** A function that prints returns what it printed next to its value. *)
Definition printing (A : Type) : Type := A * list string.

(** The loop of [extract_exif_data]: a bytes value that does not decode
    is skipped. *)
Definition exif_dict_of `{Pillow, Runtime} (items : list (Z * pyval))
  : gmap tag pyval :=
  fold_left
    (fun d kv =>
       let key : tag := match TAGS (fst kv) with
                        | Some name => inl name
                        | None => inr (fst kv)
                        end in
       match snd kv with
       | VBytes b =>
           match bytes_decode b with
           | Ok s => <[key := VStr s]> d
           | Raise _ => d
           end
       | value => <[key := value]> d
       end)
    items ∅.

Definition extract_exif_data `{Pillow, Runtime} (image_path : string)
  : printing (option (gmap tag pyval)) :=
  match (image ← Image_open_path image_path;
         exif_data ← image_getexif image;
         match exif_data with
         | [] => Ok None
         | _ :: _ => Ok (Some (exif_dict_of exif_data))
         end) with
  | Ok r => (r, [])
  | Raise e =>
      (None,
       ["Error extracting EXIF from " +:+ image_path +:+ ": " +:+ exn_msg e])
  end.

(** [float(v[0]) / float(v[1])] for a tuple, [float(v)] otherwise. *)
Definition number_of `{Runtime} (v : pyval) : result pyfloat :=
  if is_tuple v then
    a ← subscript v 0;
    x ← py_float a;
    b ← subscript v 1;
    y ← py_float b;
    truediv x y
  else py_float v.

Definition has_keys (keys : list string) (settings : gmap string pyfloat)
  : bool :=
  forallb (fun k => bool_decide (is_Some (settings !! k))) keys.

(** The body of the [try] block of [parse_camera_settings]. *)
Definition parse_body `{Runtime} (exif_data : gmap tag pyval)
  : result (option (gmap string pyfloat)) :=
  let settings : gmap string pyfloat := ∅ in
  settings ← match exif_data !! (inl "ISOSpeedRatings" : tag) with
             | Some v => x ← py_float v; Ok (<["iso" := x]> settings)
             | None => Ok settings
             end;
  settings ← match exif_data !! (inl "FNumber" : tag) with
             | Some f_number =>
                 x ← number_of f_number; Ok (<["aperture" := x]> settings)
             | None => Ok settings
             end;
  settings ← match exif_data !! (inl "ExposureTime" : tag) with
             | Some exp_time =>
                 x ← number_of exp_time;
                 Ok (<["shutter_speed" := x]> settings)
             | None => Ok settings
             end;
  settings ← match exif_data !! (inl "FocalLength" : tag) with
             | Some focal =>
                 x ← number_of focal; Ok (<["focal_length" := x]> settings)
             | None => Ok settings
             end;
  if has_keys ["iso"; "aperture"; "shutter_speed"] settings
  then Ok (Some settings)
  else Ok None.

Definition parse_camera_settings `{Runtime} (exif_data : gmap tag pyval)
  : printing (option (gmap string pyfloat)) :=
  match parse_body exif_data with
  | Ok r => (r, [])
  | Raise e => (None, ["Error parsing camera settings: " +:+ exn_msg e])
  end.

(** [preprocess_image(image_path, target_size)] *)
Definition preprocess_image `{Pillow} (image_path : string)
  (target_size : Z * Z) : result ndarray :=
  image ← Image_open_path image_path;
  image ← (if negb (String.eqb (image_mode image) "RGB")
           then image_convert image "RGB" else Ok image);
  image ← image_resize image target_size;
  img_array ← np_array image;
  let img_array := map_scalars (fun x => np_div x (of_int 255)) img_array in
  Ok img_array.

(** *** DataFrames *)

(** A DataFrame: its column names in order, and its rows by position.
    A cell that a row does not define reads as NaN. *)
Record DataFrame : Type := MkFrame {
  columns : list string;
  rows : list (gmap string pyval)
}.

Definition add_new (seen : list string) (k : string) : list string :=
  if bool_decide (k ∈ seen) then seen else seen ++ [k].

(** [pd.DataFrame(data)] for a list of dict records, each given by its
    items in order: the columns are the keys in order of first
    appearance. *)
Definition pd_DataFrame (data : list (list (string * pyval))) : DataFrame :=
  {| columns := fold_left add_new (map fst (concat data)) [];
     rows := map list_to_map data |}.

Definition cell (r : gmap string pyval) (column : string) : pyval :=
  default (VFloat NaN) (r !! column).

(** [df[column]] *)
Definition get_column (df : DataFrame) (column : string) : list pyval :=
  map (fun r => cell r column) (rows df).

(** [df[column] = series] *)
Definition set_column (df : DataFrame) (column : string)
  (series : list pyval) : DataFrame :=
  {| columns := add_new (columns df) column;
     rows := zip_with (fun r v => <[column := v]> r) (rows df) series |}.

(** The file system and the random permutation behind [df.sample]. *)
Class Platform : Type := {
  glob : string -> string -> list string;   (* Path(dir).glob(pattern) *)
  to_csv : DataFrame -> string -> result unit;
  permutation : Z -> nat -> list nat    (* RandomState(seed).permutation(n) *)
}.

(** The record appended for an image whose settings were parsed;
    [settings["iso"]] is a [KeyError] when the key is missing. *)
Definition key_of (settings : gmap string pyfloat) (k : string)
  : result pyval :=
  match settings !! k with
  | Some x => Ok (VFloat x)
  | None => Raise (Exn "KeyError" k)
  end.

Definition record_of (img_path : string) (settings : gmap string pyfloat)
  : result (list (string * pyval)) :=
  iso ← key_of settings "iso";
  aperture ← key_of settings "aperture";
  shutter_speed ← key_of settings "shutter_speed";
  let focal_length :=
    match settings !! "focal_length" with
    | Some x => VFloat x
    | None => VInt 0
    end in
  Ok [("image_path", VStr img_path); ("iso", iso); ("aperture", aperture);
      ("shutter_speed", shutter_speed); ("focal_length", focal_length)].

(** An empty dict is falsy. *)
Definition truthy {K : Type} `{Countable K} {V : Type} (o : option (gmap K V))
  : option (gmap K V) :=
  match o with
  | Some d => if bool_decide (d = ∅) then None else Some d
  | None => None
  end.

(** One iteration of the loop of [create_dataset_from_images]: the record
    to append, if any, and what was printed. *)
Definition visit `{Pillow, Runtime} (img_path : string)
  : result (printing (option (list (string * pyval)))) :=
  let '(exif_data, out1) := extract_exif_data img_path in
  match truthy exif_data with
  | None => Ok (None, out1)
  | Some exif_data =>
      let '(settings, out2) := parse_camera_settings exif_data in
      match truthy settings with
      | None => Ok (None, out1 ++ out2)
      | Some settings =>
          r ← record_of img_path settings;
          Ok (Some r, out1 ++ out2)
      end
  end.

Fixpoint collect `{Pillow, Runtime} (image_files : list string)
  (data : list (list (string * pyval))) (out : list string)
  : result (printing (list (list (string * pyval)))) :=
  match image_files with
  | [] => Ok (data, out)
  | img_path :: rest =>
      v ← visit img_path;
      match v with
      | (Some r, printed) => collect rest (data ++ [r]) (out ++ printed)
      | (None, printed) => collect rest data (out ++ printed)
      end
  end.

Definition create_dataset_from_images `{Pillow, Runtime, Platform}
  (image_dir output_path : string) : result (printing DataFrame) :=
  let image_files :=
    glob image_dir "*.jpg" ++ glob image_dir "*.jpeg"
    ++ glob image_dir "*.JPG" ++ glob image_dir "*.JPEG" in
  let out :=
    ["Processing " +:+ py_str (VInt (Z.of_nat (length image_files)))
     +:+ " images..."] in
  c ← collect image_files [] out;
  let '(data, out) := c in
  let df := pd_DataFrame data in
  _ ← to_csv df output_path;
  Ok (df,
      out ++ ["Dataset saved to " +:+ output_path;
              "Total samples: "
              +:+ py_str (VInt (Z.of_nat (length (rows df))))]).

(** *** normalize_settings, over a store of DataFrame objects *)

Abbreviation loc := positive.

(** The live DataFrame objects.  A Python variable of type DataFrame
    holds a [loc]. *)
Abbreviation store := (gmap positive DataFrame).

Definition deref (h : store) (l : loc) : result DataFrame :=
  match h !! l with
  | Some f => Ok f
  | None => Raise (Exn "ReferenceError" "no such object")
  end.

(** [df.copy()]: a new object with the same contents. *)
Definition df_copy (df : loc) (h : store) : result loc * store :=
  match h !! df with
  | Some f => let l := fresh (dom h) in (Ok l, <[l := f]> h)
  | None => (Raise (Exn "ReferenceError" "no such object"), h)
  end.

(** A numeric cell; pandas raises on arithmetic with anything else. *)
Definition numeric (v : pyval) : result pyfloat :=
  match v with
  | VInt z => Ok (of_int z)
  | VFloat x => Ok x
  | _ => Raise (Exn "TypeError" "unsupported operand type(s)")
  end.

Fixpoint numeric_all (l : list pyval) : result (list pyfloat) :=
  match l with
  | [] => Ok []
  | v :: rest => x ← numeric v; xs ← numeric_all rest; Ok (x :: xs)
  end.

(** [Series.min()] and [Series.max()] skip NaN, and are NaN when nothing
    is left. *)
Definition pick (better : Q -> Q -> bool) (acc x : pyfloat) : pyfloat :=
  match x, acc with
  | NaN, _ => acc
  | Fin q, NaN => Fin q
  | Fin q, Fin m => if better q m then Fin q else Fin m
  end.

Definition series_min (xs : list pyfloat) : pyfloat :=
  fold_left (pick Qltb) xs NaN.

Definition series_max (xs : list pyfloat) : pyfloat :=
  fold_left (pick (fun q m => Qltb m q)) xs NaN.

Definition epsilon : pyfloat := Fin (1 # 100000000).

(** [(x - min_val) / (max_val - min_val + 1e-8)] *)
Definition rescale (min_val max_val x : pyfloat) : pyfloat :=
  np_div (fsub x min_val) (fadd (fsub max_val min_val) epsilon).

Definition settings_columns : list string :=
  ["iso"; "aperture"; "shutter_speed"; "focal_length"].

(** One iteration of the loop of [normalize_settings]: it reads the
    object [df] and writes the object [df_normalized]. *)
Definition normalize_step (df df_normalized : loc) (column : string)
  (norm_params : gmap string (pyfloat * pyfloat)) (h : store)
  : result (gmap string (pyfloat * pyfloat)) * store :=
  match deref h df with
  | Raise e => (Raise e, h)
  | Ok f =>
      if bool_decide (column ∈ columns f) then
        match numeric_all (get_column f column) with
        | Raise e => (Raise e, h)
        | Ok xs =>
            let min_val := series_min xs in
            let max_val := series_max xs in
            let norm_params := <[column := (min_val, max_val)]> norm_params in
            let series :=
              map (fun x => VFloat (rescale min_val max_val x)) xs in
            match deref h df_normalized with
            | Raise e => (Raise e, h)
            | Ok g =>
                (Ok norm_params,
                 <[df_normalized := set_column g column series]> h)
            end
        end
      else (Ok norm_params, h)
  end.

Fixpoint normalize_loop (df df_normalized : loc) (todo : list string)
  (norm_params : gmap string (pyfloat * pyfloat)) (h : store)
  : result (gmap string (pyfloat * pyfloat)) * store :=
  match todo with
  | [] => (Ok norm_params, h)
  | column :: rest =>
      match normalize_step df df_normalized column norm_params h with
      | (Ok norm_params, h) =>
          normalize_loop df df_normalized rest norm_params h
      | (Raise e, h) => (Raise e, h)
      end
  end.

Definition normalize_settings (df : loc) (h : store)
  : result (loc * gmap string (pyfloat * pyfloat)) * store :=
  let norm_params : gmap string (pyfloat * pyfloat) := ∅ in
  match df_copy df h with
  | (Raise e, h) => (Raise e, h)
  | (Ok df_normalized, h) =>
      match normalize_loop df df_normalized settings_columns norm_params h
      with
      | (Ok norm_params, h) => (Ok (df_normalized, norm_params), h)
      | (Raise e, h) => (Raise e, h)
      end
  end.

(** *** split_dataset *)

(** [df.sample(frac=1, random_state=seed).reset_index(drop=True)]: the
    rows taken in the order of a random permutation of their
    positions. *)
Definition sample_all `{Platform} (df : DataFrame) (random_state : Z)
  : DataFrame :=
  let n := length (rows df) in
  {| columns := columns df;
     rows := omap (fun i => rows df !! i) (permutation random_state n) |}.

(** [df[start:stop]] *)
Definition df_slice (start stop : option Z) (df : DataFrame) : DataFrame :=
  {| columns := columns df; rows := slice start stop (rows df) |}.

Definition ratios_ok (train_ratio val_ratio test_ratio : pyfloat) : bool :=
  flt (fabs (fsub (fadd (fadd train_ratio val_ratio) test_ratio) (of_int 1)))
    (Fin (1 # 1000000)).

Definition split_dataset `{Platform} (df : DataFrame)
  (train_ratio val_ratio test_ratio : pyfloat) (random_state : Z)
  : result (DataFrame * DataFrame * DataFrame) :=
  if negb (ratios_ok train_ratio val_ratio test_ratio) then
    Raise (Exn "AssertionError" "Ratios must sum to 1.0")
  else
    let df_shuffled := sample_all df random_state in
    let n := Z.of_nat (length (rows df_shuffled)) in
    train_end ← int_of_float (fmul (of_int n) train_ratio);
    k ← int_of_float (fmul (of_int n) val_ratio);
    let val_end := train_end + k in
    let train_df := df_slice None (Some train_end) df_shuffled in
    let val_df := df_slice (Some train_end) (Some val_end) df_shuffled in
    let test_df := df_slice (Some val_end) None df_shuffled in
    Ok (train_df, val_df, test_df).

End Preprocess.

(** ** IEEE 754 arithmetic

    Python's [float] is a binary64 number and the arrays that the ONNX
    runtime returns hold binary32 numbers.  Where a property depends on
    rounding, on overflow or on the infinities, the function is embedded
    a second time over these formats, with the operations of the
    Standard Library's specification of IEEE 754 ([SpecFloat]: round to
    nearest, ties to even). *)

Module Ieee.

Abbreviation float := SpecFloat.spec_float.

Record format : Type := Format { prec : Z; emax : Z }.

Definition binary32 : format := Format 24 128.
Definition binary64 : format := Format 53 1024.

(** A number of the format, in its one canonical representation. *)
Definition is_float (f : format) (x : float) : bool :=
  SpecFloat.valid_binary (prec f) (emax f) x.

Definition fadd (f : format) : float -> float -> float :=
  SpecFloat.SFadd (prec f) (emax f).
Definition fsub (f : format) : float -> float -> float :=
  SpecFloat.SFsub (prec f) (emax f).
Definition fmul (f : format) : float -> float -> float :=
  SpecFloat.SFmul (prec f) (emax f).
Definition fdiv (f : format) : float -> float -> float :=
  SpecFloat.SFdiv (prec f) (emax f).

Definition fabs : float -> float := SpecFloat.SFabs.
Definition fneg : float -> float := SpecFloat.SFopp.
Definition flt : float -> float -> bool := SpecFloat.SFltb.
Definition fle : float -> float -> bool := SpecFloat.SFleb.

(** The integer [z] rounded to the format. *)
Definition of_Z (f : format) (z : Z) : float :=
  SpecFloat.binary_normalize (prec f) (emax f) z 0 false.

Definition zero : float := SpecFloat.S754_zero false.
Definition nan : float := SpecFloat.S754_nan.
Definition infinity : float := SpecFloat.S754_infinity false.

(** The sign bit of a number. *)
Definition negative (x : float) : bool :=
  match x with
  | SpecFloat.S754_zero s | SpecFloat.S754_infinity s
  | SpecFloat.S754_finite s _ _ => s
  | SpecFloat.S754_nan => false
  end.

(** *** Python floats *)

(** A Python int as the operand of an operation on floats. *)
Definition of_int (z : Z) : result float :=
  match of_Z binary64 z with
  | SpecFloat.S754_infinity _ =>
      Raise (Exn "OverflowError" "int too large to convert to float")
  | x => Ok x
  end.

(** [int(x)]: truncation toward zero. *)
Definition int_of_float (x : float) : result Z :=
  match x with
  | SpecFloat.S754_zero _ => Ok 0
  | SpecFloat.S754_finite s m e =>
      let n := Z.shiftl (Zpos m) e in
      Ok (if s then - n else n)
  | SpecFloat.S754_infinity _ =>
      Raise (Exn "OverflowError" "cannot convert float infinity to integer")
  | SpecFloat.S754_nan =>
      Raise (Exn "ValueError" "cannot convert float NaN to integer")
  end.

(** The literal [m]e-[k], as in 0.8 = 8e-1 and 1e-6: the binary64 number
    nearest to m / 10^k (for |m| below 2^53 and k up to 22, where m and
    10^k are binary64 numbers). *)
Definition decimal (m : Z) (k : nat) : float :=
  fdiv binary64 (of_Z binary64 m) (of_Z binary64 (10 ^ Z.of_nat k)).

Definition one : float := of_Z binary64 1.

(** *** split_dataset *)

(** [abs(train_ratio + val_ratio + test_ratio - 1.0) < 1e-6] *)
Definition ratios_ok (train_ratio val_ratio test_ratio : float) : bool :=
  flt (fabs (fsub binary64
               (fadd binary64 (fadd binary64 train_ratio val_ratio)
                  test_ratio) one))
    (decimal 1 6).

(** [df.sample(frac=1, random_state=seed).reset_index(drop=True)]: numpy
    takes a seed between 0 and 2**32 - 1. *)
Definition sample_all `{Preprocess.Platform} (df : Preprocess.DataFrame)
  (random_state : Z) : result Preprocess.DataFrame :=
  if (0 <=? random_state) && (random_state <? 2 ^ 32) then
    Ok (Preprocess.sample_all df random_state)
  else Raise (Exn "ValueError" "Seed must be between 0 and 2**32 - 1").

(** [int(n * ratio)] *)
Definition int_times (n : nat) (ratio : float) : result Z :=
  x ← of_int (Z.of_nat n);
  int_of_float (fmul binary64 x ratio).

Definition split_dataset `{Preprocess.Platform} (df : Preprocess.DataFrame)
  (train_ratio val_ratio test_ratio : float) (random_state : Z)
  : result (Preprocess.DataFrame * Preprocess.DataFrame
            * Preprocess.DataFrame) :=
  if negb (ratios_ok train_ratio val_ratio test_ratio) then
    Raise (Exn "AssertionError" "Ratios must sum to 1.0")
  else
    df_shuffled ← sample_all df random_state;
    let n := length (Preprocess.rows df_shuffled) in
    train_end ← int_times n train_ratio;
    k ← int_times n val_ratio;
    let val_end := train_end + k in
    let train_df := Preprocess.df_slice None (Some train_end) df_shuffled in
    let val_df :=
      Preprocess.df_slice (Some train_end) (Some val_end) df_shuffled in
    let test_df := Preprocess.df_slice (Some val_end) None df_shuffled in
    Ok (train_df, val_df, test_df).

(** *** The outputs of the ONNX session *)

(** A numpy array of binary32 numbers. *)
Inductive ndarray : Type :=
| Scalar (x : float)
| Arr (items : list ndarray).

(** [a[i]] *)
Definition item (a : ndarray) (i : nat) : result ndarray :=
  match a with
  | Arr l =>
      match nth_error l i with
      | Some x => Ok x
      | None => Raise (Exn "IndexError" "index is out of bounds")
      end
  | Scalar _ => Raise (Exn "IndexError" "invalid index to scalar variable")
  end.

Definition scalar (a : ndarray) : result float :=
  match a with
  | Scalar x => Ok x
  | Arr _ =>
      Raise (Exn "TypeError"
               "only length-1 arrays can be converted to Python scalars")
  end.

(** [len(a)] *)
Definition np_len (a : ndarray) : result Z :=
  match a with
  | Arr l => Ok (Z.of_nat (length l))
  | Scalar _ => Raise (Exn "TypeError" "len() of unsized object")
  end.

(** [outputs[0][0][k]] as a number. *)
Definition output_at (row : ndarray) (k : nat) : result float :=
  x ← item row k; scalar x.

(** [float(x)] for a binary32 number: the same number in binary64. *)
Definition to_double (x : float) : float :=
  match x with
  | SpecFloat.S754_finite s m e =>
      SpecFloat.binary_round (prec binary64) (emax binary64) s m e
  | _ => x
  end.

(** [f"{x:.1f}"] for a numpy number. *)
Class Formatting : Type := { fmt_1f : float -> string }.

(** The dict literal of [predict]: its four keys are fixed. *)
Record predictions : Type := Predictions {
  iso : Z;
  aperture : string;
  shutter_speed : string;
  confidence : float
}.

(** The scaling of an output by an integer constant, in binary32. *)
Definition scaled (x : float) (c : Z) : float :=
  fmul binary32 x (of_Z binary32 c).

(** [1 / y] in binary32: a zero [y] gives an infinity. *)
Definition reciprocal (y : float) : float :=
  fdiv binary32 (of_Z binary32 1) y.

(** The dict literal built from the model's outputs, entries evaluated in
    order. *)
Definition parse_outputs `{Runtime, Formatting} (outputs : list ndarray)
  : result predictions :=
  let first_row :=
    match outputs with
    | o :: _ => item o 0
    | [] => Raise (Exn "IndexError" "list index out of range")
    end in
  row ← first_row;
  x0 ← output_at row 0;
  iso ← int_of_float (scaled x0 6400);
  row ← first_row;
  x1 ← output_at row 1;
  let aperture := "f/" +:+ fmt_1f (scaled x1 22) in
  row ← first_row;
  x2 ← output_at row 2;
  t ← int_of_float (reciprocal (scaled x2 8000));
  let shutter := "1/" +:+ py_str (VInt t) +:+ "s" in
  row ← first_row;
  n ← np_len row;
  confidence ← (if 3 <? n then x3 ← output_at row 3; Ok (to_double x3)
                else Ok (decimal 8 1));
  Ok (Predictions iso aperture shutter confidence).

End Ieee.

(** ** A reference platform

    Small executable instances of the library interfaces, on which the
    definitions above can be run: a Pillow that reads complete binary PGM
    files of depth 255 and a table of files, an ONNX session that answers
    with fixed outputs, an OpenAI client given by its answer, and a
    runtime that formats integers and one-decimal numbers. *)

Module Reference.
Import Imaging.

Definition show_int (z : Z) : string := NilZero.string_of_int (Z.to_int z).

(** Nearest integer, ties to even, of a non-negative rational. *)
Definition round_half_even (q : Q) : Z :=
  let n := Qnum q in
  let d := Zpos (Qden q) in
  let fl := n / d in
  let r := 2 * (n mod d) in
  if r <? d then fl
  else if d <? r then fl + 1
  else if Z.even fl then fl else fl + 1.

Definition one_decimal (x : pyfloat) : string :=
  match x with
  | NaN => "nan"
  | Fin q =>
      let t := round_half_even (Qabs q * 10) in
      (if Qltb q 0 then "-" else "")
      +:+ show_int (t / 10) +:+ "." +:+ show_int (t mod 10)
  end.

Definition ascii_text (b : list byte) : result string :=
  if forallb (fun x => (Byte.to_N x <? 128)%N) b then
    Ok (string_of_list_ascii (map ascii_of_byte b))
  else Raise (Exn "UnicodeDecodeError" "'utf-8' codec can't decode bytes").

Definition runtime : Runtime := {|
  py_str v :=
    match v with
    | VInt z => show_int z
    | VStr s => s
    | VFloat x => one_decimal x
    | VNone => "None"
    | VBytes _ => "b'...'"
    | VTuple _ => "(...)"
    end;
  fmt_1f := one_decimal;
  float_of_str s :=
    if all_decimal s then Ok (of_int (digits_value 0 s))
    else Raise (Exn "ValueError" ("could not convert string to float: " +:+ s));
  bytes_decode := ascii_text
|}.

(** *** Images *)

Record picture : Type := MkPicture {
  pic_format : pyval;
  pic_mode : string;
  pic_width : Z;
  pic_height : Z;
  pic_exif : list (Z * pyval);
  pic_data : ndarray            (* rows of pixels; a pixel of an RGB
                                   picture is the array of its channels *)
}.

Definition is_ws (n : N) : bool :=
  (n =? 32)%N || between 9 13 n.

Fixpoint skip_ws (l : list N) : list N :=
  match l with
  | n :: rest => if is_ws n then skip_ws rest else l
  | [] => []
  end.

(** A run of decimal digits at the head of [l]: its value and the rest. *)
Fixpoint read_number (acc : option Z) (l : list N) : option Z * list N :=
  match l with
  | n :: rest =>
      if between 48 57 n then
        read_number (Some (10 * default 0 acc + (Z.of_N n - 48))) rest
      else (acc, l)
  | [] => (acc, [])
  end.

(** Cut [l] in rows of [w] elements. *)
Fixpoint chunks (fuel w : nat) (l : list N) : list (list N) :=
  match fuel with
  | O => []
  | S fuel' =>
      match l with
      | [] => []
      | _ => firstn w l :: chunks fuel' w (skipn w l)
      end
  end.

Definition gray_rows (rows : list (list N)) : ndarray :=
  Arr (map (fun row => Arr (map (fun p => Scalar (of_int (Z.of_N p))) row))
         rows).

Definition unidentified : exn :=
  Exn "UnidentifiedImageError" "cannot identify image file".

(** A binary PGM file: the magic number P5, width, height and depth in
    decimal, separated by white space, one white-space character, then
    one byte per pixel. *)
Definition read_pgm (b : list byte) : result picture :=
  match map Byte.to_N b with
  | 80%N :: 53%N :: rest =>
      let '(w, rest) := read_number None (skip_ws rest) in
      let '(h, rest) := read_number None (skip_ws rest) in
      let '(depth, rest) := read_number None (skip_ws rest) in
      match w, h, depth, rest with
      | Some w, Some h, Some 255, sep :: raster =>
          if is_ws sep && (0 <? w) && (0 <? h)
             && (Z.of_nat (length raster) =? w * h)
          then Ok (MkPicture (VStr "PPM") "L" w h []
                     (gray_rows (chunks (Z.to_nat h) (Z.to_nat w) raster)))
          else Raise unidentified
      | _, _, _, _ => Raise unidentified
      end
  | _ => Raise unidentified
  end.

(** Luma of an RGB pixel, as Pillow's conversion to mode L computes it. *)
Definition luma (px : ndarray) : ndarray :=
  match px with
  | Arr [Scalar (Fin r); Scalar (Fin g); Scalar (Fin b)] =>
      Scalar (of_int (Qtrunc ((r * 299 + g * 587 + b * 114) / 1000)))
  | _ => px
  end.

Definition map_pixels (f : ndarray -> ndarray) (a : ndarray) : ndarray :=
  match a with
  | Arr rows =>
      Arr (map (fun row =>
                  match row with
                  | Arr pixels => Arr (map f pixels)
                  | Scalar _ => row
                  end) rows)
  | Scalar _ => a
  end.

Definition convert (p : picture) (mode : string) : result picture :=
  let same := String.eqb (pic_mode p) mode in
  let to (f : ndarray -> ndarray) :=
    Ok (MkPicture (pic_format p) mode (pic_width p) (pic_height p)
          (pic_exif p) (map_pixels f (pic_data p))) in
  if same then Ok p
  else if String.eqb (pic_mode p) "L" && String.eqb mode "RGB" then
    to (fun px => Arr [px; px; px])
  else if String.eqb (pic_mode p) "RGB" && String.eqb mode "L" then to luma
  else Raise (Exn "ValueError" "conversion not supported").

(** Nearest-neighbour resampling. *)
Definition pick_line {A : Type} (old new : Z) (l : list A) : list A :=
  omap (fun i => l !! Z.to_nat (Z.of_nat i * old / new))
    (seq 0 (Z.to_nat new)).

Definition resize (p : picture) (size : Z * Z) : result picture :=
  let '(w, h) := size in
  match pic_data p with
  | Arr rows =>
      let lines :=
        map (fun row =>
               match row with
               | Arr pixels => Arr (pick_line (pic_width p) w pixels)
               | Scalar _ => row
               end) (pick_line (pic_height p) h rows) in
      Ok (MkPicture (pic_format p) (pic_mode p) w h (pic_exif p) (Arr lines))
  | Scalar _ => Raise (Exn "ValueError" "image has no raster")
  end.

Definition exif_tags (tag_id : Z) : option string :=
  if tag_id =? 34855 then Some "ISOSpeedRatings"
  else if tag_id =? 33437 then Some "FNumber"
  else if tag_id =? 33434 then Some "ExposureTime"
  else if tag_id =? 37386 then Some "FocalLength"
  else if tag_id =? 271 then Some "Make"
  else if tag_id =? 272 then Some "Model"
  else if tag_id =? 42036 then Some "LensModel"
  else if tag_id =? 41987 then Some "WhiteBalance"
  else None.

Fixpoint find_file (files : list (string * picture)) (path : string)
  : result picture :=
  match files with
  | [] => Raise (Exn "FileNotFoundError" ("No such file or directory: " +:+ path))
  | (name, p) :: rest =>
      if String.eqb name path then Ok p else find_file rest path
  end.

(** Pillow over a table of image files. *)
Definition pillow (files : list (string * picture)) : Pillow := {|
  image := picture;
  Image_open := read_pgm;
  Image_open_path := find_file files;
  image_format := pic_format;
  image_mode := pic_mode;
  image_width := pic_width;
  image_height := pic_height;
  image_convert := convert;
  image_resize := resize;
  image_getexif p := Ok (pic_exif p);
  np_array p := Ok (pic_data p);
  TAGS := exif_tags
|}.

(** A session is the list of outputs it answers with. *)
Definition onnx : Onnx := {|
  session := list ndarray;
  InferenceSession path :=
    Raise (Exn "NoSuchFile" ("Load model failed: " +:+ path));
  get_inputs _ := ["input"];
  session_run s _ _ := Ok s
|}.

(** A client is the function that answers a request. *)
Definition openai : Advisor.OpenAI := {|
  Advisor.client := Advisor.chat_request -> result Advisor.chat_completion;
  Advisor.OpenAI_new _ :=
    fun _ => Raise (Exn "APIConnectionError" "Connection error.");
  Advisor.chat_completions_create c request := c request
|}.

(** A platform that lists the files of a table, writes nothing and
    shuffles by reversing. *)
Definition platform (files : list (string * picture)) : Preprocess.Platform
  := {|
  Preprocess.glob _ pattern :=
    if String.eqb pattern "*.jpg" then map fst files else [];
  Preprocess.to_csv _ _ := Ok tt;
  Preprocess.permutation _ n := rev (seq 0 n)
|}.

(** *** Sample inputs *)

(** The bytes of a 2 x 2 binary PGM file with the given pixels. *)
Definition pgm_2x2 (a b c d : byte) : list byte :=
  ["P"; "5"; "010"; "2"; " "; "2"; "010"; "2"; "5"; "5"; "010"; a; b; c; d]%byte.

Definition dark_image : list byte := pgm_2x2 "010" "020" "030" "040".
Definition medium_image : list byte := pgm_2x2 "100" "100" "120" "120".
Definition bright_image : list byte := pgm_2x2 "200" "210" "220" "230".


(** EXIF entries of a photograph whose focal length is the rational 50/0,
    as a pair; the other three settings are plain numbers. *)
Definition exif_bad_focal : list (Z * pyval) :=
  [(34855, VInt 100); (33437, VFloat (Fin (28 # 10)));
   (33434, VFloat (Fin (1 # 100))); (37386, VTuple [VInt 50; VInt 0])].

(** The same photograph without a focal length. *)
Definition exif_no_focal : list (Z * pyval) :=
  [(34855, VInt 100); (33437, VFloat (Fin (28 # 10)));
   (33434, VFloat (Fin (1 # 100)))].

Definition photo (exif : list (Z * pyval)) : picture :=
  MkPicture (VStr "JPEG") "L" 1 1 exif (gray_rows [[128%N]]).

(** The EXIF table that [extract_exif_data] builds for the first
    photograph. *)
Definition exif_dict_bad_focal : gmap Preprocess.tag pyval :=
  <[inl "FocalLength" := VTuple [VInt 50; VInt 0]]>
    (<[inl "ExposureTime" := VFloat (Fin (1 # 100))]>
       (<[inl "FNumber" := VFloat (Fin (28 # 10))]>
          (<[inl "ISOSpeedRatings" := VInt 100]> ∅))).

Definition album : list (string * picture) :=
  [("a.jpg", photo exif_bad_focal); ("b.jpg", photo exif_no_focal);
   ("c.jpg", photo [])].


(** A DataFrame with one column and two rows. *)
Definition row_of_iso (iso : Z) : gmap string pyval :=
  <["iso" := VFloat (of_int iso)]> ∅.

Definition two_rows : Preprocess.DataFrame :=
  Preprocess.MkFrame ["iso"] [row_of_iso 100; row_of_iso 200].


(** A dataset of three photographs; the aperture of the first is
    missing. *)
Definition photo_row (path : string) (aperture : pyfloat)
  : gmap string pyval :=
  <["image_path" := VStr path]> (<["aperture" := VFloat aperture]> ∅).


Definition frame_complete : Preprocess.DataFrame :=
  Preprocess.MkFrame ["image_path"; "aperture"]
    [photo_row "b.jpg" (Fin (14 # 10)); photo_row "c.jpg" (Fin (28 # 10))].

(** Pillow over a table of encoded images, each given with the picture
    it decodes to. *)
Fixpoint decode (table : list (list byte * picture)) (b : list byte)
  : result picture :=
  match table with
  | [] => Raise unidentified
  | (k, p) :: rest =>
      if bool_decide (map Byte.to_N k = map Byte.to_N b) then Ok p
      else decode rest b
  end.

Definition pillow_decoding (table : list (list byte * picture)) : Pillow := {|
  image := picture;
  Image_open := decode table;
  Image_open_path := find_file [];
  image_format := pic_format;
  image_mode := pic_mode;
  image_width := pic_width;
  image_height := pic_height;
  image_convert := convert;
  image_resize := resize;
  image_getexif p := Ok (pic_exif p);
  np_array p := Ok (pic_data p);
  TAGS := exif_tags
|}.

(** An EXIF table with an ISO and an aperture given as the rational
    28/10. *)
Definition exif_info_sample : gmap Metadata.tag pyval :=
  <[inl "FNumber" := VTuple [VInt 28; VInt 10]]>
    (<[inl "ISOSpeedRatings" := VInt 100]> ∅).

(** EXIF entries whose aperture is the rational 28/0. *)
Definition exif_bad_aperture : list (Z * pyval) :=
  [(34855, VInt 100); (33437, VTuple [VInt 28; VInt 0])].

(** *** Binary numbers *)

(** The exact value of a finite binary number. *)
Definition exact (x : Ieee.float) : pyfloat :=
  match x with
  | SpecFloat.S754_finite s m e =>
      let q := if 0 <=? e then inject_Z (Zpos m * 2 ^ e)
               else Qmake (Zpos m) (Z.to_pos (2 ^ (- e))) in
      Fin (if s then - q else q)%Q
  | SpecFloat.S754_zero _ => Fin 0
  | _ => NaN
  end.

Definition formatting : Ieee.Formatting := {|
  Ieee.fmt_1f x :=
    match x with
    | SpecFloat.S754_infinity s => if s then "-inf" else "inf"
    | SpecFloat.S754_zero s => if s then "-0.0" else "0.0"
    | _ => one_decimal (exact x)
    end
|}.

(** The binary32 number nearest to m / 10^k. *)
Definition single (m : Z) (k : nat) : Ieee.float :=
  Ieee.fdiv Ieee.binary32 (Ieee.of_Z Ieee.binary32 m)
    (Ieee.of_Z Ieee.binary32 (10 ^ Z.of_nat k)).

End Reference.

(** ** Vocabulary of the statements *)

Module Spec.

(** [needle] occurs in [hay]. *)
Definition occurs (needle hay : string) : Prop :=
  exists before after, hay = before +:+ needle +:+ after.

(** The lower-cased prompt contains one of [words]. *)
Definition mentions (words : list string) (prompt : string) : Prop :=
  exists word, In word words /\ occurs word (lower prompt).

(** Digits, optionally followed by a dot and further digits. *)
Definition number_form (g : string) : Prop :=
  exists whole frac,
    all_decimal whole = true /\ forallb_str isdecimal frac = true
    /\ (g = whole \/ g = whole +:+ "." +:+ frac).

(** The three camera settings of a result. *)
Definition has_settings (d : gmap string pyval) (iso : Z)
  (aperture shutter : string) : Prop :=
  d !! "iso" = Some (VInt iso)
  /\ d !! "aperture" = Some (VStr aperture)
  /\ d !! "shutter_speed" = Some (VStr shutter).

Definition keys (l : list string) : gset string := list_to_set l.

Definition Qsum (qs : list Q) : Q := fold_right Qplus 0%Q qs.

(** Arithmetic mean of a non-empty list of rationals. *)
Definition Qmean (qs : list Q) : Q :=
  (Qsum qs / inject_Z (Z.of_nat (length qs)))%Q.

(** The well-formedness of an extracted dict. *)
Definition parsed_ok (d : gmap string pyval) : Prop :=
  dom d ⊆ keys ["iso"; "aperture"; "shutter_speed"]
  /\ (forall v, d !! "iso" = Some v ->
        exists n, v = VInt n /\ In n [100; 200; 400; 800; 1600; 3200; 6400])
  /\ (forall v, d !! "aperture" = Some v ->
        exists g, v = VStr ("f/" +:+ g) /\ number_form g)
  /\ (forall v, d !! "shutter_speed" = Some v ->
        exists g, v = VStr ("1/" +:+ g +:+ "s") /\ all_decimal g = true).


(** The grayscale conversion of an image, as the array the heuristic
    averages; it is defined when Pillow opens, converts and loads the
    image. *)
Definition grayscale `{Imaging.Pillow} (image_bytes : list byte)
  : result Imaging.ndarray :=
  image ← Imaging.Image_open image_bytes;
  gray_image ← (if negb (String.eqb (Imaging.image_mode image) "L")
                then Imaging.image_convert image "L" else Ok image);
  Imaging.np_array gray_image.

Definition heuristic_note : string :=
  "Rule-based prediction (ML model not available)".


(** The outcome of converting the EXIF entry [name], if there is one. *)
Definition converted `{Runtime} (exif_data : gmap Preprocess.tag pyval)
  (name : string) (conv : pyval -> result pyfloat)
  : option (result pyfloat) :=
  conv <$> exif_data !! (inl name : Preprocess.tag).

(** The settings dict made of the three mandatory settings. *)
Definition three_settings (iso aperture shutter : pyfloat)
  : gmap string pyfloat :=
  <["shutter_speed" := shutter]> (<["aperture" := aperture]>
                                    (<["iso" := iso]> ∅)).

(** The dataset row of an image: there is one when the image has EXIF
    entries and camera settings are parsed from them. *)
Definition dataset_row `{Imaging.Pillow, Runtime} (img_path : string)
  : option (list (string * pyval)) :=
  exif_data ← Preprocess.truthy (Preprocess.extract_exif_data img_path).1;
  settings ← (Preprocess.parse_camera_settings exif_data).1;
  iso ← settings !! "iso";
  aperture ← settings !! "aperture";
  shutter_speed ← settings !! "shutter_speed";
  Some [("image_path", VStr img_path); ("iso", VFloat iso);
        ("aperture", VFloat aperture);
        ("shutter_speed", VFloat shutter_speed);
        ("focal_length",
         from_option VFloat (VInt 0) (settings !! "focal_length"))].


(** Column [c] of [g] is column [c] of [f] rescaled, and [params] records
    the minimum and maximum that were used. *)
Definition normalized_column (f g : Preprocess.DataFrame)
  (params : gmap string (pyfloat * pyfloat)) (c : string) : Prop :=
  exists xs,
    Preprocess.numeric_all (Preprocess.get_column f c) = Ok xs
    /\ params !! c
       = Some (Preprocess.series_min xs, Preprocess.series_max xs)
    /\ Preprocess.get_column g c
       = map (fun x =>
                VFloat (Preprocess.rescale (Preprocess.series_min xs)
                          (Preprocess.series_max xs) x)) xs.

(** The settings columns that are present hold numbers (NaN included). *)
Definition numeric_settings (f : Preprocess.DataFrame) : Prop :=
  forall c, c ∈ Preprocess.settings_columns -> c ∈ Preprocess.columns f ->
    exists xs, Preprocess.numeric_all (Preprocess.get_column f c) = Ok xs.



(** [x] is NaN or has the sign bit [s]. *)
Definition signed (s : bool) (x : Ieee.float) : Prop :=
  x = Ieee.nan \/ Ieee.negative x = s.

End Spec.

Import Spec.

(** ** Vocabulary of the further properties *)

Module Extra.

(** A word the ISO loop passes over: not a digit word, or a decimal
    number that is not a standard ISO value. *)
Definition passed_over (w : string) : Prop :=
  isdigit w = false
  \/ (all_decimal w = true
      /\ ~ In (digits_value 0 w) Advisor.iso_values).

(** [s] contains [p] followed by a decimal digit. *)
Definition has_pattern (p s : string) : Prop :=
  exists before c after,
    s = before +:+ p +:+ String c after /\ isdecimal c = true.

(** The EXIF tags that [extract_metadata] turns into camera settings,
    each with the key it is stored under. *)
Definition camera_settings_table : list (string * string) :=
  [("ISOSpeedRatings", "iso"); ("FNumber", "aperture");
   ("ExposureTime", "shutter_speed"); ("FocalLength", "focal_length");
   ("Make", "camera_make"); ("Model", "camera_model");
   ("LensModel", "lens_model"); ("WhiteBalance", "white_balance")].

(** What a step that formats one tag does to the settings built so far:
    it touches one key, which it sets to a string when the tag is there. *)
Definition formats (o : option pyval) (key : string)
  (cs cs' : gmap string pyval) : Prop :=
  (forall k, k <> key -> cs' !! k = cs !! k)
  /\ match o with
     | Some _ => exists s, cs' !! key = Some (VStr s)
     | None => cs' !! key = cs !! key
     end.

(** What [extract_exif_data] keeps of an EXIF value: the text of bytes
    that decode, and any other value as it is; bytes that do not decode
    are not kept. *)
Definition kept `{Runtime} (value v : pyval) : Prop :=
  match value with
  | VBytes b =>
      match bytes_decode b with
      | Ok s => v = VStr s
      | Raise _ => False
      end
  | _ => v = value
  end.

(** A number between [lo] and [hi]. *)
Definition in_range (lo hi : Q) (x : pyfloat) : Prop :=
  exists q, x = Fin q /\ (lo <= q)%Q /\ (q <= hi)%Q.

(** The pixel array of an opened image after conversion to RGB and
    resizing, as both [preprocess_image] functions compute it before
    scaling. *)
Definition resized_rgb `{Imaging.Pillow} (opened : result Imaging.image)
  (size : Z * Z) : result Imaging.ndarray :=
  image ← opened;
  image ← (if negb (String.eqb (Imaging.image_mode image) "RGB")
           then Imaging.image_convert image "RGB" else Ok image);
  image ← Imaging.image_resize image size;
  Imaging.np_array image.

End Extra.

Import Extra.

(** ** Proof automation for the [result] monad *)

(** Runs the binds whose first argument is already a value or an
    exception. *)
Ltac run_bind := cbn [mbind result_bind bind] in *.

(** Peels the binds of a computation that is known to return. *)
Ltac peel H :=
  repeat match type of H with
         | mbind _ ?m = Ok _ =>
             let E := fresh "E" in
             destruct m eqn:E; run_bind; [|discriminate H]
         end.

(** * Properties *)

(** ** Strings *)

Lemma append_nil_l (s : string) : "" +:+ s = s.
Proof. reflexivity. Qed.

Lemma append_cons (c : ascii) (s t : string) :
  String c s +:+ t = String c (s +:+ t).
Proof. reflexivity. Qed.

Lemma append_nil_r (s : string) : s +:+ "" = s.
Proof. induction s as [|c s IH]; [reflexivity|]. now rewrite append_cons, IH. Qed.

Lemma append_assoc (s t u : string) : (s +:+ t) +:+ u = s +:+ (t +:+ u).
Proof.
  induction s as [|c s IH]; [reflexivity|]. now rewrite !append_cons, IH.
Qed.

Lemma prefix_iff (p s : string) :
  String.prefix p s = true <-> exists after, s = p +:+ after.
Proof.
  revert s. induction p as [|a p IH]; intros s.
  - split; [intros _; exists s; reflexivity | intros _; now destruct s].
  - destruct s as [|b s]; cbn [String.prefix].
    + split; [discriminate | intros [after H]; discriminate].
    + destruct (ascii_dec a b) as [->|Hab].
      * rewrite IH. split; intros [after H]; exists after.
        -- now rewrite append_cons, H.
        -- rewrite append_cons in H. now inversion H.
      * split; [discriminate|].
        intros [after H]. rewrite append_cons in H. congruence.
Qed.

Lemma contains_iff (needle hay : string) :
  contains needle hay = true <-> occurs needle hay.
Proof.
  unfold occurs. induction hay as [|c hay IH]; cbn [contains].
  - rewrite orb_false_r, prefix_iff. split.
    + intros [after H]. exists "", after. exact H.
    + intros [before [after H]]. destruct before.
      * exists after. exact H.
      * rewrite append_cons in H. discriminate.
  - rewrite orb_true_iff, prefix_iff, IH. split.
    + intros [[after H]|[before [after H]]].
      * exists "", after. exact H.
      * exists (String c before), after. now rewrite append_cons, H.
    + intros [before [after H]]. destruct before as [|b before].
      * left. exists after. exact H.
      * right. rewrite append_cons in H. inversion H.
        exists before, after. reflexivity.
Qed.

Lemma any_in_iff (words : list string) (prompt : string) :
  any_in words (lower prompt) = true <-> mentions words prompt.
Proof.
  unfold any_in, mentions. rewrite existsb_exists.
  split; intros [w [Hin H]]; exists w; split; auto; now apply contains_iff.
Qed.

Lemma any_in_false (words : list string) (prompt : string) :
  any_in words (lower prompt) = false <-> ~ mentions words prompt.
Proof.
  rewrite <- any_in_iff. destruct (any_in words (lower prompt)); split;
    congruence.
Qed.

(** ** llm_advisor.py: the rule-based advisor *)

Lemma profile_dom (iso : Z) (a s e : string) :
  dom (Advisor.profile iso a s e)
  = keys ["iso"; "aperture"; "shutter_speed"; "explanation"; "source"].
Proof.
  unfold Advisor.profile, keys. rewrite !dom_insert_L, dom_empty_L.
  simpl. set_solver.
Qed.

Lemma profile_settings (iso : Z) (a s e : string) :
  has_settings (Advisor.profile iso a s e) iso a s
  /\ Advisor.profile iso a s e !! "source" = Some (VStr "rule-based").
Proof. unfold has_settings, Advisor.profile. repeat split. Qed.

(** C8.  The rule-based advisor answers every prompt with a dict that has
    exactly the keys iso, aperture, shutter_speed, explanation and source,
    with source "rule-based"; the dict is one of five fixed profiles,
    chosen by the first category, in the order portrait, landscape,
    action, low light, whose keyword occurs in the lower-cased prompt, and
    the default profile when none does.  In particular a prompt that
    mentions both "portrait" and "night" gets the portrait profile, ISO
    400, f/2.8, 1/125s. *)
Theorem rule_based_suggestions_precedence
  (prompt : string) (current_settings : Advisor.settings_arg) :
  let d := Advisor._rule_based_suggestions prompt current_settings in
  dom d = keys ["iso"; "aperture"; "shutter_speed"; "explanation"; "source"]
  /\ d !! "source" = Some (VStr "rule-based")
  /\ (mentions Advisor.portrait_words prompt ->
      d = Advisor.portrait_profile /\ has_settings d 400 "f/2.8" "1/125s")
  /\ (~ mentions Advisor.portrait_words prompt ->
      mentions Advisor.landscape_words prompt ->
      d = Advisor.landscape_profile /\ has_settings d 100 "f/11" "1/60s")
  /\ (~ mentions Advisor.portrait_words prompt ->
      ~ mentions Advisor.landscape_words prompt ->
      mentions Advisor.action_words prompt ->
      d = Advisor.action_profile /\ has_settings d 800 "f/4" "1/1000s")
  /\ (~ mentions Advisor.portrait_words prompt ->
      ~ mentions Advisor.landscape_words prompt ->
      ~ mentions Advisor.action_words prompt ->
      mentions Advisor.low_light_words prompt ->
      d = Advisor.low_light_profile /\ has_settings d 1600 "f/2.8" "1/60s")
  /\ (~ mentions Advisor.portrait_words prompt ->
      ~ mentions Advisor.landscape_words prompt ->
      ~ mentions Advisor.action_words prompt ->
      ~ mentions Advisor.low_light_words prompt ->
      d = Advisor.default_profile /\ has_settings d 400 "f/5.6" "1/125s")
  /\ (occurs "portrait" (lower prompt) -> occurs "night" (lower prompt) ->
      has_settings d 400 "f/2.8" "1/125s").
Proof.
  intros d. subst d. unfold Advisor._rule_based_suggestions.
  destruct (any_in Advisor.portrait_words (lower prompt)) eqn:Hp;
    [|destruct (any_in Advisor.landscape_words (lower prompt)) eqn:Hl;
      [|destruct (any_in Advisor.action_words (lower prompt)) eqn:Ha;
        [|destruct (any_in Advisor.low_light_words (lower prompt)) eqn:Hn]]].
  all: repeat match goal with
       | H : any_in _ _ = true |- _ => apply any_in_iff in H
       | H : any_in _ _ = false |- _ => apply any_in_false in H
       end.
  all: split; [apply profile_dom|].
  all: split; [reflexivity|].
  all: repeat split; try tauto; try reflexivity.
  all: try (intros; exfalso;
            match goal with
            | H : ~ mentions Advisor.portrait_words _ |- _ =>
                apply H; exists "portrait"; split; [simpl; tauto | assumption]
            end).
Qed.

Example portrait_at_night :
  Advisor._rule_based_suggestions "Portrait of my sister at NIGHT" None
  = Advisor.portrait_profile.
Proof. reflexivity. Qed.

Example sports_indoor :
  Advisor._rule_based_suggestions "indoor sport" None = Advisor.action_profile.
Proof. reflexivity. Qed.

(** ** llm_advisor.py: parsing the model's answer *)

Lemma bind_ok {A B : Type} (a : A) (k : A -> result B) :
  (x ← Ok a; k x) = k a.
Proof. reflexivity. Qed.

Lemma bind_raise {A B : Type} (e : exn) (k : A -> result B) :
  (x ← Raise e; k x) = Raise e.
Proof. reflexivity. Qed.

Lemma bind_returns {A B : Type} (m : result A) (k : A -> result B) (b : B) :
  (x ← m; k x) = Ok b -> exists a, m = Ok a /\ k a = Ok b.
Proof. destruct m as [a|e]; [eauto | discriminate]. Qed.

Lemma span_digits_spec (s d r : string) :
  span_digits s = (d, r) ->
  forallb_str isdecimal d = true /\ s = d +:+ r.
Proof.
  revert d r. induction s as [|c s IH]; intros d r; cbn [span_digits].
  - intros [= <- <-]. split; reflexivity.
  - destruct (isdecimal c) eqn:Hc.
    + destruct (span_digits s) as [d' r'] eqn:Hs. intros [= <- <-].
      destruct (IH d' r' eq_refl) as [Hd ->]. split.
      * cbn [forallb_str]. now rewrite Hc, Hd.
      * now rewrite append_cons.
    + intros [= <- <-]. split; reflexivity.
Qed.

Lemma re_search_found {A : Type} (at_start : string -> option A)
  (s : string) (g : A) :
  re_search at_start s = Some g ->
  exists before rest, s = before +:+ rest /\ at_start rest = Some g.
Proof.
  induction s as [|c s IH]; cbn [re_search].
  - destruct (at_start "") eqn:H0; [|discriminate].
    intros [= ->]. exists "", "". split; [reflexivity | exact H0].
  - destruct (at_start (String c s)) eqn:H0.
    + intros [= ->]. exists "", (String c s). split; [reflexivity | exact H0].
    + intros H. destruct (IH H) as [before [rest [-> Hr]]].
      exists (String c before), rest. split; [now rewrite append_cons | exact Hr].
Qed.

Lemma nonempty_all_decimal (s : string) :
  nonempty s = true -> forallb_str isdecimal s = true -> all_decimal s = true.
Proof. unfold all_decimal. now intros -> ->. Qed.

Lemma aperture_at_form (s g : string) :
  Advisor.aperture_at s = Some g -> number_form g.
Proof.
  unfold Advisor.aperture_at.
  destruct (drop_prefix "f/" s) as [r|]; [|discriminate].
  destruct (span_digits r) as [d1 r1] eqn:H1.
  destruct (span_digits_spec _ _ _ H1) as [Hd1 _].
  destruct (nonempty d1) eqn:Hn; [|discriminate].
  pose proof (nonempty_all_decimal _ Hn Hd1) as Hw.
  destruct r1 as [|c r2].
  - intros [= <-]. exists d1, "". auto.
  - destruct (ascii_dec c ".") as [->|Hc].
    + destruct (span_digits r2) as [d2 r3] eqn:H2.
      destruct (span_digits_spec _ _ _ H2) as [Hd2 _].
      intros [= <-]. exists d1, d2. auto.
    + assert (forall o : option string,
                 match c with
                 | "."%char => o
                 | _ => Some d1
                 end = Some g -> o = Some g \/ d1 = g) as Hcase.
      { intros o. destruct c as [[] [] [] [] [] [] [] []]; intros [= ?]; auto. }
      intros H. apply Hcase in H. destruct H as [H | <-].
      * destruct (span_digits r2) as [d2 r3] eqn:H2.
        destruct (span_digits_spec _ _ _ H2) as [Hd2 _].
        injection H as <-. exists d1, d2. auto.
      * exists d1, "". auto.
Qed.

Lemma shutter_at_form (s g : string) :
  Advisor.shutter_at s = Some g -> all_decimal g = true.
Proof.
  unfold Advisor.shutter_at.
  destruct (drop_prefix "1/" s) as [r|]; [|discriminate].
  destruct (span_digits r) as [d r1] eqn:H1. cbn [fst].
  destruct (span_digits_spec _ _ _ H1) as [Hd _].
  destruct (nonempty d) eqn:Hn; [|discriminate].
  intros [= <-]. now apply nonempty_all_decimal.
Qed.

Lemma in_list_In (n : Z) (l : list Z) : Advisor.in_list n l = true -> In n l.
Proof.
  unfold Advisor.in_list. rewrite existsb_exists.
  intros [x [Hx He]]. apply Z.eqb_eq in He. now subst.
Qed.

(** What the loop over the words can end with. *)
Lemma find_iso_spec (words : list string) :
  match Advisor.find_iso words with
  | Ok (Some n) => In n Advisor.iso_values
  | Ok None => True
  | Raise e =>
      exn_class e = "ValueError"
      /\ exists word,
           In word words /\ isdigit word = true /\ all_decimal word = false
  end.
Proof.
  induction words as [|word rest IH]; cbn [Advisor.find_iso]; [exact I|].
  assert (match Advisor.find_iso rest with
          | Ok (Some n) => In n Advisor.iso_values
          | Ok None => True
          | Raise e =>
              exn_class e = "ValueError"
              /\ exists w,
                   In w (word :: rest) /\ isdigit w = true
                   /\ all_decimal w = false
          end) as IH'.
  { destruct (Advisor.find_iso rest) as [[n|]|e]; auto.
    destruct IH as [Hc [w [Hw H]]]. split; [exact Hc|].
    exists w. split; [now right | exact H]. }
  destruct (isdigit word) eqn:Hd; [|exact IH'].
  unfold int_of_str. destruct (all_decimal word) eqn:Ha.
  - rewrite bind_ok.
    destruct (Advisor.in_list (digits_value 0 word) Advisor.iso_values) eqn:Hin;
      [|exact IH'].
    now apply in_list_In.
  - rewrite bind_raise. split; [reflexivity|].
    exists word. split; [now left | auto].
Qed.

Lemma parsed_ok_empty : parsed_ok ∅.
Proof.
  unfold parsed_ok. rewrite dom_empty_L.
  repeat split; [set_solver | | |]; intros v H; rewrite lookup_empty in H;
    discriminate.
Qed.

Lemma parsed_ok_iso (d : gmap string pyval) (n : Z) :
  parsed_ok d -> In n Advisor.iso_values -> parsed_ok (<["iso" := VInt n]> d).
Proof.
  intros (Hdom & Hi & Ha & Hs) Hn. unfold parsed_ok.
  rewrite dom_insert_L. repeat split.
  - unfold keys in *. simpl in *. set_solver.
  - intros v. rewrite lookup_insert_eq. intros [= <-]. eauto.
  - intros v. rewrite lookup_insert_ne by discriminate. apply Ha.
  - intros v. rewrite lookup_insert_ne by discriminate. apply Hs.
Qed.

Lemma parsed_ok_aperture (d : gmap string pyval) (g : string) :
  parsed_ok d -> number_form g ->
  parsed_ok (<["aperture" := VStr ("f/" +:+ g)]> d).
Proof.
  intros (Hdom & Hi & Ha & Hs) Hg. unfold parsed_ok.
  rewrite dom_insert_L. repeat split.
  - unfold keys in *. simpl in *. set_solver.
  - intros v. rewrite lookup_insert_ne by discriminate. apply Hi.
  - intros v. rewrite lookup_insert_eq. intros [= <-]. eauto.
  - intros v. rewrite lookup_insert_ne by discriminate. apply Hs.
Qed.

Lemma parsed_ok_shutter (d : gmap string pyval) (g : string) :
  parsed_ok d -> all_decimal g = true ->
  parsed_ok (<["shutter_speed" := VStr ("1/" +:+ g +:+ "s")]> d).
Proof.
  intros (Hdom & Hi & Ha & Hs) Hg. unfold parsed_ok.
  rewrite dom_insert_L. repeat split.
  - unfold keys in *. simpl in *. set_solver.
  - intros v. rewrite lookup_insert_ne by discriminate. apply Hi.
  - intros v. rewrite lookup_insert_ne by discriminate. apply Ha.
  - intros v. rewrite lookup_insert_eq. intros [= <-]. eauto.
Qed.

(** C9.  For every text, [_parse_llm_response] either returns a dict whose
    keys are among iso, aperture and shutter_speed, where iso is one of
    100, 200, 400, 800, 1600, 3200, 6400, aperture is "f/" followed by a
    number (digits, optionally a dot and digits) and shutter_speed is "1/"
    followed by digits and "s"; or it raises the [ValueError] of [int] on
    a word of the text that [isdigit] accepts and that is not made of
    decimal digits (a superscript digit). *)
Theorem parse_llm_response_well_formed (text : string) :
  match Advisor._parse_llm_response text with
  | Ok d =>
      dom d ⊆ keys ["iso"; "aperture"; "shutter_speed"]
      /\ (forall v, d !! "iso" = Some v ->
            exists n, v = VInt n
                      /\ In n [100; 200; 400; 800; 1600; 3200; 6400])
      /\ (forall v, d !! "aperture" = Some v ->
            exists g, v = VStr ("f/" +:+ g) /\ number_form g)
      /\ (forall v, d !! "shutter_speed" = Some v ->
            exists g, v = VStr ("1/" +:+ g +:+ "s") /\ all_decimal g = true)
  | Raise e =>
      exn_class e = "ValueError"
      /\ exists word,
           In word (split text) /\ isdigit word = true
           /\ all_decimal word = false
  end.
Proof.
  unfold Advisor._parse_llm_response.
  set (stage1 :=
         if contains "iso" (lower text)
         then found ← Advisor.find_iso (split text);
              Ok match found with
                 | Some n => <["iso" := VInt n]> (∅ : gmap string pyval)
                 | None => ∅
                 end
         else Ok ∅).
  assert (match stage1 with
          | Ok d => parsed_ok d
          | Raise e =>
              exn_class e = "ValueError"
              /\ exists word,
                   In word (split text) /\ isdigit word = true
                   /\ all_decimal word = false
          end) as H1.
  { subst stage1. destruct (contains "iso" (lower text));
      [|apply parsed_ok_empty].
    pose proof (find_iso_spec (split text)) as Hf.
    destruct (Advisor.find_iso (split text)) as [[n|]|e].
    - rewrite bind_ok. apply parsed_ok_iso; [apply parsed_ok_empty | exact Hf].
    - rewrite bind_ok. apply parsed_ok_empty.
    - rewrite bind_raise. exact Hf. }
  destruct stage1 as [d1|e]; [rewrite bind_ok | rewrite bind_raise; exact H1].
  set (d2 := if contains "f/" (lower text) || contains "aperture" (lower text)
             then match re_search Advisor.aperture_at (lower text) with
                  | Some g => <["aperture" := VStr ("f/" +:+ g)]> d1
                  | None => d1
                  end
             else d1).
  assert (parsed_ok d2) as H2.
  { subst d2.
    destruct (contains "f/" (lower text) || contains "aperture" (lower text));
      [|exact H1].
    destruct (re_search Advisor.aperture_at (lower text)) as [g|] eqn:Hs;
      [|exact H1].
    destruct (re_search_found _ _ _ Hs) as [before [rest [_ Hg]]].
    apply parsed_ok_aperture; [exact H1 | now apply aperture_at_form in Hg]. }
  clearbody d2.
  assert (parsed_ok
            (if contains "shutter" (lower text) || contains "1/" text
             then match re_search Advisor.shutter_at text with
                  | Some g => <["shutter_speed" := VStr ("1/" +:+ g +:+ "s")]> d2
                  | None => d2
                  end
             else d2)) as H3.
  { destruct (contains "shutter" (lower text) || contains "1/" text);
      [|exact H2].
    destruct (re_search Advisor.shutter_at text) as [g|] eqn:Hs; [|exact H2].
    destruct (re_search_found _ _ _ Hs) as [before [rest [_ Hg]]].
    apply parsed_ok_shutter; [exact H2 | now apply shutter_at_form in Hg]. }
  exact H3.
Qed.

Example parse_typical_answer :
  Advisor._parse_llm_response
    "Use ISO 400 with an aperture of f/2.8 and a shutter speed of 1/250 s."
  = Ok (<["iso" := VInt 400]>
          (<["aperture" := VStr "f/2.8"]>
             (<["shutter_speed" := VStr "1/250s"]> ∅))).
Proof. vm_compute. reflexivity. Qed.

(** The superscript two passes [isdigit] and makes [int] raise. *)
Example parse_superscript_raises :
  exists msg,
    Advisor._parse_llm_response ("iso " +:+ String (ascii_of_nat 178) "")
    = Raise (Exn "ValueError" msg).
Proof. eexists. vm_compute. reflexivity. Qed.

(** ** llm_advisor.py: suggest *)

Lemma rule_based_source (prompt : string) (cs : Advisor.settings_arg) :
  Advisor._rule_based_suggestions prompt cs !! "source"
  = Some (VStr "rule-based").
Proof.
  unfold Advisor._rule_based_suggestions.
  repeat match goal with |- context [if ?b then _ else _] => destruct b end;
    reflexivity.
Qed.

(** When the guarded branch of [suggest] completes: the API call
    returned, its first choice carries a text, and the text was parsed. *)
Lemma llm_branch_returns `{Advisor.OpenAI, Runtime} (c : Advisor.client)
  (prompt : string) (cs : Advisor.settings_arg) (d : gmap string pyval) :
  Advisor.llm_branch c prompt cs = Ok d <->
  exists response text rest parsed,
    Advisor.chat_completions_create c (Advisor.build_request prompt cs)
    = Ok response
    /\ Advisor.choices response = Some text :: rest
    /\ Advisor._parse_llm_response text = Ok parsed
    /\ d = <["source" := VStr "llm"]> (<["explanation" := VStr text]> parsed).
Proof.
  unfold Advisor.llm_branch, Advisor.first_content. split.
  - intros Hb.
    destruct (Advisor.chat_completions_create c _) as [response|e] eqn:Hc;
      [rewrite bind_ok in Hb | discriminate].
    destruct (Advisor.choices response) as [|[text|] rest] eqn:Hch;
      [discriminate | | discriminate].
    rewrite bind_ok in Hb.
    destruct (Advisor._parse_llm_response text) as [parsed|e] eqn:Hp;
      [rewrite bind_ok in Hb | discriminate].
    injection Hb as <-. exists response, text, rest, parsed. auto.
  - intros (response & text & rest & parsed & -> & Hch & Hp & ->).
    rewrite bind_ok, Hch, bind_ok, Hp, bind_ok. reflexivity.
Qed.

Lemma llm_branch_source `{Advisor.OpenAI, Runtime} (c : Advisor.client)
  (prompt : string) (cs : Advisor.settings_arg) (d : gmap string pyval) :
  Advisor.llm_branch c prompt cs = Ok d -> d !! "source" = Some (VStr "llm").
Proof.
  intros Hb. apply llm_branch_returns in Hb.
  destruct Hb as (response & text & rest & parsed & _ & _ & _ & ->).
  apply lookup_insert_eq.
Qed.

(** C2, as the code has it.  For every prompt and optional current
    settings, [suggest] returns a dict and never raises.  With a
    configured client, the dict with source "llm" is returned when the
    whole guarded block completes: the request is answered, the first
    choice carries a text and the text is parsed; that an API call
    succeeds is not enough.  The rule-based suggestion, with source
    "rule-based", is returned exactly when no client is configured or
    the guarded block raises, at the call or after it. *)
Theorem suggest_falls_back `{Advisor.OpenAI, Runtime}
  (self : Advisor.LLMAdvisor) (prompt : string)
  (current_settings : Advisor.settings_arg) :
  let rule_based :=
    Advisor._rule_based_suggestions prompt current_settings in
  (exists d, Advisor.suggest self prompt current_settings = Ok d)
  /\ (forall c d,
        Advisor.advisor_client self = Some c ->
        Advisor.llm_branch c prompt current_settings = Ok d ->
        Advisor.suggest self prompt current_settings = Ok d
        /\ d !! "source" = Some (VStr "llm"))
  /\ rule_based !! "source" = Some (VStr "rule-based")
  /\ (Advisor.suggest self prompt current_settings = Ok rule_based <->
      Advisor.advisor_client self = None
      \/ exists c e,
           Advisor.advisor_client self = Some c
           /\ Advisor.llm_branch c prompt current_settings = Raise e)
  /\ (forall c d,
        Advisor.llm_branch c prompt current_settings = Ok d <->
        exists response text rest parsed,
          Advisor.chat_completions_create c
            (Advisor.build_request prompt current_settings) = Ok response
          /\ Advisor.choices response = Some text :: rest
          /\ Advisor._parse_llm_response text = Ok parsed
          /\ d = <["source" := VStr "llm"]>
                   (<["explanation" := VStr text]> parsed)).
Proof.
  intros rule_based. unfold Advisor.suggest.
  pose proof (rule_based_source prompt current_settings) as Hsrc.
  fold rule_based in Hsrc |- *.
  destruct (Advisor.advisor_client self) as [c|] eqn:Hclient.
  - destruct (Advisor.llm_branch c prompt current_settings) as [d|e] eqn:Hb;
      cbn [try_except].
    + split; [eauto|]. split.
      { intros c' d' [= <-] Hd'. rewrite Hb in Hd'. injection Hd' as <-.
        split; [reflexivity | now apply llm_branch_source in Hb]. }
      split; [exact Hsrc|]. split; [|intros; apply llm_branch_returns].
      split.
      * intros [= Heq]. apply llm_branch_source in Hb. subst d.
        rewrite Hsrc in Hb. discriminate.
      * intros [Hn | (c' & e & [= <-] & He)]; [discriminate|].
        rewrite Hb in He. discriminate.
    + split; [eauto|]. split.
      { intros c' d' [= <-] Hd'. rewrite Hb in Hd'. discriminate. }
      split; [exact Hsrc|]. split; [|intros; apply llm_branch_returns].
      split; [|reflexivity]. intros _. right. exists c, e. auto.
  - split; [eauto|]. split; [intros c d [=]|].
    split; [exact Hsrc|]. split; [|intros; apply llm_branch_returns].
    split; [auto | reflexivity].
Qed.

(** A client whose answer has no text: the call returned, and the advisor
    still answers with the rule-based suggestion. *)
Example suggest_without_content :
  let c : @Advisor.client Reference.openai :=
    fun _ => Ok (Advisor.ChatCompletion [None]) in
  @Advisor.suggest Reference.openai Reference.runtime
    (Advisor.MkAdvisor Reference.openai (Some "sk") (Some c))
    "fast cars" None
  = Ok Advisor.action_profile.
Proof. reflexivity. Qed.

Example suggest_with_answer :
  let c : @Advisor.client Reference.openai :=
    fun _ => Ok (Advisor.ChatCompletion [Some "Try ISO 800 at f/4"]) in
  @Advisor.suggest Reference.openai Reference.runtime
    (Advisor.MkAdvisor Reference.openai (Some "sk") (Some c))
    "fast cars" None
  = Ok (<["source" := VStr "llm"]>
          (<["explanation" := VStr "Try ISO 800 at f/4"]>
             (<["aperture" := VStr "f/4"]> (<["iso" := VInt 800]> ∅)))).
Proof. vm_compute. reflexivity. Qed.

(** C2 as stated fails: the API call succeeds, and the advisor still
    answers with the rule-based suggestion, because what follows the call
    inside the same [try] raises.  Once the first choice carries no text,
    once its text holds a superscript digit on which [int] fails. *)
Lemma suggest_rule_based_after_successful_call :
  let no_text : @Advisor.client Reference.openai :=
    fun _ => Ok (Advisor.ChatCompletion [None]) in
  let odd_text : @Advisor.client Reference.openai :=
    fun _ =>
      Ok (Advisor.ChatCompletion
            [Some ("iso " +:+ String (ascii_of_nat 178) "")]) in
  let suggest c :=
    @Advisor.suggest Reference.openai Reference.runtime
      (Advisor.MkAdvisor Reference.openai (Some "sk") (Some c))
      "fast cars" None in
  (exists response,
     @Advisor.chat_completions_create Reference.openai no_text
       (@Advisor.build_request Reference.runtime "fast cars" None)
     = Ok response)
  /\ suggest no_text = Ok Advisor.action_profile
  /\ (exists response,
        @Advisor.chat_completions_create Reference.openai odd_text
          (@Advisor.build_request Reference.runtime "fast cars" None)
        = Ok response)
  /\ suggest odd_text = Ok Advisor.action_profile
  /\ Advisor.action_profile !! "source" = Some (VStr "rule-based")
  /\ Advisor.action_profile !! "source" <> Some (VStr "llm").
Proof.
  cbv zeta. split; [eexists; reflexivity|]. split; [reflexivity|].
  split; [eexists; reflexivity|]. split; [vm_compute; reflexivity|].
  split; [reflexivity | discriminate].
Qed.

(** ** settings_predictor.py: the brightness heuristic *)

Lemma Qltb_lt (a b : Q) : Qltb a b = true <-> (a < b)%Q.
Proof.
  unfold Qltb. rewrite negb_true_iff. split.
  - intros H. apply Qnot_le_lt. intros Hle.
    apply Qle_bool_iff in Hle. congruence.
  - intros H. destruct (Qle_bool b a) eqn:E; [|reflexivity].
    apply Qle_bool_iff in E. exfalso. exact (Qlt_not_le _ _ H E).
Qed.

Lemma Qltb_ge (a b : Q) : Qltb a b = false <-> (b <= a)%Q.
Proof.
  unfold Qltb. rewrite negb_false_iff. apply Qle_bool_iff.
Qed.

Lemma fold_fadd_fin (qs : list Q) (acc : Q) :
  fold_left fadd (map Fin qs) (Fin acc) = Fin (fold_left Qplus qs acc).
Proof.
  revert acc. induction qs as [|q qs IH]; intros acc; [reflexivity|].
  cbn [map fold_left]. exact (IH (acc + q)%Q).
Qed.

Lemma fold_left_Qplus (qs : list Q) (acc : Q) :
  (fold_left Qplus qs acc == acc + Qsum qs)%Q.
Proof.
  revert acc. induction qs as [|q qs IH]; intros acc; cbn [fold_left Qsum fold_right].
  - ring.
  - rewrite IH. unfold Qsum. ring.
Qed.

Lemma is_zero_of_pos (n : nat) :
  n <> O -> is_zero (inject_Z (Z.of_nat n)) = false.
Proof.
  intros Hn. unfold is_zero. destruct (Qeq_bool _ 0) eqn:E; [|reflexivity].
  apply Qeq_bool_eq in E. unfold Qeq in E. simpl in E. lia.
Qed.

(** [np.mean] of finitely many numbers is their arithmetic mean. *)
Lemma np_mean_finite (arr : Imaging.ndarray) (qs : list Q) :
  Imaging.flatten arr = map Fin qs -> qs <> [] ->
  exists q, Imaging.np_mean arr = Fin q /\ (q == Qmean qs)%Q.
Proof.
  intros Hflat Hne. unfold Imaging.np_mean, Imaging.fsum. rewrite Hflat.
  unfold of_int at 1. rewrite fold_fadd_fin, length_map.
  unfold np_div, of_int. rewrite is_zero_of_pos by (destruct qs; auto; discriminate).
  eexists. split; [reflexivity|]. unfold Qmean.
  rewrite fold_left_Qplus. change (inject_Z 0) with 0%Q. now rewrite Qplus_0_l.
Qed.

Lemma heuristic_dict_dom (iso : Z) (a s n : string) (x : pyfloat) :
  dom (<["iso" := VInt iso]>
         (<["aperture" := VStr a]>
            (<["shutter_speed" := VStr s]>
               (<["avg_brightness" := VFloat x]>
                  (<["note" := VStr n]> (∅ : gmap string pyval))))))
  = keys ["iso"; "aperture"; "shutter_speed"; "avg_brightness"; "note"].
Proof.
  unfold keys. rewrite !dom_insert_L, dom_empty_L. simpl. set_solver.
Qed.

(** What the heuristic returns once the image is decoded. *)
Lemma rule_based_prediction_decoded `{Imaging.Pillow}
  (image_bytes : list byte) (arr : Imaging.ndarray) :
  grayscale image_bytes = Ok arr ->
  exists iso aperture shutter,
    Predictor._rule_based_prediction image_bytes
    = Ok (<["iso" := VInt iso]>
            (<["aperture" := VStr aperture]>
               (<["shutter_speed" := VStr shutter]>
                  (<["avg_brightness" := VFloat (Imaging.np_mean arr)]>
                     (<["note" := VStr heuristic_note]> ∅)))))
    /\ (iso, aperture, shutter)
       = (if flt (Imaging.np_mean arr) (of_int 85)
          then (1600, "f/2.8", "1/60s")
          else if flt (Imaging.np_mean arr) (of_int 170)
               then (400, "f/5.6", "1/125s")
               else (100, "f/8.0", "1/500s")).
Proof.
  unfold grayscale, Predictor._rule_based_prediction. intros Hg.
  destruct (Imaging.Image_open image_bytes) as [img|e]; [|discriminate].
  run_bind.
  destruct (if negb (String.eqb (Imaging.image_mode img) "L")
            then Imaging.image_convert img "L" else Ok img) as [gray|e];
    [|discriminate].
  run_bind. rewrite Hg. run_bind.
  destruct (flt (Imaging.np_mean arr) (of_int 85));
    [|destruct (flt (Imaging.np_mean arr) (of_int 170))];
    do 3 eexists; split; reflexivity.
Qed.

Lemma rule_based_prediction_undecoded `{Imaging.Pillow}
  (image_bytes : list byte) (e : exn) :
  grayscale image_bytes = Raise e <->
  Predictor._rule_based_prediction image_bytes = Raise e.
Proof.
  unfold grayscale, Predictor._rule_based_prediction.
  destruct (Imaging.Image_open image_bytes) as [img|e0]; [|run_bind; split; intros [= ->]; reflexivity].
  run_bind.
  destruct (if negb (String.eqb (Imaging.image_mode img) "L")
            then Imaging.image_convert img "L" else Ok img) as [gray|e0];
    [|run_bind; split; intros [= ->]; reflexivity].
  run_bind.
  destruct (Imaging.np_array gray) as [arr|e0]; [|run_bind; split; intros [= ->]; reflexivity].
  run_bind. split; [discriminate|].
  destruct (flt (Imaging.np_mean arr) (of_int 85));
    [|destruct (flt (Imaging.np_mean arr) (of_int 170))]; discriminate.
Qed.

(** C4.  For every image that Pillow decodes to a grayscale array, the
    heuristic returns a dict that records the mean pixel value of that
    array (the arithmetic mean of its pixels) and one of three profiles
    chosen by it: ISO 1600, f/2.8, 1/60s for a mean below 85; ISO 400,
    f/5.6, 1/125s for a mean of at least 85 and below 170; ISO 100, f/8.0,
    1/500s otherwise (a mean of at least 170, or no mean at all). *)
Theorem rule_based_prediction_by_brightness `{Imaging.Pillow}
  (image_bytes : list byte) (arr : Imaging.ndarray) :
  grayscale image_bytes = Ok arr ->
  exists d,
    Predictor._rule_based_prediction image_bytes = Ok d
    /\ dom d
       = keys ["iso"; "aperture"; "shutter_speed"; "avg_brightness"; "note"]
    /\ d !! "avg_brightness" = Some (VFloat (Imaging.np_mean arr))
    /\ d !! "note" = Some (VStr heuristic_note)
    /\ (forall qs, Imaging.flatten arr = map Fin qs -> qs <> [] ->
          exists q, Imaging.np_mean arr = Fin q /\ (q == Qmean qs)%Q)
    /\ match Imaging.np_mean arr with
       | Fin q =>
           ((q < 85)%Q -> has_settings d 1600 "f/2.8" "1/60s")
           /\ ((85 <= q)%Q -> (q < 170)%Q ->
               has_settings d 400 "f/5.6" "1/125s")
           /\ ((170 <= q)%Q -> has_settings d 100 "f/8.0" "1/500s")
       | NaN => has_settings d 100 "f/8.0" "1/500s"
       end.
Proof.
  intros Hg.
  destruct (rule_based_prediction_decoded _ _ Hg)
    as (iso & aperture & shutter & Hd & Hsel).
  eexists. split; [exact Hd|].
  split; [apply heuristic_dict_dom|].
  split; [reflexivity|]. split; [reflexivity|].
  split; [intros qs; apply np_mean_finite|].
  destruct (Imaging.np_mean arr) as [q|].
  - unfold flt, of_int in Hsel.
    destruct (Qltb q (inject_Z 85)) eqn:H85;
      [|destruct (Qltb q (inject_Z 170)) eqn:H170];
      injection Hsel as -> -> ->.
    + apply Qltb_lt in H85. unfold inject_Z in H85.
      split; [intros _; repeat split | split; intros; exfalso; lra].
    + apply Qltb_ge in H85. apply Qltb_lt in H170. unfold inject_Z in *.
      split; [intros; exfalso; lra | split; [intros; repeat split|]].
      intros; exfalso; lra.
    + apply Qltb_ge in H85. apply Qltb_ge in H170. unfold inject_Z in *.
      split; [intros; exfalso; lra | split; [intros; exfalso; lra|]].
      intros _; repeat split.
  - cbn in Hsel. injection Hsel as -> -> ->. repeat split.
Qed.

Lemma rule_based_prediction_by_brightness_witness :
  @grayscale (Reference.pillow []) Reference.dark_image
  = Ok (Imaging.Arr [Imaging.Arr [Imaging.Scalar (of_int 10);
                                  Imaging.Scalar (of_int 20)];
                     Imaging.Arr [Imaging.Scalar (of_int 30);
                                  Imaging.Scalar (of_int 40)]])
  /\ exists d,
       @Predictor._rule_based_prediction (Reference.pillow [])
         Reference.dark_image = Ok d
       /\ has_settings d 1600 "f/2.8" "1/60s".
Proof.
  assert (@grayscale (Reference.pillow []) Reference.dark_image
          = Ok (Imaging.Arr [Imaging.Arr [Imaging.Scalar (of_int 10);
                                          Imaging.Scalar (of_int 20)];
                             Imaging.Arr [Imaging.Scalar (of_int 30);
                                          Imaging.Scalar (of_int 40)]]))
    as Hg by reflexivity.
  split; [exact Hg|].
  destruct (@rule_based_prediction_by_brightness (Reference.pillow [])
              _ _ Hg) as (d & Hd & _ & _ & _ & _ & Hsel).
  exists d. split; [exact Hd|]. apply Hsel. reflexivity.
Defined.

Example medium_image_profile :
  exists d,
    @Predictor._rule_based_prediction (Reference.pillow [])
      Reference.medium_image = Ok d
    /\ has_settings d 400 "f/5.6" "1/125s".
Proof. eexists. split; [reflexivity|]. repeat split. Qed.

Example bright_image_profile :
  exists d,
    @Predictor._rule_based_prediction (Reference.pillow [])
      Reference.bright_image = Ok d
    /\ has_settings d 100 "f/8.0" "1/500s".
Proof. eexists. split; [reflexivity|]. repeat split. Qed.

(** ** settings_predictor.py: predict *)

Lemma parse_outputs_shape `{Runtime} (outputs : list Imaging.ndarray)
  (d : gmap string pyval) :
  Predictor.parse_outputs outputs = Ok d ->
  exists iso aperture shutter confidence,
    d = <["iso" := VInt iso]>
          (<["aperture" := VStr aperture]>
             (<["shutter_speed" := VStr shutter]>
                (<["confidence" := VFloat confidence]> ∅))).
Proof.
  unfold Predictor.parse_outputs. intros Hd. peel Hd.
  injection Hd as <-. eauto.
Qed.

Lemma onnx_branch_shape `{Imaging.Pillow, Imaging.Onnx, Runtime}
  (s : Imaging.session) (image_bytes : list byte) (d : gmap string pyval) :
  Predictor.onnx_branch s image_bytes = Ok d ->
  dom d = keys ["iso"; "aperture"; "shutter_speed"; "confidence"]
  /\ is_Some (d !! "confidence").
Proof.
  unfold Predictor.onnx_branch. intros Hd. peel Hd. injection Hd as <-.
  match goal with
  | E : Predictor.parse_outputs _ = Ok _ |- _ =>
      destruct (parse_outputs_shape _ _ E) as (i & ap & sh & c & ->)
  end.
  split.
  - unfold keys. rewrite !dom_insert_L, dom_empty_L. simpl. set_solver.
  - eexists. reflexivity.
Qed.

(** An exception that leaves [predict] is the heuristic's own: the image
    could not be decoded for it. *)
Lemma predict_raises_only_undecoded
  `{Imaging.Pillow, Imaging.Onnx, Runtime}
  (self : Predictor.SettingsPredictor) (image_bytes : list byte) (e : exn) :
  Predictor.predict self image_bytes = Raise e ->
  grayscale image_bytes = Raise e
  /\ (Predictor.predictor_session self = None
      \/ exists s e',
           Predictor.predictor_session self = Some s
           /\ Predictor.onnx_branch s image_bytes = Raise e').
Proof.
  unfold Predictor.predict.
  destruct (Predictor.predictor_session self) as [s|].
  - destruct (Predictor.onnx_branch s image_bytes) as [d|e'] eqn:Hb;
      cbn [try_except]; [discriminate|].
    intros Hr. split; [now apply rule_based_prediction_undecoded|].
    right. eauto.
  - intros Hr. split; [now apply rule_based_prediction_undecoded | now left].
Qed.

(** C1, as the code has it.  For every byte string that Pillow decodes to
    a grayscale array, [predict_settings] returns a dict: the ONNX
    prediction, with the keys iso, aperture, shutter_speed and
    confidence, when a session is loaded and the ONNX path completes; and
    the brightness heuristic's dict, with the keys iso, aperture,
    shutter_speed, avg_brightness and note, exactly when no session is
    loaded or the ONNX path raises.  The exception of the ONNX path does
    not reach the caller. *)
Theorem predict_falls_back `{Imaging.Pillow, Imaging.Onnx, Runtime}
  (self : Predictor.SettingsPredictor) (image_bytes : list byte)
  (arr : Imaging.ndarray) :
  grayscale image_bytes = Ok arr ->
  exists heuristic,
    Predictor._rule_based_prediction image_bytes = Ok heuristic
    /\ dom heuristic
       = keys ["iso"; "aperture"; "shutter_speed"; "avg_brightness"; "note"]
    /\ heuristic !! "note" = Some (VStr heuristic_note)
    /\ (exists d, Predictor.predict_settings self image_bytes = Ok d)
    /\ (forall s d,
          Predictor.predictor_session self = Some s ->
          Predictor.onnx_branch s image_bytes = Ok d ->
          Predictor.predict_settings self image_bytes = Ok d
          /\ dom d = keys ["iso"; "aperture"; "shutter_speed"; "confidence"])
    /\ (Predictor.predict_settings self image_bytes = Ok heuristic <->
        Predictor.predictor_session self = None
        \/ exists s e,
             Predictor.predictor_session self = Some s
             /\ Predictor.onnx_branch s image_bytes = Raise e).
Proof.
  intros Hg.
  destruct (rule_based_prediction_decoded _ _ Hg)
    as (iso & aperture & shutter & Hh & _).
  eexists. split; [exact Hh|].
  split; [apply heuristic_dict_dom|]. split; [reflexivity|].
  unfold Predictor.predict_settings, Predictor.predict.
  destruct (Predictor.predictor_session self) as [s|].
  - destruct (Predictor.onnx_branch s image_bytes) as [d|e] eqn:Hb;
      cbn [try_except].
    + destruct (onnx_branch_shape _ _ _ Hb) as [Hdom [c Hc]].
      split; [eauto|]. split.
      { intros s' d' [= <-] Hd'. rewrite Hb in Hd'. injection Hd' as <-. auto. }
      split.
      * intros [= ->]. discriminate Hc.
      * intros [Hn | (s' & e & [= <-] & He)]; [discriminate|].
        rewrite Hb in He. discriminate.
    + rewrite Hh. split; [eauto|]. split.
      { intros s' d' [= <-] Hd'. rewrite Hb in Hd'. discriminate. }
      split; [|reflexivity]. intros _. right. eauto.
  - rewrite Hh. split; [eauto|]. split; [intros s d [=]|].
    split; [auto | reflexivity].
Qed.

Lemma predict_falls_back_witness :
  @grayscale (Reference.pillow []) Reference.medium_image
  = Ok (Imaging.Arr [Imaging.Arr [Imaging.Scalar (of_int 100);
                                  Imaging.Scalar (of_int 100)];
                     Imaging.Arr [Imaging.Scalar (of_int 120);
                                  Imaging.Scalar (of_int 120)]])
  /\ exists d,
       @Predictor.predict_settings (Reference.pillow []) Reference.onnx
         Reference.runtime
         (Predictor.MkPredictor Reference.onnx "model.onnx" None)
         Reference.medium_image = Ok d.
Proof.
  assert (@grayscale (Reference.pillow []) Reference.medium_image
          = Ok (Imaging.Arr [Imaging.Arr [Imaging.Scalar (of_int 100);
                                          Imaging.Scalar (of_int 100)];
                             Imaging.Arr [Imaging.Scalar (of_int 120);
                                          Imaging.Scalar (of_int 120)]]))
    as Hg by reflexivity.
  split; [exact Hg|].
  destruct (@predict_falls_back (Reference.pillow []) Reference.onnx
              Reference.runtime
              (Predictor.MkPredictor Reference.onnx "model.onnx" None)
              _ _ Hg) as (h & _ & _ & _ & Hd & _).
  exact Hd.
Defined.

(** C1 as stated fails: with no session loaded, a byte string that is not
    an image makes [predict_settings] raise instead of returning the
    heuristic's dict; and so it does with a session loaded, whose ONNX
    path raises on the same bytes. *)
Lemma predict_undecodable_raises :
  Predictor.predictor_session
    (Predictor.MkPredictor Reference.onnx "model.onnx" None) = None
  /\ (forall d,
        @Predictor.predict_settings (Reference.pillow []) Reference.onnx
          Reference.runtime
          (Predictor.MkPredictor Reference.onnx "model.onnx" None) []
        <> Ok d)
  /\ @Predictor.predict_settings (Reference.pillow []) Reference.onnx
       Reference.runtime
       (Predictor.MkPredictor Reference.onnx "model.onnx" None) []
     = Raise Reference.unidentified
  /\ @Predictor.onnx_branch (Reference.pillow []) Reference.onnx
       Reference.runtime [] [] = Raise Reference.unidentified
  /\ @Predictor.predict_settings (Reference.pillow []) Reference.onnx
       Reference.runtime
       (Predictor.MkPredictor Reference.onnx "model.onnx" (Some [])) []
     = Raise Reference.unidentified.
Proof. repeat split. intros d. discriminate. Qed.

(** A loaded session on a decodable image: the model's prediction, and the
    heuristic when the model's third output is zero. *)
Example predict_with_session :
  @Predictor.predict_settings (Reference.pillow []) Reference.onnx
    Reference.runtime
    (Predictor.MkPredictor Reference.onnx "model.onnx"
       (Some [Imaging.Arr [Imaging.Arr [Imaging.Scalar (Fin (1 # 16));
                                        Imaging.Scalar (Fin (1 # 4));
                                        Imaging.Scalar (Fin (1 # 800000))]]]))
    Reference.dark_image
  = Ok (<["iso" := VInt 400]>
          (<["aperture" := VStr "f/5.5"]>
             (<["shutter_speed" := VStr "1/100s"]>
                (<["confidence" := VFloat (Fin (8 # 10))]> ∅)))).
Proof. vm_compute. reflexivity. Qed.

Example predict_with_zero_output :
  exists d,
    @Predictor.predict_settings (Reference.pillow []) Reference.onnx
      Reference.runtime
      (Predictor.MkPredictor Reference.onnx "model.onnx"
         (Some [Imaging.Arr [Imaging.Arr [Imaging.Scalar (Fin (1 # 16));
                                          Imaging.Scalar (Fin (1 # 4));
                                          Imaging.Scalar (Fin 0)]]]))
      Reference.dark_image = Ok d
    /\ d !! "note" = Some (VStr heuristic_note).
Proof. eexists. split; vm_compute; reflexivity. Qed.

(** ** metadata_extractor.py and the /metadata endpoint *)

Lemma extract_body_open_fails `{Imaging.Pillow, Runtime}
  (image_bytes : list byte) (e : exn) :
  Imaging.Image_open image_bytes = Raise e ->
  Metadata.extract_body image_bytes = Raise e.
Proof. unfold Metadata.extract_body. now intros ->. Qed.

(** Every exception of the body comes back wrapped; a returned dict comes
    back as it is. *)
Lemma extract_metadata_cases `{Imaging.Pillow, Runtime}
  (image_bytes : list byte) :
  match Metadata.extract_body image_bytes with
  | Ok md => Metadata.extract_metadata image_bytes = Ok md
  | Raise e =>
      Metadata.extract_metadata image_bytes
      = Raise (Exn "Exception"
                 ("Failed to extract metadata: " +:+ exn_msg e))
  end.
Proof.
  unfold Metadata.extract_metadata.
  now destruct (Metadata.extract_body image_bytes).
Qed.

(** C3, as the code has it.  The predictor and the advisor fall back to
    their heuristic when the guarded path raises: for every image and
    every session whose guarded path raises, [predict_settings] is the
    brightness heuristic, which returns its dict whenever Pillow decodes
    the image; for every prompt whose LLM call raises,
    [suggest_parameters] returns the rule-based suggestion.
    [extract_metadata] has no fallback.  For every byte string on which
    [Image.open] fails it raises an [Exception] whose message is "Failed
    to extract metadata: " followed by the message of the failure, and
    the /metadata endpoint answers with an [HTTPException] of status 500
    carrying that message. *)
Theorem extract_metadata_reraises
  `{Imaging.Pillow, Imaging.Onnx, Advisor.OpenAI, Runtime}
  (image_bytes : list byte) (e : exn) :
  Imaging.Image_open image_bytes = Raise e ->
  Metadata.extract_metadata image_bytes
  = Raise (Exn "Exception" ("Failed to extract metadata: " +:+ exn_msg e))
  /\ Metadata.get_metadata (Metadata.MkUpload (Ok image_bytes))
     = Metadata.HTTPException 500
         ("Failed to extract metadata: " +:+ exn_msg e)
  /\ (forall self s other_bytes e',
        Predictor.predictor_session self = Some s ->
        Predictor.onnx_branch s other_bytes = Raise e' ->
        Predictor.predict_settings self other_bytes
        = Predictor._rule_based_prediction other_bytes
        /\ forall arr,
             grayscale other_bytes = Ok arr ->
             exists d,
               Predictor.predict_settings self other_bytes = Ok d
               /\ d !! "note" = Some (VStr heuristic_note)
               /\ d !! "avg_brightness"
                  = Some (VFloat (Imaging.np_mean arr)))
  /\ (forall advisor c prompt current_settings e',
        Advisor.advisor_client advisor = Some c ->
        Advisor.llm_branch c prompt current_settings = Raise e' ->
        Advisor.suggest_parameters advisor prompt current_settings
        = Ok (Advisor._rule_based_suggestions prompt current_settings)).
Proof.
  intros Hopen. apply extract_body_open_fails in Hopen.
  pose proof (extract_metadata_cases image_bytes) as Hm.
  rewrite Hopen in Hm. split; [exact Hm|]. split.
  - unfold Metadata.get_metadata. cbn [Metadata.file_read]. run_bind.
    rewrite Hm. reflexivity.
  - split.
    + intros self s other_bytes e' Hs Hb.
      assert (Predictor.predict_settings self other_bytes
              = Predictor._rule_based_prediction other_bytes) as Hfall.
      { unfold Predictor.predict_settings, Predictor.predict.
        now rewrite Hs, Hb. }
      split; [exact Hfall|]. intros arr Hg. rewrite Hfall.
      destruct (rule_based_prediction_decoded _ _ Hg)
        as (iso & aperture & shutter & -> & _).
      eexists. split; [reflexivity|]. split; reflexivity.
    + intros advisor c prompt cs e' Hc Hb.
      unfold Advisor.suggest_parameters, Advisor.suggest.
      now rewrite Hc, Hb.
Qed.

Lemma extract_metadata_reraises_witness :
  @Imaging.Image_open (Reference.pillow []) [] = Raise Reference.unidentified
  /\ @Metadata.extract_metadata (Reference.pillow []) Reference.runtime []
     = Raise (Exn "Exception"
                "Failed to extract metadata: cannot identify image file").
Proof.
  assert (@Imaging.Image_open (Reference.pillow []) []
          = Raise Reference.unidentified) as Hopen by reflexivity.
  split; [exact Hopen|].
  exact (proj1 (@extract_metadata_reraises (Reference.pillow [])
                  Reference.onnx Reference.openai Reference.runtime
                  [] Reference.unidentified Hopen)).
Defined.

(** C3 as stated fails: on a byte string that is not an image
    [extract_metadata] returns nothing, it raises, and the endpoint
    answers with status 500. *)
Lemma extract_metadata_no_fallback :
  @Imaging.Image_open (Reference.pillow []) [] = Raise Reference.unidentified
  /\ (forall md,
        @Metadata.extract_metadata (Reference.pillow []) Reference.runtime []
        <> Ok md)
  /\ @Metadata.get_metadata (Reference.pillow []) Reference.runtime
       (Metadata.MkUpload (Ok []))
     = Metadata.HTTPException 500
         "Failed to extract metadata: cannot identify image file".
Proof. repeat split. intros md. discriminate. Qed.

(** On an image without EXIF entries the dict has the three basic keys
    only. *)
Example extract_metadata_plain_image :
  @Metadata.extract_metadata (Reference.pillow []) Reference.runtime
    Reference.dark_image
  = Ok (Metadata.MkMetadata (VStr "PPM") "L" (2, 2) None None).
Proof. reflexivity. Qed.

(** ** preprocess.py: parsing camera settings *)

Lemma parse_camera_settings_iff `{Runtime}
  (exif_data : gmap Preprocess.tag pyval) (settings : gmap string pyfloat) :
  (Preprocess.parse_camera_settings exif_data).1 = Some settings <->
  exists iso aperture shutter,
    converted exif_data "ISOSpeedRatings" py_float = Some (Ok iso)
    /\ converted exif_data "FNumber" Preprocess.number_of
       = Some (Ok aperture)
    /\ converted exif_data "ExposureTime" Preprocess.number_of
       = Some (Ok shutter)
    /\ ((converted exif_data "FocalLength" Preprocess.number_of = None
         /\ settings = three_settings iso aperture shutter)
        \/ exists focal,
             converted exif_data "FocalLength" Preprocess.number_of
             = Some (Ok focal)
             /\ settings = <["focal_length" := focal]>
                             (three_settings iso aperture shutter)).
Proof.
  unfold Preprocess.parse_camera_settings, Preprocess.parse_body, converted,
    three_settings.
  destruct (exif_data !! (inl "ISOSpeedRatings" : Preprocess.tag)) as [vi|];
  destruct (exif_data !! (inl "FNumber" : Preprocess.tag)) as [va|];
  destruct (exif_data !! (inl "ExposureTime" : Preprocess.tag)) as [vs|];
  destruct (exif_data !! (inl "FocalLength" : Preprocess.tag)) as [vf|];
  cbn [fmap option_fmap option_map];
  repeat match goal with
         | |- context [py_float ?v] => destruct (py_float v)
         | |- context [Preprocess.number_of ?v] =>
             destruct (Preprocess.number_of v)
         end;
  cbn [mbind result_bind bind fst];
  try (vm_compute Preprocess.has_keys); cbv iota; cbn [fst].
  all: try (split;
            [discriminate
            | intros (? & ? & ? & ? & ? & ? & ?); discriminate]).
  all: split;
    [intros [= <-]; eauto 10
    | intros (? & ? & ? & [= <-] & [= <-] & [= <-]
              & [[? ->] | (? & [= <-] & ->)]);
      try discriminate; reflexivity].
Qed.

(** Parsed settings always carry the three mandatory keys. *)
Lemma parsed_settings_keys `{Runtime}
  (exif_data : gmap Preprocess.tag pyval) (settings : gmap string pyfloat) :
  (Preprocess.parse_camera_settings exif_data).1 = Some settings ->
  exists iso aperture shutter,
    settings !! "iso" = Some iso
    /\ settings !! "aperture" = Some aperture
    /\ settings !! "shutter_speed" = Some shutter
    /\ Preprocess.truthy (Some settings) = Some settings.
Proof.
  intros Hp. apply parse_camera_settings_iff in Hp.
  destruct Hp as (iso & ap & sh & _ & _ & _ & [[_ ->] | (fl & _ & ->)]);
    exists iso, ap, sh; unfold three_settings, Preprocess.truthy;
    repeat split.
Qed.

Lemma visit_row `{Imaging.Pillow, Runtime} (img_path : string) :
  exists out, Preprocess.visit img_path = Ok (dataset_row img_path, out).
Proof.
  unfold Preprocess.visit, dataset_row.
  destruct (Preprocess.extract_exif_data img_path) as [exif out1].
  cbn [fst]. destruct (Preprocess.truthy exif) as [exif_data|];
    [|eexists; reflexivity].
  cbn [mbind option_bind].
  destruct (Preprocess.parse_camera_settings exif_data) as [parsed out2] eqn:Hp.
  cbn [fst]. destruct parsed as [settings|]; [|eexists; reflexivity].
  assert ((Preprocess.parse_camera_settings exif_data).1 = Some settings)
    as Hs by now rewrite Hp.
  destruct (parsed_settings_keys _ _ Hs) as (iso & ap & sh & Hi & Ha & Hsh & Ht).
  rewrite Ht. unfold Preprocess.record_of, Preprocess.key_of.
  cbn [mbind option_bind]. rewrite Hi, Ha, Hsh. run_bind.
  cbn [mbind option_bind].
  destruct (settings !! "focal_length"); eexists; reflexivity.
Qed.

Lemma collect_rows `{Imaging.Pillow, Runtime} (image_files : list string)
  (data : list (list (string * pyval))) (out : list string) :
  exists out',
    Preprocess.collect image_files data out
    = Ok (data ++ omap dataset_row image_files, out').
Proof.
  revert data out. induction image_files as [|img_path rest IH];
    intros data out; cbn [Preprocess.collect].
  - exists out. change (omap dataset_row []) with (@nil (list (string * pyval))).
    now rewrite app_nil_r.
  - destruct (visit_row img_path) as [printed ->]. run_bind.
    change (omap dataset_row (img_path :: rest))
      with (match dataset_row img_path with
            | Some r => r :: omap dataset_row rest
            | None => omap dataset_row rest
            end).
    destruct (dataset_row img_path) as [r|].
    + destruct (IH (data ++ [r]) (out ++ printed)) as [out' ->].
      exists out'. do 2 f_equal. symmetry.
      exact (List.app_assoc data [r] (omap dataset_row rest)).
    + apply IH.
Qed.

Lemma truthy_iff {K : Type} `{Countable K} {V : Type}
  (o : option (gmap K V)) (d : gmap K V) :
  Preprocess.truthy o = Some d <-> o = Some d /\ d <> ∅.
Proof.
  unfold Preprocess.truthy. destruct o as [m|].
  - destruct (bool_decide (m = ∅)) eqn:E.
    + apply bool_decide_eq_true in E. split; [discriminate|].
      intros [[= ->] Hne]. contradiction.
    + apply bool_decide_eq_false in E. split.
      * intros [= ->]. auto.
      * intros [[= ->] _]. reflexivity.
  - split; [discriminate | intros [[=] _]].
Qed.

(** C6, as the code has it.  [parse_camera_settings] returns a settings
    dict exactly when the EXIF data has ISOSpeedRatings, FNumber and
    ExposureTime, each of them converts, and FocalLength, when it is
    there, converts as well; the dict then holds iso, aperture and
    shutter_speed, and focal_length when the tag is there; in every other
    case it returns None.  [create_dataset_from_images] appends a row for
    an image exactly when the image has EXIF entries and settings are
    parsed from them, with focal_length 0 when the settings have none; and
    the DataFrame it returns is made of these rows. *)
Theorem parse_camera_settings_complete `{Imaging.Pillow, Runtime}
  `{Preprocess.Platform} (exif_data : gmap Preprocess.tag pyval)
  (image_dir output_path : string) :
  (forall settings,
     (Preprocess.parse_camera_settings exif_data).1 = Some settings <->
     exists iso aperture shutter,
       converted exif_data "ISOSpeedRatings" py_float = Some (Ok iso)
       /\ converted exif_data "FNumber" Preprocess.number_of
          = Some (Ok aperture)
       /\ converted exif_data "ExposureTime" Preprocess.number_of
          = Some (Ok shutter)
       /\ ((converted exif_data "FocalLength" Preprocess.number_of = None
            /\ settings = three_settings iso aperture shutter)
           \/ exists focal,
                converted exif_data "FocalLength" Preprocess.number_of
                = Some (Ok focal)
                /\ settings = <["focal_length" := focal]>
                                (three_settings iso aperture shutter)))
  /\ (forall img_path row,
        dataset_row img_path = Some row <->
        exists exif settings iso aperture shutter,
          (Preprocess.extract_exif_data img_path).1 = Some exif
          /\ exif <> ∅
          /\ (Preprocess.parse_camera_settings exif).1 = Some settings
          /\ settings !! "iso" = Some iso
          /\ settings !! "aperture" = Some aperture
          /\ settings !! "shutter_speed" = Some shutter
          /\ row = [("image_path", VStr img_path); ("iso", VFloat iso);
                    ("aperture", VFloat aperture);
                    ("shutter_speed", VFloat shutter);
                    ("focal_length",
                     match settings !! "focal_length" with
                     | Some focal => VFloat focal
                     | None => VInt 0
                     end)])
  /\ (let image_files :=
        Preprocess.glob image_dir "*.jpg" ++ Preprocess.glob image_dir "*.jpeg"
        ++ Preprocess.glob image_dir "*.JPG"
        ++ Preprocess.glob image_dir "*.JPEG" in
      let df := Preprocess.pd_DataFrame (omap dataset_row image_files) in
      match Preprocess.to_csv df output_path with
      | Ok _ =>
          exists out,
            Preprocess.create_dataset_from_images image_dir output_path
            = Ok (df, out)
      | Raise e =>
          Preprocess.create_dataset_from_images image_dir output_path
          = Raise e
      end).
Proof.
  split; [intros settings; apply parse_camera_settings_iff|]. split.
  - intros img_path row. unfold dataset_row. split.
    + intros Hr.
      destruct (Preprocess.truthy (Preprocess.extract_exif_data img_path).1)
        as [exif|] eqn:Ht; [|discriminate].
      apply truthy_iff in Ht. destruct Ht as [He Hne].
      cbn [mbind option_bind] in Hr.
      destruct ((Preprocess.parse_camera_settings exif).1)
        as [settings|] eqn:Hp; [|discriminate].
      cbn [mbind option_bind] in Hr.
      destruct (settings !! "iso") as [iso|] eqn:Hi; [|discriminate].
      cbn [mbind option_bind] in Hr.
      destruct (settings !! "aperture") as [ap|] eqn:Ha; [|discriminate].
      cbn [mbind option_bind] in Hr.
      destruct (settings !! "shutter_speed") as [sh|] eqn:Hs; [|discriminate].
      cbn [mbind option_bind] in Hr. injection Hr as <-.
      exists exif, settings, iso, ap, sh. repeat split; auto.
    + intros (exif & settings & iso & ap & sh & He & Hne & Hp & Hi & Ha
              & Hs & ->).
      rewrite (proj2 (truthy_iff _ _) (conj He Hne)).
      cbn [mbind option_bind]. rewrite Hp. cbn [mbind option_bind].
      rewrite Hi, Ha, Hs. cbn [mbind option_bind].
      destruct (settings !! "focal_length"); reflexivity.
  - intros image_files df. unfold Preprocess.create_dataset_from_images.
    fold image_files.
    destruct (collect_rows image_files []
                ["Processing "
                 +:+ py_str (VInt (Z.of_nat (length image_files)))
                 +:+ " images..."]) as [out' Hc].
    rewrite Hc. run_bind. rewrite app_nil_l. fold df.
    destruct (Preprocess.to_csv df output_path); run_bind;
      [eexists; reflexivity | reflexivity].
Qed.

(** C6 as stated fails: the EXIF data of a photograph whose focal length
    is the pair (50, 0) yields iso, aperture and shutter_speed without a
    conversion error, and yet no settings are returned and the image gets
    no dataset row. *)
Lemma parse_drops_bad_focal_length :
  @converted Reference.runtime Reference.exif_dict_bad_focal
    "ISOSpeedRatings" (@py_float Reference.runtime) = Some (Ok (Fin 100))
  /\ @converted Reference.runtime Reference.exif_dict_bad_focal
       "FNumber" (@Preprocess.number_of Reference.runtime) = Some (Ok (Fin (28 # 10)))
  /\ @converted Reference.runtime Reference.exif_dict_bad_focal
       "ExposureTime" (@Preprocess.number_of Reference.runtime) = Some (Ok (Fin (1 # 100)))
  /\ @Preprocess.parse_camera_settings Reference.runtime
       Reference.exif_dict_bad_focal
     = (None, ["Error parsing camera settings: float division by zero"])
  /\ @Preprocess.extract_exif_data (Reference.pillow Reference.album)
       Reference.runtime "a.jpg"
     = (Some Reference.exif_dict_bad_focal, [])
  /\ @dataset_row (Reference.pillow Reference.album) Reference.runtime
       "a.jpg" = None.
Proof. repeat split; vm_compute; reflexivity. Qed.

(** The photograph without a focal length gets a row with focal_length 0. *)
Example dataset_of_album :
  omap (@dataset_row (Reference.pillow Reference.album) Reference.runtime)
    ["a.jpg"; "b.jpg"; "c.jpg"]
  = [[("image_path", VStr "b.jpg"); ("iso", VFloat (Fin 100));
      ("aperture", VFloat (Fin (28 # 10)));
      ("shutter_speed", VFloat (Fin (1 # 100))); ("focal_length", VInt 0)]].
Proof. vm_compute. reflexivity. Qed.

(** ** preprocess.py: split_dataset *)

Lemma take_min {A : Type} (l : list A) (k : nat) :
  take (Nat.min k (length l)) l = take k l.
Proof.
  destruct (Nat.le_gt_cases k (length l)) as [Hk|Hk].
  - now rewrite Nat.min_l.
  - rewrite Nat.min_r by lia. rewrite !take_ge by lia. reflexivity.
Qed.

Lemma slice_bound_nonneg (n : nat) (i : Z) :
  0 <= i -> slice_bound n i = Nat.min (Z.to_nat i) n.
Proof.
  intros Hi. unfold slice_bound.
  destruct (i <? 0) eqn:E; [apply Z.ltb_lt in E; lia|]. lia.
Qed.

(** [l[:a]] with a non-negative bound. *)
Lemma slice_prefix {A : Type} (l : list A) (a : Z) :
  0 <= a -> slice None (Some a) l = take (Z.to_nat a) l.
Proof.
  intros Ha. unfold slice. rewrite slice_bound_nonneg by exact Ha.
  rewrite Nat.sub_0_r. cbn [skipn]. apply take_min.
Qed.

(** [l[b:]] with a non-negative bound. *)
Lemma slice_suffix {A : Type} (l : list A) (b : Z) :
  0 <= b -> slice (Some b) None l = drop (Z.to_nat b) l.
Proof.
  intros Hb. unfold slice. rewrite slice_bound_nonneg by exact Hb.
  destruct (Nat.le_gt_cases (Z.to_nat b) (length l)) as [Hk|Hk].
  - rewrite Nat.min_l by exact Hk. apply take_ge. rewrite length_drop. lia.
  - rewrite Nat.min_r by lia. rewrite Nat.sub_diag.
    rewrite (drop_ge l (Z.to_nat b)) by lia. apply take_0.
Qed.

(** [l[a:a+b]] with non-negative [a] and [b]. *)
Lemma slice_middle {A : Type} (l : list A) (a b : Z) :
  0 <= a -> 0 <= b ->
  slice (Some a) (Some (a + b)) l = take (Z.to_nat b) (drop (Z.to_nat a) l).
Proof.
  intros Ha Hb. unfold slice. rewrite !slice_bound_nonneg by lia.
  destruct (Nat.le_gt_cases (Z.to_nat a) (length l)) as [Hk|Hk].
  - rewrite (Nat.min_l (Z.to_nat a)) by exact Hk.
    rewrite <- (take_min (drop (Z.to_nat a) l) (Z.to_nat b)).
    f_equal. rewrite length_drop. lia.
  - rewrite (Nat.min_r (Z.to_nat a)) by lia.
    rewrite (drop_ge l (length l)) by lia.
    rewrite (drop_ge l (Z.to_nat a)) by lia. now rewrite !take_nil.
Qed.

Lemma three_parts {A : Type} (l : list A) (a b : nat) :
  take a l ++ take b (drop a l) ++ drop (a + b) l = l.
Proof.
  rewrite app_assoc, take_take_drop. apply take_drop.
Qed.

Lemma omap_lookup_seq {A : Type} (l1 l2 : list A) :
  omap (fun i => (l1 ++ l2) !! i) (seq (length l1) (length l2)) = l2.
Proof.
  revert l1. induction l2 as [|x l2 IH]; intros l1; [reflexivity|].
  cbn [length seq].
  change (omap (fun i => (l1 ++ x :: l2) !! i)
            (length l1 :: seq (S (length l1)) (length l2)))
    with (match (l1 ++ x :: l2) !! length l1 with
          | Some y =>
              y :: omap (fun i => (l1 ++ x :: l2) !! i)
                     (seq (S (length l1)) (length l2))
          | None =>
              omap (fun i => (l1 ++ x :: l2) !! i)
                (seq (S (length l1)) (length l2))
          end).
  rewrite list_lookup_middle by reflexivity. f_equal.
  specialize (IH (l1 ++ [x])). rewrite length_app in IH. cbn [length] in IH.
  rewrite Nat.add_1_r in IH. rewrite <- app_assoc in IH. exact IH.
Qed.

(** Taking the rows in the order of a permutation of their positions
    permutes them. *)
Lemma sample_all_permutes `{Preprocess.Platform} (df : Preprocess.DataFrame)
  (random_state : Z) :
  Permutation (Preprocess.permutation random_state
                 (length (Preprocess.rows df)))
    (seq 0 (length (Preprocess.rows df))) ->
  Permutation (Preprocess.rows (Preprocess.sample_all df random_state))
    (Preprocess.rows df).
Proof.
  intros Hp. unfold Preprocess.sample_all. cbn [Preprocess.rows].
  rewrite Hp. pose proof (omap_lookup_seq [] (Preprocess.rows df)) as Ho.
  cbn [app length] in Ho. now rewrite Ho.
Qed.



(** *** Signs in IEEE 754 arithmetic *)

Lemma round_aux_sign (prec emax : Z) (sx : bool) (mx ex : Z)
  (lx : SpecFloat.location) :
  signed sx (SpecFloat.binary_round_aux prec emax sx mx ex lx).
Proof.
  unfold SpecFloat.binary_round_aux.
  destruct (SpecFloat.shr_fexp prec emax mx ex lx) as [mrs1 e1].
  destruct (SpecFloat.shr_fexp prec emax _ e1 SpecFloat.loc_Exact)
    as [mrs2 e2].
  destruct (SpecFloat.shr_m mrs2) as [|m|m];
    [right; reflexivity | | left; reflexivity].
  destruct (e2 <=? emax - prec); right; reflexivity.
Qed.

Lemma of_Z_sign (f : Ieee.format) (z : Z) :
  0 <= z -> signed false (Ieee.of_Z f z).
Proof.
  intros Hz. unfold Ieee.of_Z, SpecFloat.binary_normalize.
  destruct z as [|p|p]; [right; reflexivity | | lia].
  unfold SpecFloat.binary_round.
  destruct (SpecFloat.shl_align p 0 _) as [mz ez]. apply round_aux_sign.
Qed.

Lemma fmul_sign (f : Ieee.format) (x y : Ieee.float) :
  signed (xorb (Ieee.negative x) (Ieee.negative y)) (Ieee.fmul f x y).
Proof.
  destruct x, y; cbn [Ieee.fmul SpecFloat.SFmul Ieee.negative];
    try (left; reflexivity); try (right; reflexivity).
  apply round_aux_sign.
Qed.

Lemma fdiv_sign (f : Ieee.format) (x y : Ieee.float) :
  signed (xorb (Ieee.negative x) (Ieee.negative y)) (Ieee.fdiv f x y).
Proof.
  destruct x, y; cbn [Ieee.fdiv SpecFloat.SFdiv Ieee.negative];
    try (left; reflexivity); try (right; reflexivity).
  destruct (SpecFloat.SFdiv_core_binary _ _ _ _ _ _) as [[mz ez] lz].
  apply round_aux_sign.
Qed.

(** [int] keeps the sign. *)
Lemma int_of_float_sign (x : Ieee.float) (a : Z) :
  Ieee.int_of_float x = Ok a ->
  (Ieee.negative x = false -> 0 <= a) /\ (Ieee.negative x = true -> a <= 0).
Proof.
  destruct x as [s|s| |s m e]; cbn [Ieee.int_of_float Ieee.negative];
    try discriminate; intros [= <-]; [lia|].
  pose proof (proj2 (Z.shiftl_nonneg (Zpos m) e) ltac:(lia)) as Hn.
  split; intros ->; lia.
Qed.

(** [int] raises on the infinities and on NaN only. *)
Lemma int_of_float_raises (x : Ieee.float) (e : exn) :
  Ieee.int_of_float x = Raise e ->
  (exists s, x = SpecFloat.S754_infinity s
             /\ e = Exn "OverflowError"
                      "cannot convert float infinity to integer")
  \/ (x = Ieee.nan
      /\ e = Exn "ValueError" "cannot convert float NaN to integer").
Proof.
  destruct x as [s|s| |s m ex]; cbn [Ieee.int_of_float]; try discriminate;
    intros [= <-]; [left; eauto | right; auto].
Qed.

Lemma int_times_raises (n : nat) (ratio : Ieee.float) (e : exn) :
  Ieee.int_times n ratio = Raise e ->
  exn_class e = "OverflowError" \/ exn_class e = "ValueError".
Proof.
  unfold Ieee.int_times, Ieee.of_int.
  destruct (Ieee.of_Z Ieee.binary64 (Z.of_nat n)); run_bind.
  2: { intros [= <-]. left. reflexivity. }
  all: intros Hr; apply int_of_float_raises in Hr as [(s0 & _ & ->)|[_ ->]];
    [left | right]; reflexivity.
Qed.

(** A ratio that is not below zero: a zero of either sign or a positive
    number. *)
Lemma fle_zero (x : Ieee.float) :
  Ieee.fle Ieee.zero x = true ->
  x <> Ieee.nan
  /\ (Ieee.negative x = false \/ x = SpecFloat.S754_zero true).
Proof.
  destruct x as [[|]|[|]| |[|] m e]; cbn; try discriminate; intros _;
    split; try discriminate; auto.
Qed.

Lemma int_times_nonneg (n : nat) (ratio : Ieee.float) :
  Ieee.fle Ieee.zero ratio = true ->
  match Ieee.int_times n ratio with
  | Ok a => 0 <= a
  | Raise e => exn_class e = "OverflowError" \/ exn_class e = "ValueError"
  end.
Proof.
  intros Hr. destruct (Ieee.int_times n ratio) as [a|e] eqn:Ht;
    [|exact (int_times_raises _ _ _ Ht)].
  revert Ht. unfold Ieee.int_times, Ieee.of_int.
  pose proof (of_Z_sign Ieee.binary64 (Z.of_nat n) ltac:(lia)) as Hx.
  destruct (fle_zero _ Hr) as [Hnan Hs].
  pose proof (fmul_sign Ieee.binary64 (Ieee.of_Z Ieee.binary64 (Z.of_nat n))
                ratio) as Hm.
  destruct (Ieee.of_Z Ieee.binary64 (Z.of_nat n)) as [s|s| |s m e] eqn:Ex;
    run_bind; try (intros Hd; discriminate Hd).
  - destruct Hs as [Hs| ->].
    + destruct Hx as [Hx|Hx]; [discriminate Hx|]. cbn in Hx. subst s.
      rewrite Hs in Hm. cbn [Ieee.negative xorb] in Hm.
      intros Ha. destruct Hm as [Hm|Hm]; [rewrite Hm in Ha; discriminate|].
      now apply (int_of_float_sign _ _ Ha).
    + cbn. intros [= <-]. lia.
  - destruct Hs as [Hs| ->].
    + destruct Hx as [Hx|Hx]; [discriminate Hx|]. cbn in Hx. subst s.
      rewrite Hs in Hm. cbn [Ieee.negative xorb] in Hm.
      intros Ha. destruct Hm as [Hm|Hm]; [rewrite Hm in Ha; discriminate|].
      now apply (int_of_float_sign _ _ Ha).
    + cbn. intros [= <-]. lia.
Qed.

(** *** No overflow in IEEE 754 arithmetic *)

Lemma digits2_size (p : positive) : SpecFloat.digits2_pos p = Pos.size p.
Proof. induction p; cbn; congruence. Qed.

Lemma Zdigits2_log2 (m : Z) :
  0 < m -> SpecFloat.Zdigits2 m = Z.log2 m + 1.
Proof.
  destruct m as [|p|p]; try lia. intros _. cbn [SpecFloat.Zdigits2].
  rewrite digits2_size. destruct p; simpl Pos.size; simpl Z.log2;
    rewrite ?Pos2Z.inj_succ; reflexivity.
Qed.

Lemma Zdigits2_succ (m : Z) :
  0 <= m -> SpecFloat.Zdigits2 (m + 1) <= SpecFloat.Zdigits2 m + 1.
Proof.
  intros Hm. destruct (Z.eq_dec m 0) as [->|Hne];
    [vm_compute; intros Hc; discriminate Hc|].
  rewrite !Zdigits2_log2 by lia.
  pose proof (Z.log2_succ_le m) as Hs. unfold Z.succ in Hs. lia.
Qed.

Lemma digits2_mul (a b : positive) :
  Zpos (SpecFloat.digits2_pos (a * b))
  <= Zpos (SpecFloat.digits2_pos a) + Zpos (SpecFloat.digits2_pos b).
Proof.
  pose proof (Zdigits2_log2 (Zpos (a * b)) ltac:(lia)) as Hab.
  pose proof (Zdigits2_log2 (Zpos a) ltac:(lia)) as Ha.
  pose proof (Zdigits2_log2 (Zpos b) ltac:(lia)) as Hb.
  cbn [SpecFloat.Zdigits2] in Hab, Ha, Hb. rewrite Hab, Ha, Hb.
  rewrite Pos2Z.inj_mul.
  pose proof (Z.log2_mul_above (Zpos a) (Zpos b) ltac:(lia) ltac:(lia)).
  lia.
Qed.

Lemma digits2_iter_xO (m d : positive) :
  Zpos (SpecFloat.digits2_pos (Pos.iter xO m d))
  = Zpos (SpecFloat.digits2_pos m) + Zpos d.
Proof.
  induction d as [|d IH] using Pos.peano_ind.
  - cbn. lia.
  - rewrite Pos.iter_succ. cbn [SpecFloat.digits2_pos]. lia.
Qed.

Lemma shr_1_spec (r : SpecFloat.shr_record) :
  0 <= SpecFloat.shr_m r ->
  0 <= SpecFloat.shr_m (SpecFloat.shr_1 r)
  /\ SpecFloat.Zdigits2 (SpecFloat.shr_m (SpecFloat.shr_1 r))
     = Z.max 0 (SpecFloat.Zdigits2 (SpecFloat.shr_m r) - 1).
Proof.
  destruct r as [m rr ss]. cbn [SpecFloat.shr_m].
  destruct m as [|[p|p|]|p]; cbn; lia.
Qed.

Lemma shr_iter_spec (p : positive) (r : SpecFloat.shr_record) :
  0 <= SpecFloat.shr_m r ->
  0 <= SpecFloat.shr_m (SpecFloat.iter_pos SpecFloat.shr_1 p r)
  /\ SpecFloat.Zdigits2
       (SpecFloat.shr_m (SpecFloat.iter_pos SpecFloat.shr_1 p r))
     = Z.max 0 (SpecFloat.Zdigits2 (SpecFloat.shr_m r) - Zpos p).
Proof.
  revert r. induction p as [p IH|p IH|]; intros r Hr;
    cbn [SpecFloat.iter_pos].
  - destruct (shr_1_spec r Hr) as [H1 E1].
    destruct (IH _ H1) as [H2 E2]. destruct (IH _ H2) as [H3 E3].
    split; [exact H3|]. lia.
  - destruct (IH _ Hr) as [H2 E2]. destruct (IH _ H2) as [H3 E3].
    split; [exact H3|]. lia.
  - apply shr_1_spec, Hr.
Qed.

Lemma shr_record_of_loc_m (m : Z) (l : SpecFloat.location) :
  SpecFloat.shr_m (SpecFloat.shr_record_of_loc m l) = m.
Proof. destruct l as [|[| |]]; reflexivity. Qed.

(** The first step of rounding: the exponent becomes the greater of [e]
    and the exponent of the format, and the mantissa loses as many
    digits. *)
Lemma shr_fexp_spec (prec emax m e : Z) (l : SpecFloat.location) :
  0 <= m ->
  let e1 := Z.max e (SpecFloat.fexp prec emax (SpecFloat.Zdigits2 m + e)) in
  0 <= SpecFloat.shr_m (SpecFloat.shr_fexp prec emax m e l).1
  /\ (SpecFloat.shr_fexp prec emax m e l).2 = e1
  /\ SpecFloat.Zdigits2 (SpecFloat.shr_m (SpecFloat.shr_fexp prec emax m e l).1)
     = Z.max 0 (SpecFloat.Zdigits2 m - (e1 - e)).
Proof.
  intros Hm e1. unfold SpecFloat.shr_fexp, SpecFloat.shr.
  pose proof (shr_record_of_loc_m m l) as Hrec.
  assert (0 <= SpecFloat.Zdigits2 m) as Hd
    by (destruct m; cbn; lia).
  destruct (SpecFloat.fexp prec emax (SpecFloat.Zdigits2 m + e) - e)
    as [|p|p] eqn:Hn; cbn [fst snd].
  - rewrite Hrec. subst e1. repeat split; lia.
  - destruct (shr_iter_spec p (SpecFloat.shr_record_of_loc m l)
                ltac:(rewrite Hrec; exact Hm)) as [H1 E1].
    rewrite Hrec in E1. subst e1. repeat split; lia.
  - rewrite Hrec. subst e1. repeat split; lia.
Qed.

Lemma round_nearest_even_cases (m : Z) (l : SpecFloat.location) :
  SpecFloat.round_nearest_even m l = m
  \/ SpecFloat.round_nearest_even m l = m + 1.
Proof.
  destruct l as [|[| |]]; cbn [SpecFloat.round_nearest_even]; auto.
  destruct (Z.even m); auto.
Qed.

(** Rounding a number below 2^B, with B within the range of the format,
    gives a zero or a finite number below 2^(B+1). *)
Lemma round_aux_finite (prec emax : Z) (s : bool) (m : positive) (e : Z)
  (l : SpecFloat.location) (B : Z) :
  1 <= prec -> 3 <= 2 * emax ->
  Zpos (SpecFloat.digits2_pos m) + e <= B -> B <= emax - prec ->
  match SpecFloat.binary_round_aux prec emax s (Zpos m) e l with
  | SpecFloat.S754_zero _ => True
  | SpecFloat.S754_finite _ m2 e2 =>
      Zpos (SpecFloat.digits2_pos m2) + e2
      <= Z.max B (3 - emax - prec) + 1
  | _ => False
  end.
Proof.
  intros Hprec Hemax HB Hmax. unfold SpecFloat.binary_round_aux.
  pose proof (shr_fexp_spec prec emax (Zpos m) e l ltac:(lia)) as H1.
  destruct (SpecFloat.shr_fexp prec emax (Zpos m) e l) as [mrs1 e1].
  cbn [fst snd] in H1. destruct H1 as (Hm1 & He1 & Hd1).
  set (m1 := SpecFloat.round_nearest_even (SpecFloat.shr_m mrs1)
               (SpecFloat.loc_of_shr_record mrs1)).
  assert (0 <= m1
          /\ SpecFloat.Zdigits2 m1
             <= SpecFloat.Zdigits2 (SpecFloat.shr_m mrs1) + 1)
    as [Hm1' Hd1'].
  { subst m1.
    destruct (round_nearest_even_cases (SpecFloat.shr_m mrs1)
                (SpecFloat.loc_of_shr_record mrs1)) as [-> | ->].
    - split; lia.
    - split; [lia | now apply Zdigits2_succ]. }
  pose proof (shr_fexp_spec prec emax m1 e1 SpecFloat.loc_Exact Hm1') as H2.
  destruct (SpecFloat.shr_fexp prec emax m1 e1 SpecFloat.loc_Exact)
    as [mrs2 e2].
  cbn [fst snd] in H2. destruct H2 as (Hm2 & He2 & Hd2).
  unfold SpecFloat.fexp, SpecFloat.emin in He1, He2, Hd1, Hd2.
  cbn [SpecFloat.Zdigits2] in He1, Hd1.
  destruct (SpecFloat.shr_m mrs2) as [|m2|m2] eqn:Em2; [exact I| |lia].
  cbn [SpecFloat.Zdigits2] in Hd2.
  assert (e2 <= emax - prec) as Hle by lia.
  apply Z.leb_le in Hle. rewrite Hle. lia.
Qed.

Lemma shl_align_digits (mx : positive) (ex ex' : Z) :
  Zpos (SpecFloat.digits2_pos (SpecFloat.shl_align mx ex ex').1)
  + (SpecFloat.shl_align mx ex ex').2
  = Zpos (SpecFloat.digits2_pos mx) + ex.
Proof.
  unfold SpecFloat.shl_align.
  destruct (ex' - ex) as [|d|d] eqn:Hd; cbn [fst snd]; try reflexivity.
  rewrite digits2_iter_xO. lia.
Qed.

(** A number of rows below 2^62 is a binary64 number below 2^63. *)
Lemma of_Z_bound (z : Z) :
  0 <= z < 2 ^ 62 ->
  match Ieee.of_Z Ieee.binary64 z with
  | SpecFloat.S754_zero _ => True
  | SpecFloat.S754_finite _ m e => Zpos (SpecFloat.digits2_pos m) + e <= 63
  | _ => False
  end.
Proof.
  intros [Hlo Hhi]. unfold Ieee.of_Z, SpecFloat.binary_normalize.
  destruct z as [|p|p]; [exact I | | lia].
  unfold SpecFloat.binary_round.
  pose proof (shl_align_digits p 0
                (SpecFloat.fexp (Ieee.prec Ieee.binary64)
                   (Ieee.emax Ieee.binary64)
                   (Zpos (SpecFloat.digits2_pos p) + 0))) as Hs.
  destruct (SpecFloat.shl_align p 0 _) as [mz ez]. cbn [fst snd] in Hs.
  assert (Zpos (SpecFloat.digits2_pos p) <= 62) as Hp.
  { pose proof (Zdigits2_log2 (Zpos p) ltac:(lia)) as Hl.
    cbn [SpecFloat.Zdigits2] in Hl.
    pose proof (proj1 (Z.log2_lt_pow2 (Zpos p) 62 ltac:(lia)) Hhi). lia. }
  pose proof (round_aux_finite (Ieee.prec Ieee.binary64)
                (Ieee.emax Ieee.binary64) false mz ez SpecFloat.loc_Exact 62)
    as Hr.
  cbn [Ieee.prec Ieee.emax Ieee.binary64] in Hr |- *.
  specialize (Hr ltac:(lia) ltac:(lia) ltac:(lia) ltac:(lia)).
  destruct (SpecFloat.binary_round_aux 53 1024 false (Zpos mz) ez
              SpecFloat.loc_Exact); exact Hr.
Qed.

(** A ratio between 0 and 1 is a zero or a positive number below 2. *)
Lemma ratio_bound (ratio : Ieee.float) :
  Ieee.is_float Ieee.binary64 ratio = true ->
  Ieee.fle Ieee.zero ratio = true -> Ieee.fle ratio Ieee.one = true ->
  match ratio with
  | SpecFloat.S754_zero _ => True
  | SpecFloat.S754_finite s m e =>
      s = false /\ Zpos (SpecFloat.digits2_pos m) + e <= 1
  | _ => False
  end.
Proof.
  intros Hv H0 H1.
  replace Ieee.one with (SpecFloat.S754_finite false 4503599627370496 (-52))
    in H1 by (vm_compute; reflexivity).
  destruct ratio as [s|s| |s m e]; [exact I | | discriminate H0 |].
  - destruct s; [discriminate H0 | discriminate H1].
  - destruct s; [discriminate H0|]. split; [reflexivity|].
    unfold Ieee.is_float, SpecFloat.valid_binary, SpecFloat.bounded,
      SpecFloat.canonical_mantissa, SpecFloat.fexp, SpecFloat.emin in Hv.
    cbn [Ieee.prec Ieee.emax Ieee.binary64] in Hv.
    apply andb_true_iff in Hv as [Hc _]. apply Z.eqb_eq in Hc.
    unfold Ieee.fle, SpecFloat.SFleb, SpecFloat.SFcompare in H1.
    destruct (Z.compare_spec e (-52)) as [He|He|He];
      [lia | lia | discriminate H1].
Qed.

(** [int(n * ratio)] returns for a ratio between 0 and 1 and fewer than
    2^62 rows. *)
Lemma int_times_returns (n : nat) (ratio : Ieee.float) :
  Z.of_nat n < 2 ^ 62 ->
  Ieee.is_float Ieee.binary64 ratio = true ->
  Ieee.fle Ieee.zero ratio = true -> Ieee.fle ratio Ieee.one = true ->
  exists a, Ieee.int_times n ratio = Ok a.
Proof.
  intros Hn Hv H0 H1. pose proof (ratio_bound _ Hv H0 H1) as Hr.
  pose proof (of_Z_bound (Z.of_nat n) ltac:(lia)) as Hx.
  unfold Ieee.int_times, Ieee.of_int.
  destruct (Ieee.of_Z Ieee.binary64 (Z.of_nat n)) as [s|s| |s m e];
    try contradiction; run_bind.
  - destruct ratio as [s'|s'| |s' m' e']; try contradiction;
      eexists; reflexivity.
  - destruct ratio as [s'|s'| |s' m' e']; try contradiction;
      [eexists; reflexivity|].
    destruct Hr as [-> Hr].
    cbn [Ieee.fmul SpecFloat.SFmul].
    pose proof (digits2_mul m m') as Hd.
    pose proof (round_aux_finite (Ieee.prec Ieee.binary64)
                  (Ieee.emax Ieee.binary64) (xorb s false) (m * m')
                  (e + e') SpecFloat.loc_Exact 64) as Hf.
    cbn [Ieee.prec Ieee.emax Ieee.binary64] in Hf |- *.
    specialize (Hf ltac:(lia) ltac:(lia) ltac:(lia) ltac:(lia)).
    destruct (SpecFloat.binary_round_aux 53 1024 (xorb s false)
                (Zpos (m * m')) (e + e') SpecFloat.loc_Exact);
      try contradiction; eexists; reflexivity.
Qed.

(** *** The split *)

Lemma sample_all_in_range `{Preprocess.Platform} (df : Preprocess.DataFrame)
  (random_state : Z) :
  0 <= random_state < 2 ^ 32 ->
  Ieee.sample_all df random_state
  = Ok (Preprocess.sample_all df random_state).
Proof.
  intros [Hlo Hhi]. unfold Ieee.sample_all.
  apply Z.leb_le in Hlo. apply Z.ltb_lt in Hhi. now rewrite Hlo, Hhi.
Qed.

Lemma sample_all_out_of_range `{Preprocess.Platform}
  (df : Preprocess.DataFrame) (random_state : Z) :
  ~ 0 <= random_state < 2 ^ 32 ->
  Ieee.sample_all df random_state
  = Raise (Exn "ValueError" "Seed must be between 0 and 2**32 - 1").
Proof.
  intros Hout. unfold Ieee.sample_all.
  destruct (0 <=? random_state) eqn:Hlo; [|reflexivity].
  destruct (random_state <? 2 ^ 32) eqn:Hhi; [|reflexivity].
  apply Z.leb_le in Hlo. apply Z.ltb_lt in Hhi. lia.
Qed.

(** C5, as the code has it.  The ratios are binary64 numbers and the
    arithmetic is that of Python's floats.  For every DataFrame with n
    rows, ratios for which abs(train_ratio + val_ratio + test_ratio - 1.0)
    < 1e-6 holds, with train_ratio and val_ratio not below zero, and a
    seed between 0 and 2**32 - 1: the shuffled frame is a permutation of
    the input rows (the random permutation being one of the positions
    0..n-1), and [split_dataset] returns three DataFrames: the first
    int(n * train_ratio) rows of the shuffled frame, the next
    int(n * val_ratio) rows, and all remaining rows, the products being
    the rounded products of floats.  The three outputs put end to end are
    the shuffled frame, so every input row is in exactly one of them.
    The one other outcome is that [int] fails on a product that is not
    finite, and [split_dataset] then raises that exception; this does not
    happen for ratios that are at most 1 and fewer than 2^62 rows. *)
Theorem split_dataset_partitions `{Preprocess.Platform}
  (df : Preprocess.DataFrame)
  (train_ratio val_ratio test_ratio : Ieee.float) (random_state : Z) :
  let n := length (Preprocess.rows df) in
  Ieee.is_float Ieee.binary64 train_ratio = true ->
  Ieee.is_float Ieee.binary64 val_ratio = true ->
  Ieee.is_float Ieee.binary64 test_ratio = true ->
  Ieee.ratios_ok train_ratio val_ratio test_ratio = true ->
  Ieee.fle Ieee.zero train_ratio = true ->
  Ieee.fle Ieee.zero val_ratio = true ->
  0 <= random_state < 2 ^ 32 ->
  Permutation (Preprocess.permutation random_state n) (seq 0 n) ->
  let shuffled := Preprocess.rows (Preprocess.sample_all df random_state) in
  Permutation shuffled (Preprocess.rows df)
  /\ match Ieee.int_times n train_ratio, Ieee.int_times n val_ratio with
     | Ok train_end, Ok k =>
         0 <= train_end /\ 0 <= k
         /\ exists train_df val_df test_df,
              Ieee.split_dataset df train_ratio val_ratio test_ratio
                random_state = Ok (train_df, val_df, test_df)
              /\ Preprocess.rows train_df
                 = take (Z.to_nat train_end) shuffled
              /\ Preprocess.rows val_df
                 = take (Z.to_nat k) (drop (Z.to_nat train_end) shuffled)
              /\ Preprocess.rows test_df
                 = drop (Z.to_nat train_end + Z.to_nat k) shuffled
              /\ Preprocess.rows train_df ++ Preprocess.rows val_df
                 ++ Preprocess.rows test_df = shuffled
              /\ Permutation
                   (Preprocess.rows train_df ++ Preprocess.rows val_df
                    ++ Preprocess.rows test_df) (Preprocess.rows df)
              /\ Preprocess.columns train_df = Preprocess.columns df
              /\ Preprocess.columns val_df = Preprocess.columns df
              /\ Preprocess.columns test_df = Preprocess.columns df
     | Raise e, _ | Ok _, Raise e =>
         Ieee.split_dataset df train_ratio val_ratio test_ratio random_state
         = Raise e
         /\ (exn_class e = "OverflowError" \/ exn_class e = "ValueError")
     end
  /\ (Z.of_nat n < 2 ^ 62 ->
      Ieee.fle train_ratio Ieee.one = true ->
      Ieee.fle val_ratio Ieee.one = true ->
      exists train_end k,
        Ieee.int_times n train_ratio = Ok train_end
        /\ Ieee.int_times n val_ratio = Ok k).
Proof.
  intros n Hft Hfv _ Hok Ht Hv Hseed Hperm shuffled.
  pose proof (sample_all_permutes df random_state Hperm) as Hsh.
  fold shuffled in Hsh. split; [exact Hsh|].
  split; [|intros Hn Ht1 Hv1;
           destruct (int_times_returns n train_ratio Hn Hft Ht Ht1)
             as [a Ea];
           destruct (int_times_returns n val_ratio Hn Hfv Hv Hv1)
             as [b Eb];
           exists a, b; split; assumption].
  assert (length shuffled = n) as Hlen by (now apply Permutation_length).
  unfold Ieee.split_dataset. rewrite Hok. cbn [negb].
  rewrite (sample_all_in_range _ _ Hseed). run_bind.
  fold shuffled. rewrite Hlen.
  pose proof (int_times_nonneg n train_ratio Ht) as Ha.
  pose proof (int_times_nonneg n val_ratio Hv) as Hb.
  destruct (Ieee.int_times n train_ratio) as [a|e]; run_bind;
    [|split; [reflexivity | exact Ha]].
  destruct (Ieee.int_times n val_ratio) as [b|e]; run_bind;
    [|split; [reflexivity | exact Hb]].
  split; [exact Ha|]. split; [exact Hb|].
  do 3 eexists. split; [reflexivity|].
  unfold Preprocess.df_slice. cbn [Preprocess.rows Preprocess.columns].
  fold shuffled.
  rewrite slice_prefix by exact Ha.
  rewrite slice_middle by assumption.
  rewrite slice_suffix by lia.
  replace (Z.to_nat (a + b)) with (Z.to_nat a + Z.to_nat b)%nat by lia.
  rewrite three_parts.
  repeat split; auto.
Qed.

Lemma split_dataset_partitions_witness :
  Ieee.ratios_ok (Ieee.decimal 8 1) (Ieee.decimal 1 1) (Ieee.decimal 1 1)
  = true
  /\ exists train_df val_df test_df,
       @Ieee.split_dataset (Reference.platform []) Reference.two_rows
         (Ieee.decimal 8 1) (Ieee.decimal 1 1) (Ieee.decimal 1 1) 42
       = Ok (train_df, val_df, test_df)
       /\ Preprocess.rows train_df = [Reference.row_of_iso 200]
       /\ Preprocess.rows val_df = []
       /\ Preprocess.rows test_df = [Reference.row_of_iso 100].
Proof.
  assert (Ieee.ratios_ok (Ieee.decimal 8 1) (Ieee.decimal 1 1)
            (Ieee.decimal 1 1) = true) as Hok by (vm_compute; reflexivity).
  split; [exact Hok|].
  assert (0 <= 42 < 2 ^ 32) as Hseed by lia.
  pose proof (@split_dataset_partitions (Reference.platform [])
                Reference.two_rows (Ieee.decimal 8 1) (Ieee.decimal 1 1)
                (Ieee.decimal 1 1) 42 eq_refl eq_refl eq_refl Hok eq_refl
                eq_refl Hseed (perm_swap _ _ _)) as [_ [Hsplit _]].
  change (Ieee.int_times (length (Preprocess.rows Reference.two_rows))
            (Ieee.decimal 8 1)) with (@Ok Z 1) in Hsplit.
  change (Ieee.int_times (length (Preprocess.rows Reference.two_rows))
            (Ieee.decimal 1 1)) with (@Ok Z 0) in Hsplit.
  cbv beta iota in Hsplit.
  destruct Hsplit
    as (_ & _ & train_df & val_df & test_df & Hs & Ht & Hv & Hte & _).
  exists train_df, val_df, test_df. repeat split; assumption.
Defined.

(** C5 as stated fails: the ratios 0.5, -0.5 and 1.0 pass the check, and
    the split of a frame of two rows puts the first shuffled row both in
    the training set and in the test set. *)
Lemma split_negative_ratio_duplicates :
  Ieee.ratios_ok (Ieee.decimal 5 1) (Ieee.fneg (Ieee.decimal 5 1)) Ieee.one
  = true
  /\ @Ieee.split_dataset (Reference.platform []) Reference.two_rows
       (Ieee.decimal 5 1) (Ieee.fneg (Ieee.decimal 5 1)) Ieee.one 42
     = Ok (Preprocess.MkFrame ["iso"] [Reference.row_of_iso 200],
           Preprocess.MkFrame ["iso"] [],
           Preprocess.MkFrame ["iso"]
             [Reference.row_of_iso 200; Reference.row_of_iso 100])
  /\ ~ Permutation
        ([Reference.row_of_iso 200] ++ []
         ++ [Reference.row_of_iso 200; Reference.row_of_iso 100])
        (Preprocess.rows Reference.two_rows).
Proof.
  split; [vm_compute; reflexivity|]. split; [vm_compute; reflexivity|].
  intros Hp. apply Permutation_length in Hp. discriminate Hp.
Qed.

(** The sizes are those of the rounded products: 0.58 is a binary64 number
    below 58/100, the product 50 * 0.58 is rounded to a number below 29,
    and a frame of 50 rows gets 28 training rows; 10 * 0.7 is rounded up
    to 7. *)
Example split_sizes_of_rounded_products :
  Ieee.int_times 50 (Ieee.decimal 58 2) = Ok 28
  /\ Ieee.int_times 10 (Ieee.decimal 7 1) = Ok 7
  /\ Ieee.ratios_ok (Ieee.decimal 58 2) (Ieee.decimal 21 2)
       (Ieee.decimal 21 2) = true
  /\ Ieee.ratios_ok (Ieee.decimal 5 1) (Ieee.decimal 5 1) (Ieee.decimal 1 6)
     = true.
Proof. repeat split; vm_compute; reflexivity. Qed.

(** ** preprocess.py: normalize_settings *)

Lemma numeric_all_length (l : list pyval) (xs : list pyfloat) :
  Preprocess.numeric_all l = Ok xs -> length xs = length l.
Proof.
  revert xs. induction l as [|v l IH]; intros xs; cbn [Preprocess.numeric_all].
  - now intros [= <-].
  - destruct (Preprocess.numeric v) as [x|e]; run_bind; [|discriminate].
    destruct (Preprocess.numeric_all l) as [ys|e]; run_bind; [|discriminate].
    intros [= <-]. cbn [length]. now rewrite (IH ys).
Qed.

Lemma get_column_length (f : Preprocess.DataFrame) (c : string) :
  length (Preprocess.get_column f c) = length (Preprocess.rows f).
Proof. unfold Preprocess.get_column. apply length_map. Qed.

Lemma set_column_rows_length (g : Preprocess.DataFrame) (c : string)
  (series : list pyval) :
  length series = length (Preprocess.rows g) ->
  length (Preprocess.rows (Preprocess.set_column g c series))
  = length (Preprocess.rows g).
Proof.
  intros Hl. cbn [Preprocess.set_column Preprocess.rows].
  rewrite length_zip_with. lia.
Qed.

Lemma set_column_columns (g : Preprocess.DataFrame) (c : string)
  (series : list pyval) :
  c ∈ Preprocess.columns g ->
  Preprocess.columns (Preprocess.set_column g c series)
  = Preprocess.columns g.
Proof.
  intros Hc. cbn [Preprocess.set_column Preprocess.columns].
  unfold Preprocess.add_new. now rewrite bool_decide_eq_true_2.
Qed.

(** Reading back the column that was assigned. *)
Lemma get_column_set_same (g : Preprocess.DataFrame) (c : string)
  (series : list pyval) :
  length series = length (Preprocess.rows g) ->
  Preprocess.get_column (Preprocess.set_column g c series) c = series.
Proof.
  unfold Preprocess.get_column, Preprocess.set_column.
  cbn [Preprocess.rows]. generalize (Preprocess.rows g). intros rs.
  revert series. induction rs as [|r rs IH]; intros [|v series] Hl;
    try discriminate; [reflexivity|].
  cbn [zip_with map]. unfold Preprocess.cell at 1.
  rewrite lookup_insert_eq. cbn [default]. f_equal. apply IH.
  now injection Hl.
Qed.

(** The other columns are not touched by an assignment. *)
Lemma get_column_set_other (g : Preprocess.DataFrame) (c c' : string)
  (series : list pyval) :
  c <> c' -> length series = length (Preprocess.rows g) ->
  Preprocess.get_column (Preprocess.set_column g c' series) c
  = Preprocess.get_column g c.
Proof.
  intros Hne. unfold Preprocess.get_column, Preprocess.set_column.
  cbn [Preprocess.rows]. generalize (Preprocess.rows g). intros rs.
  revert series. induction rs as [|r rs IH]; intros [|v series] Hl;
    try discriminate; [reflexivity|].
  cbn [zip_with map]. unfold Preprocess.cell at 1 3.
  rewrite lookup_insert_ne by congruence. f_equal. apply IH.
  now injection Hl.
Qed.

(** The three ways an iteration of the loop can go. *)
Lemma normalize_step_absent (df dfn : Preprocess.loc) (c : string)
  (params : gmap string (pyfloat * pyfloat)) (h : Preprocess.store)
  (f : Preprocess.DataFrame) :
  h !! df = Some f -> c ∉ Preprocess.columns f ->
  Preprocess.normalize_step df dfn c params h = (Ok params, h).
Proof.
  intros Hf Hc. unfold Preprocess.normalize_step, Preprocess.deref.
  rewrite Hf. now rewrite bool_decide_eq_false_2.
Qed.

Lemma normalize_step_numeric (df dfn : Preprocess.loc) (c : string)
  (params : gmap string (pyfloat * pyfloat)) (h : Preprocess.store)
  (f g : Preprocess.DataFrame) (xs : list pyfloat) :
  h !! df = Some f -> h !! dfn = Some g -> c ∈ Preprocess.columns f ->
  Preprocess.numeric_all (Preprocess.get_column f c) = Ok xs ->
  Preprocess.normalize_step df dfn c params h
  = (Ok (<[c := (Preprocess.series_min xs, Preprocess.series_max xs)]> params),
     <[dfn := Preprocess.set_column g c
                (map (fun x =>
                        VFloat (Preprocess.rescale (Preprocess.series_min xs)
                                  (Preprocess.series_max xs) x)) xs)]> h).
Proof.
  intros Hf Hg Hc Hn. unfold Preprocess.normalize_step, Preprocess.deref.
  rewrite Hf, Hg, Hn. now rewrite bool_decide_eq_true_2.
Qed.

Lemma normalize_step_raises (df dfn : Preprocess.loc) (c : string)
  (params : gmap string (pyfloat * pyfloat)) (h : Preprocess.store)
  (f : Preprocess.DataFrame) (e : exn) :
  h !! df = Some f -> c ∈ Preprocess.columns f ->
  Preprocess.numeric_all (Preprocess.get_column f c) = Raise e ->
  Preprocess.normalize_step df dfn c params h = (Raise e, h).
Proof.
  intros Hf Hc Hn. unfold Preprocess.normalize_step, Preprocess.deref.
  rewrite Hf, Hn. now rewrite bool_decide_eq_true_2.
Qed.

(** The loop, whatever its outcome: only the object [dfn] changes, and in
    it only the columns of [todo]. *)
Lemma normalize_loop_frame (df dfn : Preprocess.loc)
  (f : Preprocess.DataFrame) (todo : list string) :
  df <> dfn ->
  forall (params : gmap string (pyfloat * pyfloat))
         (g : Preprocess.DataFrame) (h : Preprocess.store),
    h !! df = Some f -> h !! dfn = Some g ->
    length (Preprocess.rows g) = length (Preprocess.rows f) ->
    Preprocess.columns g = Preprocess.columns f ->
    exists r g',
      Preprocess.normalize_loop df dfn todo params h = (r, <[dfn := g']> h)
      /\ length (Preprocess.rows g') = length (Preprocess.rows f)
      /\ Preprocess.columns g' = Preprocess.columns f
      /\ (forall c, c ∉ todo ->
            Preprocess.get_column g' c = Preprocess.get_column g c).
Proof.
  intros Hne. induction todo as [|c rest IH]; intros params g h Hf Hg Hl Hc;
    cbn [Preprocess.normalize_loop].
  - exists (Ok params), g. rewrite (insert_id h dfn g Hg). auto.
  - destruct (decide (c ∈ Preprocess.columns f)) as [Hin|Hout].
    + destruct (Preprocess.numeric_all (Preprocess.get_column f c))
        as [xs|e] eqn:Hn.
      * rewrite (normalize_step_numeric _ _ _ _ _ _ _ _ Hf Hg Hin Hn).
        set (series := map _ xs).
        assert (length series = length (Preprocess.rows g)) as Hs.
        { subst series. rewrite length_map, (numeric_all_length _ _ Hn).
          rewrite get_column_length. now symmetry. }
        destruct (IH (<[c := (Preprocess.series_min xs,
                              Preprocess.series_max xs)]> params)
                    (Preprocess.set_column g c series)
                    (<[dfn := Preprocess.set_column g c series]> h))
          as (r & g' & Hloop & Hl' & Hc' & Hother).
        -- now rewrite lookup_insert_ne by congruence.
        -- apply lookup_insert_eq.
        -- rewrite set_column_rows_length by exact Hs. exact Hl.
        -- rewrite set_column_columns by (now rewrite Hc). exact Hc.
        -- exists r, g'. rewrite Hloop, insert_insert_eq.
           repeat split; auto. intros c' Hc'rest.
           apply not_elem_of_cons in Hc'rest as [Hcc Hrest].
           rewrite (Hother c' Hrest).
           now apply get_column_set_other.
      * rewrite (normalize_step_raises _ _ _ _ _ _ _ Hf Hin Hn).
        exists (Raise e), g. rewrite (insert_id h dfn g Hg). auto.
    + rewrite (normalize_step_absent _ _ _ _ _ _ Hf Hout).
      destruct (IH params g h Hf Hg Hl Hc) as (r & g' & Hloop & Hl' & Hc' & Ho).
      exists r, g'. repeat split; auto. intros c' Hc'rest.
      apply not_elem_of_cons in Hc'rest as [_ Hrest]. auto.
Qed.

(** The loop on numeric settings columns: it completes, and every column
    of [todo] that the frame has is rescaled. *)
Lemma normalize_loop_numeric (df dfn : Preprocess.loc)
  (f : Preprocess.DataFrame) (todo : list string) :
  df <> dfn -> NoDup todo ->
  (forall c, c ∈ todo -> c ∈ Preprocess.columns f ->
     exists xs, Preprocess.numeric_all (Preprocess.get_column f c) = Ok xs) ->
  forall (params : gmap string (pyfloat * pyfloat))
         (g : Preprocess.DataFrame) (h : Preprocess.store),
    h !! df = Some f -> h !! dfn = Some g ->
    length (Preprocess.rows g) = length (Preprocess.rows f) ->
    Preprocess.columns g = Preprocess.columns f ->
    exists params' g',
      Preprocess.normalize_loop df dfn todo params h
      = (Ok params', <[dfn := g']> h)
      /\ length (Preprocess.rows g') = length (Preprocess.rows f)
      /\ Preprocess.columns g' = Preprocess.columns f
      /\ (forall c, c ∉ todo ->
            Preprocess.get_column g' c = Preprocess.get_column g c
            /\ params' !! c = params !! c)
      /\ (forall c, c ∈ todo -> c ∈ Preprocess.columns f ->
            normalized_column f g' params' c)
      /\ (forall c, c ∈ todo -> c ∉ Preprocess.columns f ->
            params' !! c = params !! c).
Proof.
  intros Hne. induction todo as [|c rest IH];
    intros Hnd Hnum params g h Hf Hg Hl Hc; cbn [Preprocess.normalize_loop].
  - exists params, g. rewrite (insert_id h dfn g Hg).
    repeat split; auto; intros c Hin; now apply elem_of_nil in Hin.
  - apply NoDup_cons in Hnd as [Hfresh Hnd].
    assert (forall c', c' ∈ rest -> c' ∈ Preprocess.columns f ->
              exists xs,
                Preprocess.numeric_all (Preprocess.get_column f c') = Ok xs)
      as Hnum' by (intros c' Hc'; apply Hnum; now right).
    destruct (decide (c ∈ Preprocess.columns f)) as [Hin|Hout].
    + destruct (Hnum c (list_elem_of_here _ _) Hin) as [xs Hn].
      rewrite (normalize_step_numeric _ _ _ _ _ _ _ _ Hf Hg Hin Hn).
      set (series := map _ xs).
      assert (length series = length (Preprocess.rows g)) as Hs.
      { subst series. rewrite length_map, (numeric_all_length _ _ Hn).
        rewrite get_column_length. now symmetry. }
      destruct (IH Hnd Hnum'
                  (<[c := (Preprocess.series_min xs,
                           Preprocess.series_max xs)]> params)
                  (Preprocess.set_column g c series)
                  (<[dfn := Preprocess.set_column g c series]> h))
        as (params' & g' & Hloop & Hl' & Hc' & Hother & Hdone & Habs).
      * now rewrite lookup_insert_ne by congruence.
      * apply lookup_insert_eq.
      * rewrite set_column_rows_length by exact Hs. exact Hl.
      * rewrite set_column_columns by (now rewrite Hc). exact Hc.
      * exists params', g'. rewrite Hloop, insert_insert_eq.
        split; [reflexivity|]. split; [exact Hl'|]. split; [exact Hc'|].
        split; [|split].
        -- intros c' Hc'rest.
           apply not_elem_of_cons in Hc'rest as [Hcc Hrest].
           destruct (Hother c' Hrest) as [-> ->]. split.
           ++ now apply get_column_set_other.
           ++ now rewrite lookup_insert_ne by congruence.
        -- intros c' Hc'in Hc'col.
           apply elem_of_cons in Hc'in as [->|Hc'rest]; [|now apply Hdone].
           destruct (Hother c Hfresh) as [Hcol Hpar].
           exists xs. split; [exact Hn|]. split.
           ++ rewrite Hpar. apply lookup_insert_eq.
           ++ rewrite Hcol. now apply get_column_set_same.
        -- intros c' Hc'in Hc'col.
           apply elem_of_cons in Hc'in as [->|Hc'rest]; [contradiction|].
           rewrite (Habs c' Hc'rest Hc'col).
           apply lookup_insert_ne. intros ->. contradiction.
    + rewrite (normalize_step_absent _ _ _ _ _ _ Hf Hout).
      destruct (IH Hnd Hnum' params g h Hf Hg Hl Hc)
        as (params' & g' & Hloop & Hl' & Hc' & Hother & Hdone & Habs).
      exists params', g'. split; [exact Hloop|].
      split; [exact Hl'|]. split; [exact Hc'|]. split; [|split].
      * intros c' Hc'rest.
        apply not_elem_of_cons in Hc'rest as [_ Hrest]. auto.
      * intros c' Hc'in Hc'col.
        apply elem_of_cons in Hc'in as [->|Hc'rest];
          [contradiction | now apply Hdone].
      * intros c' Hc'in Hc'col.
        apply elem_of_cons in Hc'in as [->|Hc'rest];
          [now apply Hother | now apply Habs].
Qed.






Lemma settings_columns_NoDup : NoDup Preprocess.settings_columns.
Proof.
  unfold Preprocess.settings_columns.
  repeat (apply NoDup_cons_2;
          [rewrite ?not_elem_of_cons; repeat split; try discriminate;
           apply not_elem_of_nil|]).
  apply NoDup_nil_2.
Qed.

(** [df.copy()] allocates an object that did not exist. *)
Lemma df_copy_fresh (df : positive) (h : gmap positive Preprocess.DataFrame)
  (f : Preprocess.DataFrame) :
  h !! df = Some f ->
  Preprocess.df_copy df h = (Ok (fresh (dom h)), <[fresh (dom h) := f]> h)
  /\ h !! fresh (dom h) = None /\ df <> fresh (dom h).
Proof.
  intros Hf. unfold Preprocess.df_copy. rewrite Hf.
  pose proof (is_fresh (dom h)) as Hfresh.
  split; [reflexivity|]. split; [now apply not_elem_of_dom|].
  intros ->. apply Hfresh. now apply elem_of_dom_2 with f.
Qed.

(** C10.  [normalize_settings] never mutates its input: whatever the
    outcome, the input DataFrame object and every other object that
    existed hold what they held.  The DataFrame it returns is a new
    object with the columns and the number of rows of the input, in which
    every column other than iso, aperture, shutter_speed and focal_length
    is the corresponding column of the input; and it does return one when
    the settings columns hold numbers. *)
Theorem normalize_settings_frame (h : gmap positive Preprocess.DataFrame)
  (df : positive) (f : Preprocess.DataFrame) :
  h !! df = Some f ->
  exists r h',
    Preprocess.normalize_settings df h = (r, h')
    /\ h' !! df = Some f
    /\ (forall l, is_Some (h !! l) -> h' !! l = h !! l)
    /\ (forall dfn params, r = Ok (dfn, params) ->
          h !! dfn = None
          /\ exists g,
               h' !! dfn = Some g
               /\ Preprocess.columns g = Preprocess.columns f
               /\ length (Preprocess.rows g) = length (Preprocess.rows f)
               /\ forall c, c ∉ Preprocess.settings_columns ->
                    Preprocess.get_column g c = Preprocess.get_column f c)
    /\ (numeric_settings f -> exists dfn params, r = Ok (dfn, params)).
Proof.
  intros Hf. unfold Preprocess.normalize_settings.
  destruct (df_copy_fresh df h f Hf) as (-> & Hnone & Hne).
  set (dfn := fresh (dom h)) in *.
  assert (<[dfn := f]> h !! df = Some f) as Hf1
    by (now rewrite lookup_insert_ne by congruence).
  assert (<[dfn := f]> h !! dfn = Some f) as Hg1 by apply lookup_insert_eq.
  destruct (normalize_loop_frame df dfn f Preprocess.settings_columns Hne
              ∅ f (<[dfn := f]> h) Hf1 Hg1 eq_refl eq_refl)
    as (r & g' & Hloop & Hl & Hc & Hother).
  rewrite insert_insert_eq in Hloop.
  assert (<[dfn := g']> h !! df = Some f) as Hkeep
    by (now rewrite lookup_insert_ne by congruence).
  assert (forall l, is_Some (h !! l) -> <[dfn := g']> h !! l = h !! l)
    as Hrest.
  { intros l [x Hx]. apply lookup_insert_ne. intros <-. congruence. }
  destruct r as [params|e].
  - exists (Ok (dfn, params)), (<[dfn := g']> h). rewrite Hloop.
    split; [reflexivity|]. split; [exact Hkeep|]. split; [exact Hrest|].
    split; [|eauto].
    intros dfn' params' [= <- <-]. split; [exact Hnone|].
    exists g'. split; [apply lookup_insert_eq|]. auto.
  - exists (Raise e), (<[dfn := g']> h). rewrite Hloop.
    split; [reflexivity|]. split; [exact Hkeep|]. split; [exact Hrest|].
    split; [intros dfn' params' [=]|].
    intros Hnum.
    destruct (normalize_loop_numeric df dfn f Preprocess.settings_columns
                Hne settings_columns_NoDup Hnum ∅ f (<[dfn := f]> h)
                Hf1 Hg1 eq_refl eq_refl) as (params' & g'' & Hloop' & _).
    rewrite insert_insert_eq in Hloop'. congruence.
Qed.

Lemma normalize_settings_frame_witness :
  ({[1%positive := Reference.frame_complete]}
     : gmap positive Preprocess.DataFrame) !! 1%positive
  = Some Reference.frame_complete
  /\ exists r h',
       Preprocess.normalize_settings 1 {[1%positive := Reference.frame_complete]}
       = (r, h')
       /\ h' !! 1%positive = Some Reference.frame_complete.
Proof.
  assert (({[1%positive := Reference.frame_complete]}
             : gmap positive Preprocess.DataFrame) !! 1%positive
          = Some Reference.frame_complete) as Hf by reflexivity.
  split; [exact Hf|].
  destruct (normalize_settings_frame _ _ _ Hf) as (r & h' & Hn & Hk & _).
  exists r, h'. split; assumption.
Defined.




Example normalize_complete_frame :
  exists params h' g,
    Preprocess.normalize_settings 1 {[1%positive := Reference.frame_complete]}
    = (Ok (2%positive, params), h')
    /\ h' !! 1%positive = Some Reference.frame_complete
    /\ h' !! 2%positive = Some g
    /\ Preprocess.get_column g "image_path" = [VStr "b.jpg"; VStr "c.jpg"]
    /\ Preprocess.get_column g "aperture"
       = [VFloat (Fin (0 # 1400000010000));
          VFloat (Fin (1400000000000 # 1400000010000))].
Proof. do 3 eexists. repeat split; vm_compute; reflexivity. Qed.

(** * Further properties of the code *)

(** ** llm_advisor.py *)

(** X1.  Without an API key, or with an empty one, the advisor has no client
    and every request is answered by the rules; with a key the client is
    built from it. *)
Theorem advisor_without_key `{Advisor.OpenAI, Runtime} (prompt : string)
  (current_settings : Advisor.settings_arg) :
  Advisor.suggest_parameters (Advisor.LLMAdvisor_init None) prompt
    current_settings
  = Ok (Advisor._rule_based_suggestions prompt current_settings)
  /\ Advisor.suggest_parameters (Advisor.LLMAdvisor_init (Some "")) prompt
       current_settings
     = Ok (Advisor._rule_based_suggestions prompt current_settings)
  /\ forall key, nonempty key = true ->
       Advisor.advisor_client (Advisor.LLMAdvisor_init (Some key))
       = Some (Advisor.OpenAI_new key).
Proof.
  split; [reflexivity|]. split; [reflexivity|].
  intros key Hk. unfold Advisor.LLMAdvisor_init, Advisor.truthy_str.
  cbn [Advisor.advisor_client]. now rewrite Hk.
Qed.

Lemma lower_char_idempotent (c : ascii) :
  lower_char (lower_char c) = lower_char c.
Proof. destruct c as [[] [] [] [] [] [] [] []]; reflexivity. Qed.

Lemma lower_idempotent (s : string) : lower (lower s) = lower s.
Proof.
  induction s as [|c s IH]; [reflexivity|]. cbn [lower].
  now rewrite lower_char_idempotent, IH.
Qed.

(** X2.  The rule-based advisor looks at the letters of the prompt only: it
    gives the same answer to the lower-cased prompt, whatever the current
    settings passed along. *)
Theorem rule_based_ignores_case_and_settings (prompt : string)
  (current_settings other_settings : Advisor.settings_arg) :
  Advisor._rule_based_suggestions (lower prompt) other_settings
  = Advisor._rule_based_suggestions prompt current_settings.
Proof.
  unfold Advisor._rule_based_suggestions. now rewrite lower_idempotent.
Qed.

Lemma in_list_iff (n : Z) (l : list Z) : Advisor.in_list n l = true <-> In n l.
Proof.
  split; [apply in_list_In|]. unfold Advisor.in_list.
  intros Hn. apply existsb_exists. exists n. split; [exact Hn | apply Z.eqb_refl].
Qed.

Lemma forallb_str_weaken (p q : ascii -> bool) (s : string) :
  (forall c, p c = true -> q c = true) ->
  forallb_str p s = true -> forallb_str q s = true.
Proof.
  intros Hpq. induction s as [|c s IH]; [reflexivity|]. cbn [forallb_str].
  rewrite !andb_true_iff. intros [Hc Hs]. auto.
Qed.

Lemma all_decimal_isdigit (w : string) :
  all_decimal w = true -> isdigit w = true.
Proof.
  unfold all_decimal, isdigit. rewrite !andb_true_iff. intros [Hn Hd].
  split; [exact Hn|]. revert Hd. apply forallb_str_weaken.
  intros c Hc. unfold isdigit_char. now rewrite Hc.
Qed.

Lemma find_iso_passed_over (w : string) (rest : list string) :
  passed_over w -> Advisor.find_iso (w :: rest) = Advisor.find_iso rest.
Proof.
  intros [Hd|[Ha Hn]]; cbn [Advisor.find_iso].
  - now rewrite Hd.
  - rewrite (all_decimal_isdigit _ Ha). unfold int_of_str. rewrite Ha, bind_ok.
    destruct (Advisor.in_list (digits_value 0 w) Advisor.iso_values) eqn:Hin;
      [|reflexivity].
    apply in_list_iff in Hin. contradiction.
Qed.

(** The three ways the loop over the words ends. *)
Lemma find_iso_cases (words : list string) :
  (Advisor.find_iso words = Ok None /\ Forall passed_over words)
  \/ (exists before word after,
        words = before ++ word :: after /\ Forall passed_over before
        /\ all_decimal word = true
        /\ In (digits_value 0 word) Advisor.iso_values
        /\ Advisor.find_iso words = Ok (Some (digits_value 0 word)))
  \/ (exists before word after,
        words = before ++ word :: after /\ Forall passed_over before
        /\ isdigit word = true /\ all_decimal word = false
        /\ exists e, Advisor.find_iso words = Raise e).
Proof.
  induction words as [|w rest IH].
  - left. split; [reflexivity | constructor].
  - assert (passed_over w ->
            (Advisor.find_iso (w :: rest) = Ok None
             /\ Forall passed_over (w :: rest))
            \/ (exists before word after,
                  w :: rest = before ++ word :: after
                  /\ Forall passed_over before
                  /\ all_decimal word = true
                  /\ In (digits_value 0 word) Advisor.iso_values
                  /\ Advisor.find_iso (w :: rest)
                     = Ok (Some (digits_value 0 word)))
            \/ (exists before word after,
                  w :: rest = before ++ word :: after
                  /\ Forall passed_over before
                  /\ isdigit word = true /\ all_decimal word = false
                  /\ exists e, Advisor.find_iso (w :: rest) = Raise e))
      as Hskip.
    { intros Hw. rewrite (find_iso_passed_over _ _ Hw).
      destruct IH as [[Hn Hall]|[(b & x & a & -> & Hb & Hx)
                                |(b & x & a & -> & Hb & Hx)]].
      - left. split; [exact Hn | now constructor].
      - right. left. exists (w :: b), x, a.
        split; [reflexivity|]. split; [now constructor | exact Hx].
      - right. right. exists (w :: b), x, a.
        split; [reflexivity|]. split; [now constructor | exact Hx]. }
    destruct (isdigit w) eqn:Hd; [|apply Hskip; now left].
    destruct (all_decimal w) eqn:Ha.
    + destruct (Advisor.in_list (digits_value 0 w) Advisor.iso_values)
        eqn:Hin.
      * right. left. exists [], w, rest.
        split; [reflexivity|]. split; [constructor|]. split; [exact Ha|].
        split; [now apply in_list_iff|].
        cbn [Advisor.find_iso]. rewrite Hd. unfold int_of_str. rewrite Ha.
        run_bind. now rewrite Hin.
      * apply Hskip. right. split; [exact Ha|].
        intros Hn. apply in_list_iff in Hn. congruence.
    + right. right. exists [], w, rest.
      split; [reflexivity|]. split; [constructor|].
      split; [exact Hd|]. split; [exact Ha|].
      cbn [Advisor.find_iso]. rewrite Hd. unfold int_of_str. rewrite Ha.
      eexists. reflexivity.
Qed.

Lemma find_iso_skip (before rest : list string) :
  Forall passed_over before ->
  Advisor.find_iso (before ++ rest) = Advisor.find_iso rest.
Proof.
  induction 1 as [|w before Hw _ IH]; [reflexivity|].
  rewrite <- app_comm_cons, find_iso_passed_over by exact Hw. exact IH.
Qed.

Lemma find_iso_some_iff (words : list string) (n : Z) :
  Advisor.find_iso words = Ok (Some n) <->
  exists before word after,
    words = before ++ word :: after /\ Forall passed_over before
    /\ all_decimal word = true /\ digits_value 0 word = n
    /\ In n Advisor.iso_values.
Proof.
  split.
  - intros Hf.
    destruct (find_iso_cases words)
      as [[Hn _]|[(b & w & a & Hw & Hb & Ha & Hin & Hr)
                 |(b & w & a & _ & _ & _ & _ & e & Hr)]];
      rewrite Hf in *; try discriminate.
    injection Hr as ->. exists b, w, a. auto.
  - intros (b & w & a & -> & Hb & Ha & <- & Hin).
    rewrite (find_iso_skip _ _ Hb). cbn [Advisor.find_iso].
    rewrite (all_decimal_isdigit _ Ha). unfold int_of_str. rewrite Ha.
    run_bind. apply in_list_iff in Hin. now rewrite Hin.
Qed.

(** The two later steps of [_parse_llm_response] leave the iso entry as
    the first step made it. *)
Lemma parse_llm_response_iso (text : string) (d : gmap string pyval) :
  Advisor._parse_llm_response text = Ok d ->
  exists found,
    (if contains "iso" (lower text) then Advisor.find_iso (split text)
     else Ok None) = Ok found
    /\ d !! "iso" = VInt <$> found.
Proof.
  unfold Advisor._parse_llm_response.
  destruct (contains "iso" (lower text)).
  - destruct (Advisor.find_iso (split text)) as [found|e]; [|discriminate].
    run_bind. intros [= <-]. exists found. split; [reflexivity|].
    repeat match goal with
           | |- context [if ?b then _ else _] => destruct b
           | |- context [match re_search ?f ?s with _ => _ end] =>
               destruct (re_search f s)
           end;
      rewrite ?lookup_insert_ne by discriminate;
      destruct found; reflexivity.
  - run_bind. intros [= <-]. exists None. split; [reflexivity|].
    repeat match goal with
           | |- context [if ?b then _ else _] => destruct b
           | |- context [match re_search ?f ?s with _ => _ end] =>
               destruct (re_search f s)
           end;
      rewrite ?lookup_insert_ne by discriminate; reflexivity.
Qed.

(** X3.  The iso entry of a parsed answer is the value of the first word of
    the text that is a decimal number with a standard ISO value, all
    words before it being passed over; and there is such an entry only if
    the text mentions iso, in any case. *)
Theorem parse_iso_is_first_standard_word (text : string)
  (d : gmap string pyval) (n : Z) :
  Advisor._parse_llm_response text = Ok d ->
  (d !! "iso" = Some (VInt n) <->
   occurs "iso" (lower text)
   /\ exists before word after,
        split text = before ++ word :: after
        /\ Forall passed_over before
        /\ all_decimal word = true /\ digits_value 0 word = n
        /\ In n Advisor.iso_values).
Proof.
  intros Hd. destruct (parse_llm_response_iso _ _ Hd) as [found [Hf ->]].
  rewrite <- contains_iff, <- find_iso_some_iff.
  destruct (contains "iso" (lower text)).
  - rewrite Hf. destruct found; cbn [fmap option_fmap option_map].
    + split; [intros [= ->]; auto | intros [_ [= ->]]; reflexivity].
    + split; [discriminate | intros [_ [=]]].
  - injection Hf as <-. split; [discriminate | intros [[=] _]].
Qed.

Lemma parse_iso_is_first_standard_word_witness :
  <["iso" := VInt 400]> (∅ : gmap string pyval) !! "iso" = Some (VInt 400) <->
  occurs "iso" (lower "Not 50: take ISO 400 or 800")
  /\ exists before word after,
       split "Not 50: take ISO 400 or 800" = before ++ word :: after
       /\ Forall passed_over before
       /\ all_decimal word = true /\ digits_value 0 word = 400
       /\ In 400 Advisor.iso_values.
Proof.
  apply (parse_iso_is_first_standard_word "Not 50: take ISO 400 or 800").
  vm_compute. reflexivity.
Defined.

(** X4.  When the text mentions iso and the first word that is not passed
    over is a digit word that is not a decimal number (a word with a
    superscript digit), [int] refuses it and [_parse_llm_response] raises
    a [ValueError]. *)
Theorem parse_llm_response_raises_on_digit_word (text : string) :
  occurs "iso" (lower text) ->
  (exists before word after,
     split text = before ++ word :: after
     /\ Forall passed_over before
     /\ isdigit word = true /\ all_decimal word = false) ->
  exists msg,
    Advisor._parse_llm_response text = Raise (Exn "ValueError" msg).
Proof.
  intros Hiso (before & word & after & Hw & Hb & Hd & Ha).
  apply contains_iff in Hiso.
  unfold Advisor._parse_llm_response. rewrite Hiso, Hw.
  rewrite (find_iso_skip _ _ Hb). cbn [Advisor.find_iso].
  rewrite Hd. unfold int_of_str. rewrite Ha. run_bind.
  eexists. reflexivity.
Qed.

Lemma parse_llm_response_raises_on_digit_word_witness :
  exists msg,
    Advisor._parse_llm_response
      ("Use iso 50 or " +:+ String (ascii_of_nat 178) "")
    = Raise (Exn "ValueError" msg).
Proof.
  apply (parse_llm_response_raises_on_digit_word
           ("Use iso 50 or " +:+ String (ascii_of_nat 178) "")).
  - exists "use ", (" 50 or " +:+ String (ascii_of_nat 178) "").
    vm_compute. reflexivity.
  - exists ["Use"; "iso"; "50"; "or"], (String (ascii_of_nat 178) ""), [].
    split; [vm_compute; reflexivity|].
    split; [|split; vm_compute; reflexivity].
    repeat apply List.Forall_cons; try apply List.Forall_nil;
      try (left; reflexivity).
    right. split; [reflexivity|]. vm_compute. intuition discriminate.
Defined.

Lemma drop_prefix_iff (p s r : string) :
  drop_prefix p s = Some r <-> s = p +:+ r.
Proof.
  revert s. induction p as [|a p IH]; intros s; cbn [drop_prefix].
  - rewrite append_nil_l. split; [intros [= ->] | intros ->]; reflexivity.
  - rewrite append_cons. destruct s as [|b s]; [split; discriminate|].
    destruct (Ascii.eqb_spec a b) as [->|Hab].
    + rewrite IH. split; [intros -> | intros [= ->]]; reflexivity.
    + split; [discriminate | intros [= ? _]; congruence].
Qed.

Lemma span_digits_nonempty (s : string) :
  nonempty (fst (span_digits s)) = true <->
  exists c after, s = String c after /\ isdecimal c = true.
Proof.
  destruct s as [|c s]; cbn [span_digits].
  - split; [discriminate | intros (c & after & [=] & _)].
  - destruct (isdecimal c) eqn:Hc.
    + destruct (span_digits s) as [d r]. cbn [fst nonempty].
      split; [intros _; eauto | reflexivity].
    + split; [discriminate | intros (c' & after & [= <- _] & Hc')].
      congruence.
Qed.

Lemma aperture_at_is_some (s : string) :
  is_Some (Advisor.aperture_at s) <->
  exists c after, s = "f/" +:+ String c after /\ isdecimal c = true.
Proof.
  unfold Advisor.aperture_at.
  destruct (drop_prefix "f/" s) as [r|] eqn:Hp.
  - apply drop_prefix_iff in Hp. subst s.
    pose proof (span_digits_nonempty r) as Hn.
    destruct (span_digits r) as [d1 r1]. cbn [fst] in Hn.
    assert ((exists c after, r = String c after /\ isdecimal c = true) <->
            exists c after,
              "f/" +:+ r = "f/" +:+ String c after /\ isdecimal c = true)
      as <-.
    { split; intros (c & after & He & Hc); exists c, after; split; auto.
      - now rewrite He.
      - rewrite !append_cons, !append_nil_l in He. now injection He. }
    rewrite <- Hn. destruct (nonempty d1).
    + split; [reflexivity|]. intros _.
      destruct r1 as [|[[] [] [] [] [] [] [] []] r2]; eauto.
    + split; [intros [x [=]] | discriminate].
  - split; [intros [x [=]]|]. intros (c & after & -> & _).
    assert (drop_prefix "f/" ("f/" +:+ String c after) = Some (String c after))
      as Hq by now apply drop_prefix_iff.
    congruence.
Qed.

Lemma shutter_at_is_some (s : string) :
  is_Some (Advisor.shutter_at s) <->
  exists c after, s = "1/" +:+ String c after /\ isdecimal c = true.
Proof.
  unfold Advisor.shutter_at.
  destruct (drop_prefix "1/" s) as [r|] eqn:Hp.
  - apply drop_prefix_iff in Hp. subst s.
    assert ((exists c after, r = String c after /\ isdecimal c = true) <->
            exists c after,
              "1/" +:+ r = "1/" +:+ String c after /\ isdecimal c = true)
      as <-.
    { split; intros (c & after & He & Hc); exists c, after; split; auto.
      - now rewrite He.
      - rewrite !append_cons, !append_nil_l in He. now injection He. }
    rewrite <- span_digits_nonempty.
    destruct (nonempty (fst (span_digits r))).
    + split; eauto.
    + split; [intros [x [=]] | discriminate].
  - split; [intros [x [=]]|]. intros (c & after & -> & _).
    assert (drop_prefix "1/" ("1/" +:+ String c after) = Some (String c after))
      as Hq by now apply drop_prefix_iff.
    congruence.
Qed.

Lemma re_search_is_some {A : Type} (at_start : string -> option A)
  (s : string) :
  is_Some (re_search at_start s) <->
  exists before rest, s = before +:+ rest /\ is_Some (at_start rest).
Proof.
  split.
  - intros [g Hg]. destruct (re_search_found _ _ _ Hg) as (b & r & -> & Hr).
    exists b, r. split; [reflexivity | eauto].
  - intros (b & r & -> & Hr). induction b as [|c b IH].
    + rewrite append_nil_l. destruct r; cbn [re_search];
        destruct Hr as [g ->]; eauto.
    + rewrite append_cons. cbn [re_search].
      destruct (at_start (String c (b +:+ r))); eauto.
Qed.

Lemma search_aperture_iff (s : string) :
  is_Some (re_search Advisor.aperture_at s) <-> has_pattern "f/" s.
Proof.
  rewrite re_search_is_some. unfold has_pattern. split.
  - intros (b & r & -> & Hr). apply aperture_at_is_some in Hr.
    destruct Hr as (c & after & -> & Hc). eauto.
  - intros (b & c & after & -> & Hc). exists b, ("f/" +:+ String c after).
    split; [reflexivity|]. apply aperture_at_is_some. eauto.
Qed.

Lemma search_shutter_iff (s : string) :
  is_Some (re_search Advisor.shutter_at s) <-> has_pattern "1/" s.
Proof.
  rewrite re_search_is_some. unfold has_pattern. split.
  - intros (b & r & -> & Hr). apply shutter_at_is_some in Hr.
    destruct Hr as (c & after & -> & Hc). eauto.
  - intros (b & c & after & -> & Hc). exists b, ("1/" +:+ String c after).
    split; [reflexivity|]. apply shutter_at_is_some. eauto.
Qed.

Lemma has_pattern_contains (p s : string) :
  has_pattern p s -> contains p s = true.
Proof.
  intros (b & c & after & -> & _). apply contains_iff.
  exists b, (String c after). reflexivity.
Qed.

(** X5.  Whether a parsed answer has an aperture or a shutter speed is decided
    by the patterns alone: there is an aperture exactly when the
    lower-cased text contains f/ followed by a digit, and a shutter speed
    exactly when the text contains 1/ followed by a digit.  The words
    aperture and shutter by themselves yield nothing. *)
Theorem parse_aperture_shutter_by_pattern (text : string)
  (d : gmap string pyval) :
  Advisor._parse_llm_response text = Ok d ->
  (is_Some (d !! "aperture") <-> has_pattern "f/" (lower text))
  /\ (is_Some (d !! "shutter_speed") <-> has_pattern "1/" text).
Proof.
  unfold Advisor._parse_llm_response.
  destruct (if contains "iso" (lower text)
            then found ← Advisor.find_iso (split text);
                 Ok match found with
                    | Some n => <["iso" := VInt n]> (∅ : gmap string pyval)
                    | None => ∅
                    end
            else Ok ∅) as [s1|e] eqn:H1; [|discriminate].
  run_bind. intros [= <-].
  assert (s1 !! "aperture" = None /\ s1 !! "shutter_speed" = None)
    as [Ha1 Hs1].
  { destruct (contains "iso" (lower text)); [|injection H1 as <-; auto].
    destruct (Advisor.find_iso (split text)) as [[n|]|]; try discriminate;
      injection H1 as <-; auto. }
  rewrite <- search_aperture_iff, <- search_shutter_iff.
  pose proof (search_aperture_iff (lower text)) as Pa.
  pose proof (search_shutter_iff text) as Ps.
  destruct (re_search Advisor.aperture_at (lower text)) as [ga|] eqn:Ea;
    destruct (re_search Advisor.shutter_at text) as [gs|] eqn:Es.
  all: try (rewrite (has_pattern_contains "f/" (lower text))
              by (apply Pa; eauto)).
  all: try (rewrite (has_pattern_contains "1/" text) by (apply Ps; eauto)).
  all: rewrite ?orb_true_r; cbn [orb].
  all: repeat match goal with
         | |- context [if ?b then _ else _] => destruct b
         end.
  all: rewrite ?lookup_insert_eq, ?lookup_insert_ne by discriminate.
  all: rewrite ?lookup_insert_eq, ?Ha1, ?Hs1.
  all: split; split; eauto; intros [x [=]].
Qed.

Lemma parse_aperture_shutter_by_pattern_witness :
  (is_Some (<["shutter_speed" := VStr "1/250s"]>
              (∅ : gmap string pyval) !! "aperture")
   <-> has_pattern "f/" (lower "Open the aperture and keep 1/250"))
  /\ (is_Some (<["shutter_speed" := VStr "1/250s"]>
                 (∅ : gmap string pyval) !! "shutter_speed")
      <-> has_pattern "1/" "Open the aperture and keep 1/250").
Proof.
  apply (parse_aperture_shutter_by_pattern
           "Open the aperture and keep 1/250").
  vm_compute. reflexivity.
Defined.

Lemma parse_llm_response_dom (text : string) (d : gmap string pyval) :
  Advisor._parse_llm_response text = Ok d ->
  dom d ⊆ keys ["iso"; "aperture"; "shutter_speed"].
Proof.
  unfold Advisor._parse_llm_response.
  destruct (if contains "iso" (lower text)
            then found ← Advisor.find_iso (split text);
                 Ok match found with
                    | Some n => <["iso" := VInt n]> (∅ : gmap string pyval)
                    | None => ∅
                    end
            else Ok ∅) as [s1|e] eqn:H1; [|discriminate].
  run_bind. intros [= <-].
  assert (dom s1 ⊆ keys ["iso"; "aperture"; "shutter_speed"]) as Hs1.
  { unfold keys. simpl.
    destruct (contains "iso" (lower text));
      [|injection H1 as <-; set_solver].
    destruct (Advisor.find_iso (split text)) as [[n|]|]; try discriminate;
      injection H1 as <-; set_solver. }
  unfold keys in *. simpl in *.
  repeat match goal with
         | |- context [if ?b then _ else _] => destruct b
         | |- context [match re_search ?f ?s with _ => _ end] =>
             destruct (re_search f s)
         end;
    rewrite ?dom_insert_L; set_solver.
Qed.

Lemma rule_based_dom (prompt : string) (cs : Advisor.settings_arg) :
  dom (Advisor._rule_based_suggestions prompt cs)
  = keys ["iso"; "aperture"; "shutter_speed"; "explanation"; "source"].
Proof.
  unfold Advisor._rule_based_suggestions.
  repeat match goal with |- context [if ?b then _ else _] => destruct b end;
    apply profile_dom.
Qed.

Lemma rule_based_explanation (prompt : string) (cs : Advisor.settings_arg) :
  exists text,
    Advisor._rule_based_suggestions prompt cs !! "explanation"
    = Some (VStr text).
Proof.
  unfold Advisor._rule_based_suggestions.
  repeat match goal with |- context [if ?b then _ else _] => destruct b end;
    eexists; reflexivity.
Qed.

(** The two outcomes of [suggest]. *)
Lemma suggest_cases `{Advisor.OpenAI, Runtime} (self : Advisor.LLMAdvisor)
  (prompt : string) (cs : Advisor.settings_arg) :
  Advisor.suggest self prompt cs
  = Ok (Advisor._rule_based_suggestions prompt cs)
  \/ exists c d,
       Advisor.advisor_client self = Some c
       /\ Advisor.llm_branch c prompt cs = Ok d
       /\ Advisor.suggest self prompt cs = Ok d.
Proof.
  unfold Advisor.suggest.
  destruct (Advisor.advisor_client self) as [c|]; [|now left].
  destruct (Advisor.llm_branch c prompt cs) as [d|e] eqn:Hb;
    cbn [try_except]; [right; eauto | now left].
Qed.

(** X6.  Whatever the client does, [suggest] returns a dict that carries an
    explanation and a source and has no key besides iso, aperture,
    shutter_speed, explanation and source.  A rule-based answer has all
    five keys; an answer of the LLM has its text as the explanation and
    only the settings that were found in the text. *)
Theorem suggest_always_explains `{Advisor.OpenAI, Runtime}
  (self : Advisor.LLMAdvisor) (prompt : string)
  (current_settings : Advisor.settings_arg) :
  exists d,
    Advisor.suggest self prompt current_settings = Ok d
    /\ dom d
       ⊆ keys ["iso"; "aperture"; "shutter_speed"; "explanation"; "source"]
    /\ (exists text, d !! "explanation" = Some (VStr text))
    /\ ((d !! "source" = Some (VStr "rule-based")
         /\ dom d
            = keys ["iso"; "aperture"; "shutter_speed"; "explanation";
                    "source"])
        \/ (d !! "source" = Some (VStr "llm")
            /\ exists text parsed,
                 Advisor._parse_llm_response text = Ok parsed
                 /\ d !! "explanation" = Some (VStr text)
                 /\ forall k, k <> "explanation" -> k <> "source" ->
                      d !! k = parsed !! k)).
Proof.
  destruct (suggest_cases self prompt current_settings)
    as [Hr|(c & d & _ & Hb & Hs)].
  - eexists. split; [exact Hr|]. rewrite rule_based_dom.
    split; [reflexivity|]. split; [apply rule_based_explanation|].
    left. split; [apply rule_based_source | reflexivity].
  - exists d. split; [exact Hs|].
    apply llm_branch_returns in Hb.
    destruct Hb as (response & text & rest & parsed & _ & _ & Hp & ->).
    pose proof (parse_llm_response_dom _ _ Hp) as Hdom.
    split; [|split].
    + rewrite !dom_insert_L. unfold keys in *. simpl in *. set_solver.
    + exists text. rewrite lookup_insert_ne by discriminate.
      apply lookup_insert_eq.
    + right. split; [apply lookup_insert_eq|]. exists text, parsed.
      split; [exact Hp|]. split.
      * rewrite lookup_insert_ne by discriminate. apply lookup_insert_eq.
      * intros k Hk1 Hk2. now rewrite !lookup_insert_ne by congruence.
Qed.

(** X7.  The suggest endpoint never answers with an error: for every advisor,
    prompt and current settings the response is a success that carries
    what [suggest] returned. *)
Theorem suggest_endpoint_never_fails `{Advisor.OpenAI, Runtime}
  (_advisor : Advisor.LLMAdvisor) (prompt : string)
  (current_settings : Advisor.settings_arg) :
  exists d,
    Advisor.suggest _advisor prompt current_settings = Ok d
    /\ Metadata.suggest_camera_parameters _advisor prompt current_settings
       = Metadata.Success d.
Proof.
  unfold Metadata.suggest_camera_parameters, Advisor.suggest_parameters.
  destruct (suggest_cases _advisor prompt current_settings)
    as [Hr|(c & d & _ & _ & Hs)].
  - eexists. split; [exact Hr|]. rewrite Hr. reflexivity.
  - exists d. split; [exact Hs|]. rewrite Hs. reflexivity.
Qed.

(** ** settings_predictor.py *)

(** X8.  The constructor takes the given path unless it is missing or empty.
    It leaves the session unset when onnxruntime is missing or the model
    file does not exist, and [predict] is then the brightness heuristic;
    it keeps the session that [InferenceSession] returns; and when
    [InferenceSession] raises on an existing file, the constructor raises
    the same exception. *)
Theorem predictor_init_cases `{Imaging.Pillow, Imaging.Onnx, Runtime}
  (HAS_ONNX : bool) (exists_ : string -> bool) (module_dir : string)
  (path : option string) :
  let chosen :=
    match path with
    | Some p =>
        if nonempty p then p else Predictor.default_model_path module_dir
    | None => Predictor.default_model_path module_dir
    end in
  match Predictor.SettingsPredictor_init HAS_ONNX exists_ module_dir path with
  | Ok p =>
      Predictor.model_path p = chosen
      /\ match Predictor.predictor_session p with
         | None =>
             (HAS_ONNX = false \/ exists_ chosen = false)
             /\ forall image_bytes,
                  Predictor.predict p image_bytes
                  = Predictor._rule_based_prediction image_bytes
         | Some s =>
             HAS_ONNX = true /\ exists_ chosen = true
             /\ Imaging.InferenceSession chosen = Ok s
         end
  | Raise e =>
      HAS_ONNX = true /\ exists_ chosen = true
      /\ Imaging.InferenceSession chosen = Raise e
  end.
Proof.
  intros chosen. unfold Predictor.SettingsPredictor_init. fold chosen.
  destruct HAS_ONNX; cbn [andb].
  - destruct (exists_ chosen) eqn:He.
    + destruct (Imaging.InferenceSession chosen) as [s|e]; run_bind;
        cbn [Predictor.model_path Predictor.predictor_session]; auto.
    + cbn [Predictor.model_path Predictor.predictor_session]. auto.
  - cbn [Predictor.model_path Predictor.predictor_session]. auto.
Qed.

(** [parse_outputs] on a row of numbers. *)
Lemma parse_outputs_row `{Runtime, Ieee.Formatting} (xs : list Ieee.float)
  (others : list Ieee.ndarray) :
  Ieee.parse_outputs (Ieee.Arr [Ieee.Arr (map Ieee.Scalar xs)] :: others)
  = match xs with
    | x0 :: rest =>
        iso ← Ieee.int_of_float (Ieee.scaled x0 6400);
        match rest with
        | x1 :: x2 :: more =>
            t ← Ieee.int_of_float (Ieee.reciprocal (Ieee.scaled x2 8000));
            Ok (Ieee.Predictions iso
                  ("f/" +:+ Ieee.fmt_1f (Ieee.scaled x1 22))
                  ("1/" +:+ py_str (VInt t) +:+ "s")
                  match more with
                  | x3 :: _ => Ieee.to_double x3
                  | [] => Ieee.decimal 8 1
                  end)
        | _ => Raise (Exn "IndexError" "index is out of bounds")
        end
    | [] => Raise (Exn "IndexError" "index is out of bounds")
    end.
Proof.
  unfold Ieee.parse_outputs, Ieee.output_at.
  destruct xs as [|x0 [|x1 [|x2 more]]];
    cbn [map Ieee.item nth_error Ieee.scalar mbind result_bind bind];
    try reflexivity.
  destruct (Ieee.int_of_float (Ieee.scaled x0 6400)); run_bind;
    [|reflexivity].
  destruct (Ieee.int_of_float (Ieee.reciprocal (Ieee.scaled x2 8000)));
    run_bind; [|reflexivity].
  cbn [Ieee.np_len mbind result_bind bind].
  destruct more as [|x3 more].
  - reflexivity.
  - assert ((3 <? Z.of_nat
                      (length
                         (Ieee.Scalar x0 :: Ieee.Scalar x1 :: Ieee.Scalar x2
                          :: map Ieee.Scalar (x3 :: more)))) = true) as ->
      by (apply Z.ltb_lt; cbn [length map]; lia).
    reflexivity.
Qed.

(** X9.  A prediction read from the model's outputs (binary32 numbers) has
    the four entries of the dict literal: the ISO is int(x0 * 6400), of
    the sign of x0; the aperture is x1 * 22 with one decimal; the
    confidence is the fourth output when there is one, and 0.8 otherwise.
    The products are rounded to binary32. *)
Theorem onnx_outputs_scaled `{Runtime, Ieee.Formatting}
  (xs : list Ieee.float) (others : list Ieee.ndarray)
  (d : Ieee.predictions) :
  Ieee.parse_outputs (Ieee.Arr [Ieee.Arr (map Ieee.Scalar xs)] :: others)
  = Ok d ->
  exists x0 x1 x2 more,
    xs = x0 :: x1 :: x2 :: more
    /\ Ieee.int_of_float (Ieee.scaled x0 6400) = Ok (Ieee.iso d)
    /\ Ieee.aperture d = "f/" +:+ Ieee.fmt_1f (Ieee.scaled x1 22)
    /\ Ieee.confidence d
       = match more with
         | x3 :: _ => Ieee.to_double x3
         | [] => Ieee.decimal 8 1
         end
    /\ (Ieee.negative x0 = false -> 0 <= Ieee.iso d)
    /\ (Ieee.negative x0 = true -> Ieee.iso d <= 0).
Proof.
  rewrite parse_outputs_row.
  destruct xs as [|x0 [|x1 [|x2 more]]]; try discriminate;
    destruct (Ieee.int_of_float (Ieee.scaled x0 6400)) as [iso|e] eqn:Ei;
    run_bind; try discriminate.
  destruct (Ieee.int_of_float (Ieee.reciprocal (Ieee.scaled x2 8000)))
    as [t|e]; run_bind; [|discriminate].
  intros [= <-]. exists x0, x1, x2, more.
  cbn [Ieee.iso Ieee.aperture Ieee.confidence].
  split; [reflexivity|]. split; [exact Ei|]. split; [reflexivity|].
  split; [reflexivity|].
  pose proof (fmul_sign Ieee.binary32 x0 (Ieee.of_Z Ieee.binary32 6400))
    as Hs.
  change (Ieee.negative (Ieee.of_Z Ieee.binary32 6400)) with false in Hs.
  rewrite xorb_false_r in Hs. fold (Ieee.scaled x0 6400) in Hs.
  destruct Hs as [Hs|Hs]; [rewrite Hs in Ei; discriminate Ei|].
  rewrite <- Hs. exact (int_of_float_sign _ _ Ei).
Qed.

Lemma onnx_outputs_scaled_witness :
  exists x0 x1 x2 more,
    [Reference.single 5 1; Reference.single 25 2; Reference.single 125 6]
    = x0 :: x1 :: x2 :: more
    /\ Ieee.int_of_float (Ieee.scaled x0 6400) = Ok 3200
    /\ "f/5.5" = "f/" +:+ @Ieee.fmt_1f Reference.formatting
                            (Ieee.scaled x1 22)
    /\ Ieee.decimal 8 1
       = match more with
         | x3 :: _ => Ieee.to_double x3
         | [] => Ieee.decimal 8 1
         end
    /\ (Ieee.negative x0 = false -> 0 <= 3200)
    /\ (Ieee.negative x0 = true -> 3200 <= 0).
Proof.
  apply (@onnx_outputs_scaled Reference.runtime Reference.formatting
           [Reference.single 5 1; Reference.single 25 2;
            Reference.single 125 6] []
           (Ieee.Predictions 3200 "f/5.5" "1/1s" (Ieee.decimal 8 1))).
  vm_compute. reflexivity.
Defined.

(** X10.  The shutter speed of a prediction is "1/" followed by
    int(1 / (x2 * 8000)), computed in binary32: the denominator has the
    sign of x2, it is 0 for an infinite x2, and x2 is neither NaN nor a
    zero. *)
Theorem onnx_shutter_denominator `{Runtime, Ieee.Formatting}
  (xs : list Ieee.float) (others : list Ieee.ndarray)
  (d : Ieee.predictions) :
  Ieee.parse_outputs (Ieee.Arr [Ieee.Arr (map Ieee.Scalar xs)] :: others)
  = Ok d ->
  exists x0 x1 x2 more t,
    xs = x0 :: x1 :: x2 :: more
    /\ Ieee.int_of_float (Ieee.reciprocal (Ieee.scaled x2 8000)) = Ok t
    /\ Ieee.shutter_speed d = "1/" +:+ py_str (VInt t) +:+ "s"
    /\ (Ieee.negative x2 = false -> 0 <= t)
    /\ (Ieee.negative x2 = true -> t <= 0)
    /\ (forall s, x2 = SpecFloat.S754_infinity s -> t = 0)
    /\ x2 <> Ieee.nan
    /\ (forall s, x2 <> SpecFloat.S754_zero s).
Proof.
  rewrite parse_outputs_row.
  destruct xs as [|x0 [|x1 [|x2 more]]]; try discriminate;
    destruct (Ieee.int_of_float (Ieee.scaled x0 6400)) as [iso|e];
    run_bind; try discriminate.
  destruct (Ieee.int_of_float (Ieee.reciprocal (Ieee.scaled x2 8000)))
    as [t|e] eqn:Et; run_bind; [|discriminate].
  intros [= <-]. exists x0, x1, x2, more, t. cbn [Ieee.shutter_speed].
  split; [reflexivity|]. split; [exact Et|]. split; [reflexivity|].
  assert (Ieee.negative x2 = false -> 0 <= t) as Hpos.
  { intros Hx.
    pose proof (fmul_sign Ieee.binary32 x2 (Ieee.of_Z Ieee.binary32 8000))
      as Hs.
    change (Ieee.negative (Ieee.of_Z Ieee.binary32 8000)) with false in Hs.
    rewrite xorb_false_r, Hx in Hs. fold (Ieee.scaled x2 8000) in Hs.
    pose proof (fdiv_sign Ieee.binary32 (Ieee.of_Z Ieee.binary32 1)
                  (Ieee.scaled x2 8000)) as Hq.
    fold (Ieee.reciprocal (Ieee.scaled x2 8000)) in Hq.
    change (Ieee.negative (Ieee.of_Z Ieee.binary32 1)) with false in Hq.
    destruct Hs as [Hs|Hs].
    - rewrite Hs in Et. discriminate Et.
    - rewrite Hs in Hq. destruct Hq as [Hq|Hq];
        [rewrite Hq in Et; discriminate Et|].
      now apply (int_of_float_sign _ _ Et). }
  assert (Ieee.negative x2 = true -> t <= 0) as Hneg.
  { intros Hx.
    pose proof (fmul_sign Ieee.binary32 x2 (Ieee.of_Z Ieee.binary32 8000))
      as Hs.
    change (Ieee.negative (Ieee.of_Z Ieee.binary32 8000)) with false in Hs.
    rewrite xorb_false_r, Hx in Hs. fold (Ieee.scaled x2 8000) in Hs.
    pose proof (fdiv_sign Ieee.binary32 (Ieee.of_Z Ieee.binary32 1)
                  (Ieee.scaled x2 8000)) as Hq.
    fold (Ieee.reciprocal (Ieee.scaled x2 8000)) in Hq.
    change (Ieee.negative (Ieee.of_Z Ieee.binary32 1)) with false in Hq.
    destruct Hs as [Hs|Hs].
    - rewrite Hs in Et. discriminate Et.
    - rewrite Hs in Hq. destruct Hq as [Hq|Hq];
        [rewrite Hq in Et; discriminate Et|].
      now apply (int_of_float_sign _ _ Et). }
  split; [exact Hpos|]. split; [exact Hneg|]. split; [|split].
  - intros s ->. destruct s; vm_compute in Et; congruence.
  - intros ->. vm_compute in Et. discriminate Et.
  - intros s ->. destruct s; vm_compute in Et; discriminate Et.
Qed.

Lemma onnx_shutter_denominator_witness :
  exists x0 x1 x2 more t,
    [Reference.single 5 1; Reference.single 25 2; Reference.single 125 6]
    = x0 :: x1 :: x2 :: more
    /\ Ieee.int_of_float (Ieee.reciprocal (Ieee.scaled x2 8000)) = Ok t
    /\ "1/1s" = "1/" +:+ @py_str Reference.runtime (VInt t) +:+ "s"
    /\ (Ieee.negative x2 = false -> 0 <= t)
    /\ (Ieee.negative x2 = true -> t <= 0)
    /\ (forall s, x2 = SpecFloat.S754_infinity s -> t = 0)
    /\ x2 <> Ieee.nan
    /\ (forall s, x2 <> SpecFloat.S754_zero s).
Proof.
  apply (@onnx_shutter_denominator Reference.runtime Reference.formatting
           [Reference.single 5 1; Reference.single 25 2;
            Reference.single 125 6] []
           (Ieee.Predictions 3200 "f/5.5" "1/1s" (Ieee.decimal 8 1))).
  vm_compute. reflexivity.
Defined.

(** X11.  When the dict literal is not completed.  [parse_outputs] raises an
    [IndexError] on an empty list of outputs; it raises on a row of fewer
    than three numbers; a first output that is NaN makes [int] raise a
    [ValueError], an infinite one an [OverflowError]; and a third output
    that is NaN or a zero makes it raise one of the two, the reciprocal
    of a zero being an infinity.  In each case [predict] goes on to the
    heuristic. *)
Theorem parse_outputs_raises `{Runtime, Ieee.Formatting} :
  (exists msg, Ieee.parse_outputs [] = Raise (Exn "IndexError" msg))
  /\ (forall xs others,
        (length xs < 3)%nat ->
        exists e,
          Ieee.parse_outputs
            (Ieee.Arr [Ieee.Arr (map Ieee.Scalar xs)] :: others) = Raise e)
  /\ (forall rest others,
        Ieee.parse_outputs
          (Ieee.Arr [Ieee.Arr (map Ieee.Scalar (Ieee.nan :: rest))]
           :: others)
        = Raise (Exn "ValueError" "cannot convert float NaN to integer"))
  /\ (forall s rest others,
        Ieee.parse_outputs
          (Ieee.Arr
             [Ieee.Arr (map Ieee.Scalar (SpecFloat.S754_infinity s :: rest))]
           :: others)
        = Raise (Exn "OverflowError"
                   "cannot convert float infinity to integer"))
  /\ (forall x0 x1 x2 more others,
        x2 = Ieee.nan \/ (exists s, x2 = SpecFloat.S754_zero s) ->
        exists e,
          Ieee.parse_outputs
            (Ieee.Arr [Ieee.Arr (map Ieee.Scalar (x0 :: x1 :: x2 :: more))]
             :: others) = Raise e
          /\ (exn_class e = "ValueError" \/ exn_class e = "OverflowError")).
Proof.
  split; [eexists; reflexivity|]. split; [|split; [|split]].
  - intros xs others Hlen. rewrite parse_outputs_row.
    destruct xs as [|x0 [|x1 [|x2 more]]]; cbn [length] in Hlen; try lia;
      try (eexists; reflexivity);
      destruct (Ieee.int_of_float (Ieee.scaled x0 6400)); run_bind;
      eexists; reflexivity.
  - intros rest others. rewrite parse_outputs_row.
    change (Ieee.int_of_float (Ieee.scaled Ieee.nan 6400))
      with (@Raise Z (Exn "ValueError" "cannot convert float NaN to integer")).
    reflexivity.
  - intros s rest others. rewrite parse_outputs_row.
    assert (Ieee.int_of_float
              (Ieee.scaled (SpecFloat.S754_infinity s) 6400)
            = Raise (Exn "OverflowError"
                       "cannot convert float infinity to integer")) as ->
      by (destruct s; vm_compute; reflexivity).
    reflexivity.
  - intros x0 x1 x2 more others Hx. rewrite parse_outputs_row.
    destruct (Ieee.int_of_float (Ieee.scaled x0 6400)) as [iso|e] eqn:Ei;
      run_bind.
    + assert (exists e,
                 Ieee.int_of_float (Ieee.reciprocal (Ieee.scaled x2 8000))
                 = Raise e
                 /\ (exn_class e = "ValueError"
                     \/ exn_class e = "OverflowError")) as (e & -> & He).
      { destruct Hx as [->|[s ->]]; [|destruct s]; eexists;
          (split; [vm_compute; reflexivity|]); auto. }
      run_bind. eauto.
    + exists e. split; [reflexivity|].
      apply int_of_float_raises in Ei as [(s & _ & ->)|[_ ->]]; auto.
Qed.

(** The third output 2^-149, the least positive binary32 number, times
    8000 has a reciprocal beyond the format: an infinity, on which [int]
    raises.  The binary32 number nearest to 0.000125 is greater than
    1/8000, and yet its product by 8000 is rounded to 1 and the shutter
    speed is 1/1s. *)
Example parse_outputs_rounding :
  @Ieee.parse_outputs Reference.runtime Reference.formatting
    [Ieee.Arr [Ieee.Arr [Ieee.Scalar (Reference.single 5 1);
                         Ieee.Scalar (Reference.single 25 2);
                         Ieee.Scalar (SpecFloat.S754_finite false 1 (-149))]]]
  = Raise (Exn "OverflowError" "cannot convert float infinity to integer")
  /\ @Ieee.parse_outputs Reference.runtime Reference.formatting
       [Ieee.Arr [Ieee.Arr [Ieee.Scalar (Reference.single 5 1);
                            Ieee.Scalar (Reference.single 25 2);
                            Ieee.Scalar (Reference.single 125 6)]]]
     = Ok (Ieee.Predictions 3200 "f/5.5" "1/1s" (Ieee.decimal 8 1))
  /\ Reference.exact (Reference.single 125 6)
     = Fin (8589935 # 68719476736)
  /\ (1 # 8000 < 8589935 # 68719476736)%Q.
Proof. repeat split; vm_compute; reflexivity. Qed.

Lemma Qsum_bounds (lo hi : Q) (qs : list Q) :
  Forall (fun q => (lo <= q)%Q /\ (q <= hi)%Q) qs ->
  (inject_Z (Z.of_nat (length qs)) * lo <= Qsum qs)%Q
  /\ (Qsum qs <= inject_Z (Z.of_nat (length qs)) * hi)%Q.
Proof.
  induction 1 as [|q qs [Hlo Hhi] _ [IHlo IHhi]].
  - unfold Qsum. cbn [length fold_right].
    change (inject_Z (Z.of_nat 0)) with 0%Q. split; lra.
  - unfold Qsum. cbn [length fold_right]. rewrite Nat2Z.inj_succ, <- Z.add_1_r.
    rewrite inject_Z_plus. fold (Qsum qs).
    change (inject_Z 1) with 1%Q. split; lra.
Qed.

Lemma Qmean_bounds (lo hi : Q) (qs : list Q) :
  qs <> [] ->
  Forall (fun q => (lo <= q)%Q /\ (q <= hi)%Q) qs ->
  (lo <= Qmean qs)%Q /\ (Qmean qs <= hi)%Q.
Proof.
  intros Hne Hall. destruct (Qsum_bounds _ _ _ Hall) as [Hlo Hhi].
  assert (0 < inject_Z (Z.of_nat (length qs)))%Q as Hn.
  { rewrite <- (Zlt_Qlt 0). destruct qs; [contradiction | cbn [length]; lia]. }
  unfold Qmean. split.
  - apply Qle_shift_div_l; [exact Hn | lra].
  - apply Qle_shift_div_r; [exact Hn | lra].
Qed.

(** X12.  The brightness the heuristic reports lies between the darkest and the
    brightest pixel of the grayscale image.  So an image whose pixels are
    all below 85 gets ISO 1600, f/2.8, 1/60s, and one whose pixels are
    all at least 170 gets ISO 100, f/8.0, 1/500s. *)
Theorem heuristic_brightness_in_pixel_range `{Imaging.Pillow}
  (image_bytes : list byte) (arr : Imaging.ndarray) (qs : list Q)
  (lo hi : Q) :
  grayscale image_bytes = Ok arr ->
  Imaging.flatten arr = map Fin qs -> qs <> [] ->
  Forall (fun q => (lo <= q)%Q /\ (q <= hi)%Q) qs ->
  exists d m,
    Predictor._rule_based_prediction image_bytes = Ok d
    /\ d !! "avg_brightness" = Some (VFloat (Fin m))
    /\ (lo <= m)%Q /\ (m <= hi)%Q
    /\ ((hi < 85)%Q -> has_settings d 1600 "f/2.8" "1/60s")
    /\ ((170 <= lo)%Q -> has_settings d 100 "f/8.0" "1/500s").
Proof.
  intros Hg Hflat Hne Hall.
  destruct (rule_based_prediction_decoded _ _ Hg)
    as (iso & aperture & shutter & Hd & Hsel).
  destruct (np_mean_finite _ _ Hflat Hne) as (m & Hm & Hmq).
  destruct (Qmean_bounds _ _ _ Hne Hall) as [Hlo Hhi].
  rewrite Hm in Hd, Hsel. eexists. exists m. split; [exact Hd|].
  split; [reflexivity|]. split; [rewrite Hmq; exact Hlo|].
  split; [rewrite Hmq; exact Hhi|]. unfold flt, of_int in Hsel. split.
  - intros Hdark.
    assert (Qltb m (inject_Z 85) = true) as Hb.
    { apply Qltb_lt. rewrite Hmq. unfold inject_Z. lra. }
    rewrite Hb in Hsel. injection Hsel as -> -> ->. repeat split.
  - intros Hbright.
    assert (Qltb m (inject_Z 85) = false) as Hb1.
    { apply Qltb_ge. rewrite Hmq. unfold inject_Z. lra. }
    assert (Qltb m (inject_Z 170) = false) as Hb2.
    { apply Qltb_ge. rewrite Hmq. unfold inject_Z. lra. }
    rewrite Hb1, Hb2 in Hsel. injection Hsel as -> -> ->. repeat split.
Qed.

Lemma heuristic_brightness_in_pixel_range_witness :
  exists d m,
    @Predictor._rule_based_prediction (Reference.pillow [])
      Reference.bright_image = Ok d
    /\ d !! "avg_brightness" = Some (VFloat (Fin m))
    /\ (200 <= m)%Q /\ (m <= 230)%Q
    /\ ((230 < 85)%Q -> has_settings d 1600 "f/2.8" "1/60s")
    /\ ((170 <= 200)%Q -> has_settings d 100 "f/8.0" "1/500s").
Proof.
  apply (@heuristic_brightness_in_pixel_range (Reference.pillow [])
           Reference.bright_image
           (Imaging.Arr [Imaging.Arr [Imaging.Scalar (of_int 200);
                                      Imaging.Scalar (of_int 210)];
                         Imaging.Arr [Imaging.Scalar (of_int 220);
                                      Imaging.Scalar (of_int 230)]])
           [200; 210; 220; 230]%Q).
  - reflexivity.
  - reflexivity.
  - discriminate.
  - repeat constructor; discriminate.
Defined.

(** X13.  A brighter image never gets a higher ISO from the heuristic. *)
Theorem heuristic_iso_decreases_with_brightness `{Imaging.Pillow}
  (bytes1 bytes2 : list byte) (arr1 arr2 : Imaging.ndarray) (q1 q2 : Q) :
  grayscale bytes1 = Ok arr1 -> grayscale bytes2 = Ok arr2 ->
  Imaging.np_mean arr1 = Fin q1 -> Imaging.np_mean arr2 = Fin q2 ->
  (q1 <= q2)%Q ->
  exists d1 d2 iso1 iso2,
    Predictor._rule_based_prediction bytes1 = Ok d1
    /\ Predictor._rule_based_prediction bytes2 = Ok d2
    /\ d1 !! "iso" = Some (VInt iso1) /\ d2 !! "iso" = Some (VInt iso2)
    /\ iso2 <= iso1.
Proof.
  intros Hg1 Hg2 Hm1 Hm2 Hle.
  destruct (rule_based_prediction_decoded _ _ Hg1)
    as (iso1 & a1 & s1 & Hd1 & Hsel1).
  destruct (rule_based_prediction_decoded _ _ Hg2)
    as (iso2 & a2 & s2 & Hd2 & Hsel2).
  do 2 eexists. exists iso1, iso2. split; [exact Hd1|]. split; [exact Hd2|].
  split; [reflexivity|]. split; [reflexivity|].
  rewrite Hm1 in Hsel1. rewrite Hm2 in Hsel2. unfold flt, of_int in *.
  destruct (Qltb q1 (inject_Z 85)) eqn:A1;
    [|destruct (Qltb q1 (inject_Z 170)) eqn:B1];
    (destruct (Qltb q2 (inject_Z 85)) eqn:A2;
     [|destruct (Qltb q2 (inject_Z 170)) eqn:B2]);
    injection Hsel1 as -> _ _; injection Hsel2 as -> _ _; try lia;
    rewrite ?Qltb_lt, ?Qltb_ge in *; unfold inject_Z in *; lra.
Qed.

Lemma heuristic_iso_decreases_with_brightness_witness :
  exists d1 d2 iso1 iso2,
    @Predictor._rule_based_prediction (Reference.pillow [])
      Reference.dark_image = Ok d1
    /\ @Predictor._rule_based_prediction (Reference.pillow [])
         Reference.bright_image = Ok d2
    /\ d1 !! "iso" = Some (VInt iso1) /\ d2 !! "iso" = Some (VInt iso2)
    /\ iso2 <= iso1.
Proof.
  apply (@heuristic_iso_decreases_with_brightness (Reference.pillow [])
           Reference.dark_image Reference.bright_image
           (Imaging.Arr [Imaging.Arr [Imaging.Scalar (of_int 10);
                                      Imaging.Scalar (of_int 20)];
                         Imaging.Arr [Imaging.Scalar (of_int 30);
                                      Imaging.Scalar (of_int 40)]])
           (Imaging.Arr [Imaging.Arr [Imaging.Scalar (of_int 200);
                                      Imaging.Scalar (of_int 210)];
                         Imaging.Arr [Imaging.Scalar (of_int 220);
                                      Imaging.Scalar (of_int 230)]])
           ((0 + 10 + 20 + 30 + 40) / 4)%Q ((0 + 200 + 210 + 220 + 230) / 4)%Q).
  - reflexivity.
  - reflexivity.
  - vm_compute. reflexivity.
  - vm_compute. reflexivity.
  - vm_compute. discriminate.
Defined.

(** ** metadata_extractor.py *)

Lemma readable_not_bytes `{Runtime} (v : pyval) : is_bytes (Metadata.readable v) = false.
Proof.
  unfold Metadata.readable. destruct v; try reflexivity.
  destruct (bytes_decode _); reflexivity.
Qed.

Lemma exif_info_fold `{Imaging.Pillow, Runtime} (items : list (Z * pyval))
  (acc : gmap Metadata.tag pyval) (k : Metadata.tag) :
  (forall v,
     fold_left (fun info kv =>
                  <[Metadata.tag_of (fst kv) := Metadata.readable (snd kv)]>
                    info) items acc !! k = Some v ->
     acc !! k = Some v
     \/ exists tag_id value,
          In (tag_id, value) items /\ Metadata.tag_of tag_id = k
          /\ v = Metadata.readable value)
  /\ ((is_Some (acc !! k)
       \/ exists tag_id value,
            In (tag_id, value) items /\ Metadata.tag_of tag_id = k) ->
      is_Some (fold_left (fun info kv =>
                  <[Metadata.tag_of (fst kv) := Metadata.readable (snd kv)]>
                    info) items acc !! k)).
Proof.
  revert acc. induction items as [|[tag_id value] items IH]; intros acc.
  - cbn [fold_left]. split; [auto|].
    intros [Hs|(? & ? & [] & _)]. exact Hs.
  - cbn [fold_left fst snd].
    destruct (IH (<[Metadata.tag_of tag_id := Metadata.readable value]> acc))
      as [IH1 IH2].
    split.
    + intros v Hv. destruct (IH1 v Hv) as [Hacc|(t & x & Hin & Ht & Hx)].
      * destruct (decide (Metadata.tag_of tag_id = k)) as [<-|Hne].
        -- rewrite lookup_insert_eq in Hacc. injection Hacc as <-.
           right. exists tag_id, value. split; [now left | auto].
        -- rewrite lookup_insert_ne in Hacc by exact Hne. now left.
      * right. exists t, x. split; [now right | auto].
    + intros [Hs|(t & x & [[= -> ->]|Hin] & Ht)]; apply IH2.
      * left. destruct (decide (Metadata.tag_of tag_id = k)) as [<-|Hne].
        -- rewrite lookup_insert_eq. eauto.
        -- now rewrite lookup_insert_ne by exact Hne.
      * left. rewrite <- Ht, lookup_insert_eq. eauto.
      * right. eauto.
Qed.

(** X14.  The EXIF table of the metadata has an entry for every tag of the
    image, under the tag's name or, for an unknown tag, its number; no
    value in it is a bytes object, each being the readable form of a value
    of the image. *)
Theorem exif_info_readable `{Imaging.Pillow, Runtime}
  (items : list (Z * pyval)) (k : Metadata.tag) :
  (is_Some (Metadata.exif_info_of items !! k) <->
   exists tag_id value, In (tag_id, value) items /\ Metadata.tag_of tag_id = k)
  /\ forall v,
       Metadata.exif_info_of items !! k = Some v ->
       is_bytes v = false
       /\ exists tag_id value,
            In (tag_id, value) items /\ Metadata.tag_of tag_id = k
            /\ v = Metadata.readable value.
Proof.
  unfold Metadata.exif_info_of.
  destruct (exif_info_fold items ∅ k) as [H1 H2]. split; [split|].
  - intros [v Hv]. destruct (H1 v Hv) as [He|(t & x & Hin & Ht & _)].
    + rewrite lookup_empty in He. discriminate.
    + eauto.
  - intros Hex. apply H2. now right.
  - intros v Hv. destruct (H1 v Hv) as [He|(t & x & Hin & Ht & ->)].
    + rewrite lookup_empty in He. discriminate.
    + split; [apply readable_not_bytes | eauto].
Qed.

Lemma copy_key_lookup_eq (src : gmap Metadata.tag pyval) (name key : string)
  (cs : gmap string pyval) :
  Metadata.copy_key src name key cs !! key
  = match src !! (inl name : Metadata.tag) with
    | Some v => Some v
    | None => cs !! key
    end.
Proof.
  unfold Metadata.copy_key. destruct (src !! _); [|reflexivity].
  apply lookup_insert_eq.
Qed.

Lemma copy_key_lookup_ne (src : gmap Metadata.tag pyval) (name key k : string)
  (cs : gmap string pyval) :
  k <> key -> Metadata.copy_key src name key cs !! k = cs !! k.
Proof.
  intros Hk. unfold Metadata.copy_key. destruct (src !! _); [|reflexivity].
  now rewrite lookup_insert_ne by congruence.
Qed.

Lemma formats_insert (v : pyval) (key s : string) (cs : gmap string pyval) :
  formats (Some v) key cs (<[key := VStr s]> cs).
Proof.
  split.
  - intros k Hk. now rewrite lookup_insert_ne by congruence.
  - exists s. apply lookup_insert_eq.
Qed.

Lemma formats_none (key : string) (cs : gmap string pyval) :
  formats None key cs cs.
Proof. split; auto. Qed.

(** X15.  The settings dict [extract_metadata] builds from an EXIF table has a
    key exactly for each of the eight tags it knows that is in the table.
    ISO, make, model, lens model and white balance are the table's values
    as they are; aperture, shutter speed and focal length are strings. *)
Theorem camera_settings_follow_tags `{Runtime}
  (exif_info : gmap Metadata.tag pyval) (cs : gmap string pyval) :
  Metadata.camera_settings_of exif_info = Ok cs ->
  (forall key,
     is_Some (cs !! key) <->
     exists name,
       In (name, key) camera_settings_table
       /\ is_Some (exif_info !! (inl name : Metadata.tag)))
  /\ (forall name key,
        In (name, key)
          [("ISOSpeedRatings", "iso"); ("Make", "camera_make");
           ("Model", "camera_model"); ("LensModel", "lens_model");
           ("WhiteBalance", "white_balance")] ->
        cs !! key = exif_info !! (inl name : Metadata.tag))
  /\ (forall key v,
        In key ["aperture"; "shutter_speed"; "focal_length"] ->
        cs !! key = Some v -> exists s, v = VStr s).
Proof.
  unfold Metadata.camera_settings_of. intros Hcs.
  set (cs1 := Metadata.copy_key exif_info "ISOSpeedRatings" "iso" ∅) in Hcs.
  destruct (match exif_info !! (inl "FNumber" : Metadata.tag) with
            | Some f_number =>
                if is_tuple f_number
                then q ← Metadata.quotient_1f f_number;
                     Ok (<["aperture" := VStr ("f/" +:+ q)]> cs1)
                else Ok (<["aperture" := VStr ("f/" +:+ py_str f_number)]> cs1)
            | None => Ok cs1
            end) as [cs2|] eqn:E2; [|discriminate].
  assert (formats (exif_info !! (inl "FNumber" : Metadata.tag)) "aperture"
            cs1 cs2) as F2.
  { destruct (exif_info !! (inl "FNumber" : Metadata.tag)) as [v|];
      [|injection E2 as <-; apply formats_none].
    destruct (is_tuple v); [|injection E2 as <-; apply formats_insert].
    destruct (Metadata.quotient_1f v); [|discriminate].
    injection E2 as <-. apply formats_insert. }
  clear E2. run_bind.
  destruct (match exif_info !! (inl "ExposureTime" : Metadata.tag) with
            | Some exp_time =>
                if is_tuple exp_time
                then a ← subscript exp_time 0;
                     b ← subscript exp_time 1;
                     Ok (<["shutter_speed" :=
                             VStr (py_str a +:+ "/" +:+ py_str b +:+ "s")]>
                           cs2)
                else Ok (<["shutter_speed" :=
                             VStr (py_str exp_time +:+ "s")]> cs2)
            | None => Ok cs2
            end) as [cs3|] eqn:E3; [|discriminate].
  assert (formats (exif_info !! (inl "ExposureTime" : Metadata.tag))
            "shutter_speed" cs2 cs3) as F3.
  { destruct (exif_info !! (inl "ExposureTime" : Metadata.tag)) as [v|];
      [|injection E3 as <-; apply formats_none].
    destruct (is_tuple v); [|injection E3 as <-; apply formats_insert].
    destruct (subscript v 0); [|discriminate].
    destruct (subscript v 1); [|discriminate].
    injection E3 as <-. apply formats_insert. }
  clear E3. run_bind.
  destruct (match exif_info !! (inl "FocalLength" : Metadata.tag) with
            | Some focal =>
                if is_tuple focal
                then q ← Metadata.quotient_1f focal;
                     Ok (<["focal_length" := VStr (q +:+ "mm")]> cs3)
                else Ok (<["focal_length" :=
                             VStr (py_str focal +:+ "mm")]> cs3)
            | None => Ok cs3
            end) as [cs4|] eqn:E4; [|discriminate].
  assert (formats (exif_info !! (inl "FocalLength" : Metadata.tag))
            "focal_length" cs3 cs4) as F4.
  { destruct (exif_info !! (inl "FocalLength" : Metadata.tag)) as [v|];
      [|injection E4 as <-; apply formats_none].
    destruct (is_tuple v); [|injection E4 as <-; apply formats_insert].
    destruct (Metadata.quotient_1f v); [|discriminate].
    injection E4 as <-. apply formats_insert. }
  clear E4. run_bind. injection Hcs as <-.
  destruct F2 as [O2 A2], F3 as [O3 A3], F4 as [O4 A4].
  (* the value under each of the eight keys, and under any other key *)
  assert (Hiso : forall k, k = "iso" ->
            Metadata.copy_key exif_info "WhiteBalance" "white_balance"
              (Metadata.copy_key exif_info "LensModel" "lens_model"
                 (Metadata.copy_key exif_info "Model" "camera_model"
                    (Metadata.copy_key exif_info "Make" "camera_make" cs4)))
            !! k = exif_info !! (inl "ISOSpeedRatings" : Metadata.tag)).
  { intros k ->. rewrite !copy_key_lookup_ne by discriminate.
    rewrite O4, O3, O2 by discriminate. subst cs1.
    rewrite copy_key_lookup_eq, lookup_empty.
    now destruct (exif_info !! (inl "ISOSpeedRatings" : Metadata.tag)). }
  assert (Hlate : forall k, k <> "aperture" -> k <> "shutter_speed" ->
            k <> "focal_length" -> k <> "iso" ->
            cs4 !! k = None).
  { intros k K1 K2 K3 K4. rewrite O4, O3, O2 by assumption. subst cs1.
    rewrite copy_key_lookup_ne by assumption. apply lookup_empty. }
  set (cs := Metadata.copy_key exif_info "WhiteBalance" "white_balance"
               (Metadata.copy_key exif_info "LensModel" "lens_model"
                  (Metadata.copy_key exif_info "Model" "camera_model"
                     (Metadata.copy_key exif_info "Make" "camera_make"
                        cs4)))) in *.
  assert (Hmake : cs !! "camera_make"
                  = exif_info !! (inl "Make" : Metadata.tag)).
  { subst cs. rewrite !copy_key_lookup_ne by discriminate.
    rewrite copy_key_lookup_eq, Hlate by discriminate.
    now destruct (exif_info !! (inl "Make" : Metadata.tag)). }
  assert (Hmodel : cs !! "camera_model"
                   = exif_info !! (inl "Model" : Metadata.tag)).
  { subst cs. rewrite !copy_key_lookup_ne by discriminate.
    rewrite copy_key_lookup_eq, copy_key_lookup_ne, Hlate by discriminate.
    now destruct (exif_info !! (inl "Model" : Metadata.tag)). }
  assert (Hlens : cs !! "lens_model"
                  = exif_info !! (inl "LensModel" : Metadata.tag)).
  { subst cs. rewrite copy_key_lookup_ne by discriminate.
    rewrite copy_key_lookup_eq, !copy_key_lookup_ne, Hlate by discriminate.
    now destruct (exif_info !! (inl "LensModel" : Metadata.tag)). }
  assert (Hwb : cs !! "white_balance"
                = exif_info !! (inl "WhiteBalance" : Metadata.tag)).
  { subst cs.
    rewrite copy_key_lookup_eq, !copy_key_lookup_ne, Hlate by discriminate.
    now destruct (exif_info !! (inl "WhiteBalance" : Metadata.tag)). }
  assert (Hap : cs !! "aperture" = cs2 !! "aperture").
  { subst cs. rewrite !copy_key_lookup_ne by discriminate.
    now rewrite O4, O3 by discriminate. }
  assert (Hsh : cs !! "shutter_speed" = cs3 !! "shutter_speed").
  { subst cs. rewrite !copy_key_lookup_ne by discriminate.
    now rewrite O4 by discriminate. }
  assert (Hfl : cs !! "focal_length" = cs4 !! "focal_length").
  { subst cs. now rewrite !copy_key_lookup_ne by discriminate. }
  assert (Hap1 : cs1 !! "aperture" = None).
  { subst cs1. rewrite copy_key_lookup_ne by discriminate.
    apply lookup_empty. }
  assert (Hsh2 : cs2 !! "shutter_speed" = None).
  { rewrite O2 by discriminate. subst cs1.
    rewrite copy_key_lookup_ne by discriminate. apply lookup_empty. }
  assert (Hfl3 : cs3 !! "focal_length" = None).
  { rewrite O3, O2 by discriminate. subst cs1.
    rewrite copy_key_lookup_ne by discriminate. apply lookup_empty. }
  assert (Hother : forall k,
            ~ In k (map snd camera_settings_table) -> cs !! k = None).
  { intros k Hk. cbn in Hk. subst cs.
    rewrite !copy_key_lookup_ne by (intros ->; tauto).
    apply Hlate; intros ->; tauto. }
  specialize (Hiso "iso" eq_refl). fold cs in Hiso.
  clearbody cs. clear O2 O3 O4 Hlate.
  split; [|split].
  - intros key. split.
    + intros Hs.
      destruct (decide (In key (map snd camera_settings_table))) as [Hin|Hn];
        [|rewrite (Hother _ Hn) in Hs; destruct Hs; discriminate].
      cbn in Hin.
      destruct Hin as [<-|[<-|[<-|[<-|[<-|[<-|[<-|[<-|[]]]]]]]]].
      * exists "ISOSpeedRatings". split; [cbn; tauto | congruence].
      * exists "FNumber". split; [cbn; tauto|].
        rewrite Hap in Hs.
        destruct (exif_info !! (inl "FNumber" : Metadata.tag)); [eauto|].
        rewrite A2, Hap1 in Hs. exact Hs.
      * exists "ExposureTime". split; [cbn; tauto|].
        rewrite Hsh in Hs.
        destruct (exif_info !! (inl "ExposureTime" : Metadata.tag)); [eauto|].
        rewrite A3, Hsh2 in Hs. exact Hs.
      * exists "FocalLength". split; [cbn; tauto|].
        rewrite Hfl in Hs.
        destruct (exif_info !! (inl "FocalLength" : Metadata.tag)); [eauto|].
        rewrite A4, Hfl3 in Hs. exact Hs.
      * exists "Make". split; [cbn; tauto | congruence].
      * exists "Model". split; [cbn; tauto | congruence].
      * exists "LensModel". split; [cbn; tauto | congruence].
      * exists "WhiteBalance". split; [cbn; tauto | congruence].
    + intros (name & Hin & Hs). cbn in Hin.
      destruct Hin as [[= <- <-]|[[= <- <-]|[[= <- <-]|[[= <- <-]
                      |[[= <- <-]|[[= <- <-]|[[= <- <-]|[[= <- <-]|[]]]]]]]]];
        try congruence.
      * rewrite Hap. destruct Hs as [v Hv]. rewrite Hv in A2.
        destruct A2 as [s ->]. eauto.
      * rewrite Hsh. destruct Hs as [v Hv]. rewrite Hv in A3.
        destruct A3 as [s ->]. eauto.
      * rewrite Hfl. destruct Hs as [v Hv]. rewrite Hv in A4.
        destruct A4 as [s ->]. eauto.
  - intros name key Hin. cbn in Hin.
    destruct Hin as [[= <- <-]|[[= <- <-]|[[= <- <-]|[[= <- <-]
                    |[[= <- <-]|[]]]]]]; assumption.
  - intros key v Hin Hv. cbn in Hin.
    destruct Hin as [<-|[<-|[<-|[]]]].
    + rewrite Hap in Hv.
      destruct (exif_info !! (inl "FNumber" : Metadata.tag)).
      * destruct A2 as [s Hs]. rewrite Hs in Hv. injection Hv as <-. eauto.
      * rewrite A2, Hap1 in Hv. discriminate.
    + rewrite Hsh in Hv.
      destruct (exif_info !! (inl "ExposureTime" : Metadata.tag)).
      * destruct A3 as [s Hs]. rewrite Hs in Hv. injection Hv as <-. eauto.
      * rewrite A3, Hsh2 in Hv. discriminate.
    + rewrite Hfl in Hv.
      destruct (exif_info !! (inl "FocalLength" : Metadata.tag)).
      * destruct A4 as [s Hs]. rewrite Hs in Hv. injection Hv as <-. eauto.
      * rewrite A4, Hfl3 in Hv. discriminate.
Qed.

Lemma camera_settings_follow_tags_witness :
  (forall key,
     is_Some ((<["aperture" := VStr "f/2.8"]> (<["iso" := VInt 100]> ∅)
               : gmap string pyval) !! key) <->
     exists name,
       In (name, key) camera_settings_table
       /\ is_Some (Reference.exif_info_sample !! (inl name : Metadata.tag)))
  /\ (forall name key,
        In (name, key)
          [("ISOSpeedRatings", "iso"); ("Make", "camera_make");
           ("Model", "camera_model"); ("LensModel", "lens_model");
           ("WhiteBalance", "white_balance")] ->
        (<["aperture" := VStr "f/2.8"]> (<["iso" := VInt 100]> ∅)
         : gmap string pyval) !! key
        = Reference.exif_info_sample !! (inl name : Metadata.tag))
  /\ (forall key v,
        In key ["aperture"; "shutter_speed"; "focal_length"] ->
        (<["aperture" := VStr "f/2.8"]> (<["iso" := VInt 100]> ∅)
         : gmap string pyval) !! key = Some v ->
        exists s, v = VStr s).
Proof.
  apply (@camera_settings_follow_tags Reference.runtime).
  vm_compute. reflexivity.
Defined.

Lemma exif_info_nonempty `{Imaging.Pillow, Runtime} (item : Z * pyval)
  (items : list (Z * pyval)) :
  Metadata.exif_info_of (item :: items) <> ∅.
Proof.
  intros He. unfold Metadata.exif_info_of in He.
  destruct (exif_info_fold (item :: items) ∅ (Metadata.tag_of (fst item)))
    as [_ Hs].
  destruct Hs as [v Hv].
  - right. exists (fst item), (snd item).
    split; [left; now destruct item | reflexivity].
  - rewrite He, lookup_empty in Hv. discriminate.
Qed.

(** X16.  The metadata has an EXIF table exactly when it has camera settings,
    and then the table is not empty and the settings are the ones built
    from it; and [extract_metadata] raises nothing but an [Exception]
    whose message starts with "Failed to extract metadata: ". *)
Theorem extract_metadata_invariants `{Imaging.Pillow, Runtime}
  (image_bytes : list byte) :
  match Metadata.extract_metadata image_bytes with
  | Ok md =>
      (Metadata.md_exif md = None /\ Metadata.md_camera_settings md = None)
      \/ exists info cs,
           Metadata.md_exif md = Some info
           /\ Metadata.md_camera_settings md = Some cs
           /\ info <> ∅ /\ Metadata.camera_settings_of info = Ok cs
  | Raise e =>
      exn_class e = "Exception"
      /\ exists cause, exn_msg e = "Failed to extract metadata: " +:+ cause
  end.
Proof.
  pose proof (extract_metadata_cases image_bytes) as Hc.
  destruct (Metadata.extract_body image_bytes) as [md|e] eqn:Hb;
    rewrite Hc; [|split; [reflexivity | eexists; reflexivity]].
  unfold Metadata.extract_body in Hb. peel Hb.
  match goal with
  | E : Imaging.image_getexif _ = Ok ?items |- _ => destruct items as [|item items]
  end.
  - injection Hb as <-. left. split; reflexivity.
  - peel Hb. injection Hb as <-. right. do 2 eexists.
    split; [reflexivity|]. split; [reflexivity|].
    split; [apply exif_info_nonempty | assumption].
Qed.

Lemma quotient_by_zero `{Runtime} (a : Z) :
  Metadata.quotient_1f (VTuple [VInt a; VInt 0])
  = Raise (Exn "ZeroDivisionError" "division by zero").
Proof. reflexivity. Qed.

(** X17.  An aperture recorded as a rational with denominator zero makes the
    whole extraction fail: no format, mode or size comes back, and the
    metadata endpoint answers with status 500. *)
Theorem zero_denominator_fails_extraction `{Imaging.Pillow, Runtime}
  (image_bytes : list byte) (img : Imaging.image) (items : list (Z * pyval))
  (a : Z) :
  Imaging.Image_open image_bytes = Ok img ->
  Imaging.image_getexif img = Ok items ->
  Metadata.exif_info_of items !! (inl "FNumber" : Metadata.tag)
  = Some (VTuple [VInt a; VInt 0]) ->
  Metadata.extract_metadata image_bytes
  = Raise (Exn "Exception"
             ("Failed to extract metadata: " +:+ "division by zero"))
  /\ Metadata.get_metadata (Metadata.MkUpload (Ok image_bytes))
     = Metadata.HTTPException 500
         ("Failed to extract metadata: " +:+ "division by zero").
Proof.
  intros Hopen Hexif Hf.
  assert (Metadata.extract_body image_bytes
          = Raise (Exn "ZeroDivisionError" "division by zero")) as Hb.
  { unfold Metadata.extract_body. rewrite Hopen. run_bind.
    rewrite Hexif. run_bind. destruct items as [|item items].
    - unfold Metadata.exif_info_of in Hf. cbn [fold_left] in Hf.
      rewrite lookup_empty in Hf. discriminate.
    - unfold Metadata.camera_settings_of. rewrite Hf.
      cbn [is_tuple]. rewrite quotient_by_zero. reflexivity. }
  pose proof (extract_metadata_cases image_bytes) as Hc. rewrite Hb in Hc.
  split; [exact Hc|].
  unfold Metadata.get_metadata. cbn [Metadata.file_read]. run_bind.
  rewrite Hc. reflexivity.
Qed.

Lemma zero_denominator_fails_extraction_witness :
  @Metadata.extract_metadata
    (Reference.pillow_decoding
       [([x00], Reference.photo Reference.exif_bad_aperture)])
    Reference.runtime [x00]
  = Raise (Exn "Exception"
             ("Failed to extract metadata: " +:+ "division by zero"))
  /\ @Metadata.get_metadata
       (Reference.pillow_decoding
          [([x00], Reference.photo Reference.exif_bad_aperture)])
       Reference.runtime (Metadata.MkUpload (Ok [x00]))
     = Metadata.HTTPException 500
         ("Failed to extract metadata: " +:+ "division by zero").
Proof.
  apply (@zero_denominator_fails_extraction
           (Reference.pillow_decoding
              [([x00], Reference.photo Reference.exif_bad_aperture)])
           Reference.runtime [x00]
           (Reference.photo Reference.exif_bad_aperture)
           Reference.exif_bad_aperture 28).
  - reflexivity.
  - reflexivity.
  - vm_compute. reflexivity.
Defined.

(** ** main.py: the predict endpoint *)

(** X18.  The predict endpoint answers with an error only when the upload
    cannot be read or Pillow cannot decode the image for the heuristic;
    the status is then 500 and the detail the message of that failure.
    An upload that decodes to a grayscale array is always answered with a
    success, whatever the model does. *)
Theorem predict_endpoint_errors `{Imaging.Pillow, Imaging.Onnx, Runtime}
  (_predictor : Predictor.SettingsPredictor) (file : Metadata.UploadFile) :
  (forall code detail,
     Metadata.predict_camera_settings _predictor file
     = Metadata.HTTPException code detail ->
     code = 500
     /\ ((exists e, Metadata.file_read file = Raise e /\ detail = exn_msg e)
         \/ exists contents e,
              Metadata.file_read file = Ok contents
              /\ grayscale contents = Raise e /\ detail = exn_msg e))
  /\ (forall contents arr,
        Metadata.file_read file = Ok contents ->
        grayscale contents = Ok arr ->
        exists d,
          Predictor.predict _predictor contents = Ok d
          /\ Metadata.predict_camera_settings _predictor file
             = Metadata.Success d).
Proof.
  unfold Metadata.predict_camera_settings, Predictor.predict_settings.
  split.
  - intros code detail.
    destruct (Metadata.file_read file) as [contents|e]; run_bind.
    + destruct (Predictor.predict _predictor contents) as [d|e] eqn:Hp;
        run_bind; cbn [Metadata.endpoint]; [discriminate|].
      intros [= <- <-]. split; [reflexivity|]. right. exists contents, e.
      destruct (predict_raises_only_undecoded _ _ _ Hp) as [Hg _]. auto.
    + cbn [Metadata.endpoint]. intros [= <- <-]. split; [reflexivity|].
      left. eauto.
  - intros contents arr -> Hg. run_bind.
    destruct (Predictor.predict _predictor contents) as [d|e] eqn:Hp.
    + exists d. split; reflexivity.
    + destruct (predict_raises_only_undecoded _ _ _ Hp) as [Hr _].
      rewrite Hg in Hr. discriminate.
Qed.

(** ** preprocess.py: split_dataset, further properties *)

(** X19.  [split_dataset] raises the [AssertionError] of its first line
    exactly when the ratios fail the check abs(sum - 1.0) < 1e-6, computed
    on floats; a ratio that is NaN always fails it.  When the check
    passes, a seed outside 0..2**32 - 1 makes the shuffle raise a
    [ValueError]; the only other exceptions are those of [int] on a
    product that is not finite; and the function returns only for a seed
    in that range. *)
Theorem split_dataset_assertion `{Preprocess.Platform}
  (df : Preprocess.DataFrame)
  (train_ratio val_ratio test_ratio : Ieee.float) (random_state : Z) :
  match Ieee.split_dataset df train_ratio val_ratio test_ratio
          random_state with
  | Ok _ =>
      Ieee.ratios_ok train_ratio val_ratio test_ratio = true
      /\ 0 <= random_state < 2 ^ 32
  | Raise e =>
      if Ieee.ratios_ok train_ratio val_ratio test_ratio
      then exn_class e = "OverflowError" \/ exn_class e = "ValueError"
      else e = Exn "AssertionError" "Ratios must sum to 1.0"
  end
  /\ (train_ratio = Ieee.nan \/ val_ratio = Ieee.nan
      \/ test_ratio = Ieee.nan ->
      Ieee.ratios_ok train_ratio val_ratio test_ratio = false)
  /\ (Ieee.ratios_ok train_ratio val_ratio test_ratio = true ->
      ~ 0 <= random_state < 2 ^ 32 ->
      Ieee.split_dataset df train_ratio val_ratio test_ratio random_state
      = Raise (Exn "ValueError" "Seed must be between 0 and 2**32 - 1")).
Proof.
  split; [|split].
  - unfold Ieee.split_dataset.
    destruct (Ieee.ratios_ok train_ratio val_ratio test_ratio); cbn [negb];
      [|reflexivity].
    destruct (decide (0 <= random_state < 2 ^ 32)) as [Hin|Hout].
    + rewrite (sample_all_in_range _ _ Hin). run_bind.
      destruct (Ieee.int_times _ train_ratio) as [a|e] eqn:Ea; run_bind;
        [|exact (int_times_raises _ _ _ Ea)].
      destruct (Ieee.int_times _ val_ratio) as [b|e] eqn:Eb; run_bind;
        [|exact (int_times_raises _ _ _ Eb)].
      split; [reflexivity | exact Hin].
    + rewrite (sample_all_out_of_range _ _ Hout). run_bind.
      right. reflexivity.
  - unfold Ieee.ratios_ok.
    intros [->|[->| ->]].
    + reflexivity.
    + destruct train_ratio; reflexivity.
    + destruct (Ieee.fadd Ieee.binary64 train_ratio val_ratio); reflexivity.
  - intros Hok Hout. unfold Ieee.split_dataset. rewrite Hok. cbn [negb].
    now rewrite (sample_all_out_of_range _ _ Hout).
Qed.




(** ** preprocess.py: normalize_settings, further properties *)



(** How the loop of [normalize_settings] ends: with the parameters when
    every present column of the list holds numbers, and otherwise with the
    exception of the first present column that does not. *)
Lemma normalize_loop_outcome (df dfn : Preprocess.loc)
  (f : Preprocess.DataFrame) (todo : list string) :
  df <> dfn ->
  forall (params : gmap string (pyfloat * pyfloat))
         (g : Preprocess.DataFrame) (h : Preprocess.store),
    h !! df = Some f -> h !! dfn = Some g ->
    match Preprocess.normalize_loop df dfn todo params h with
    | (Ok _, _) =>
        forall c, c ∈ todo -> c ∈ Preprocess.columns f ->
          exists xs,
            Preprocess.numeric_all (Preprocess.get_column f c) = Ok xs
    | (Raise e, _) =>
        exists c,
          c ∈ todo /\ c ∈ Preprocess.columns f
          /\ Preprocess.numeric_all (Preprocess.get_column f c) = Raise e
    end.
Proof.
  intros Hne. induction todo as [|c rest IH]; intros params g h Hf Hg;
    cbn [Preprocess.normalize_loop].
  - intros c Hc. now apply elem_of_nil in Hc.
  - destruct (decide (c ∈ Preprocess.columns f)) as [Hin|Hout].
    + destruct (Preprocess.numeric_all (Preprocess.get_column f c))
        as [xs|e] eqn:Hn.
      * rewrite (normalize_step_numeric df dfn c params h f g xs Hf Hg Hin Hn).
        match goal with
        | |- context [Preprocess.normalize_loop df dfn rest ?p ?h1] =>
            specialize (IH p
                          (Preprocess.set_column g c
                             (map (fun x =>
                                     VFloat (Preprocess.rescale
                                               (Preprocess.series_min xs)
                                               (Preprocess.series_max xs) x))
                                xs)) h1);
            destruct (Preprocess.normalize_loop df dfn rest p h1)
              as [[p'|e] h']
        end.
        -- intros c' Hc' Hin'. apply elem_of_cons in Hc' as [->|Hc'];
             [eauto|].
           apply IH; auto;
             [now rewrite lookup_insert_ne by congruence
             | apply lookup_insert_eq].
        -- destruct IH as (c' & Hc' & Hin' & He);
             [now rewrite lookup_insert_ne by congruence
             | apply lookup_insert_eq |].
           exists c'. split; [now apply list_elem_of_further | auto].
      * rewrite (normalize_step_raises df dfn c params h f e Hf Hin Hn).
        exists c. split; [apply list_elem_of_here | auto].
    + rewrite (normalize_step_absent df dfn c params h f Hf Hout).
      specialize (IH params g h Hf Hg).
      destruct (Preprocess.normalize_loop df dfn rest params h)
        as [[p'|e] h'].
      * intros c' Hc' Hin'. apply elem_of_cons in Hc' as [->|Hc'];
          [contradiction | now apply IH].
      * destruct IH as (c' & Hc' & Hin' & He).
        exists c'. split; [now apply list_elem_of_further | auto].
Qed.

(** ** preprocess.py: the dataset and its normalisation *)

Lemma dataset_row_shape `{Imaging.Pillow, Runtime} (img_path : string)
  (row : list (string * pyval)) :
  dataset_row img_path = Some row ->
  exists iso aperture shutter focal,
    row = [("image_path", VStr img_path); ("iso", VFloat iso);
           ("aperture", VFloat aperture); ("shutter_speed", VFloat shutter);
           ("focal_length", focal)]
    /\ (focal = VInt 0 \/ exists x, focal = VFloat x).
Proof.
  unfold dataset_row.
  destruct (Preprocess.truthy (Preprocess.extract_exif_data img_path).1)
    as [exif|]; [|discriminate].
  cbn [mbind option_bind].
  destruct (Preprocess.parse_camera_settings exif).1 as [settings|];
    [|discriminate].
  cbn [mbind option_bind].
  destruct (settings !! "iso") as [iso|]; [|discriminate].
  cbn [mbind option_bind].
  destruct (settings !! "aperture") as [ap|]; [|discriminate].
  cbn [mbind option_bind].
  destruct (settings !! "shutter_speed") as [sh|]; [|discriminate].
  cbn [mbind option_bind].
  intros [= <-]. do 4 eexists. split; [reflexivity|].
  destruct (settings !! "focal_length"); cbn [from_option]; eauto.
Qed.

Lemma omap_length_le {A B : Type} (f : A -> option B) (l : list A) :
  (length (omap f l) <= length l)%nat.
Proof.
  induction l as [|x l IH]; [reflexivity|].
  change (omap f (x :: l))
    with (match f x with Some y => y :: omap f l | None => omap f l end).
  destruct (f x); cbn [length]; lia.
Qed.

Lemma omap_In {A B : Type} (f : A -> option B) (l : list A) (y : B) :
  In y (omap f l) -> exists x, In x l /\ f x = Some y.
Proof.
  induction l as [|x l IH]; [intros []|].
  change (omap f (x :: l))
    with (match f x with Some y => y :: omap f l | None => omap f l end).
  destruct (f x) as [z|] eqn:Hz.
  - intros [<-|Hin]; [exists x; split; [now left | exact Hz]|].
    destruct (IH Hin) as (x' & Hx' & Hf). exists x'. split; [now right | auto].
  - intros Hin. destruct (IH Hin) as (x' & Hx' & Hf).
    exists x'. split; [now right | auto].
Qed.

Lemma add_new_seen (seen l : list string) :
  (forall k, In k l -> k ∈ seen) ->
  fold_left Preprocess.add_new l seen = seen.
Proof.
  induction l as [|k l IH]; intros Hl; [reflexivity|]. cbn [fold_left].
  unfold Preprocess.add_new at 2.
  rewrite bool_decide_eq_true_2 by (apply Hl; now left).
  apply IH. intros k' Hk'. apply Hl. now right.
Qed.

(** The columns of a frame made of records that all have the keys
    [keys], in that order. *)
Lemma pd_DataFrame_columns (keys : list string)
  (data : list (list (string * pyval))) :
  NoDup keys ->
  (forall r, In r data -> map fst r = keys) ->
  Preprocess.columns (Preprocess.pd_DataFrame data)
  = match data with [] => [] | _ :: _ => keys end.
Proof.
  intros Hnd Hall. unfold Preprocess.pd_DataFrame. cbn [Preprocess.columns].
  destruct data as [|r data]; [reflexivity|].
  cbn [concat]. rewrite map_app, fold_left_app.
  rewrite (Hall r) by now left.
  assert (forall seen, NoDup (seen ++ keys) ->
            fold_left Preprocess.add_new keys seen = seen ++ keys) as Hfirst.
  { clear. induction keys as [|k keys IH]; intros seen Hnd.
    - now rewrite app_nil_r.
    - cbn [fold_left]. unfold Preprocess.add_new at 2.
      rewrite bool_decide_eq_false_2.
      + rewrite IH; rewrite <- app_assoc; [reflexivity | exact Hnd].
      + apply NoDup_app in Hnd as (_ & Hdis & _). intros Hk.
        apply (Hdis k Hk). apply list_elem_of_here. }
  rewrite (Hfirst []) by exact Hnd. cbn [app].
  apply add_new_seen. intros k Hk.
  apply in_map_iff in Hk as ([k' v] & <- & Hkv).
  apply in_concat in Hkv as (r' & Hr' & Hkv).
  rewrite <- (Hall r') by now right.
  apply list_elem_of_In. apply in_map_iff. exists (k', v). auto.
Qed.

Lemma numeric_all_numbers (l : list pyval) :
  Forall (fun v => exists x, Preprocess.numeric v = Ok x) l ->
  exists xs, Preprocess.numeric_all l = Ok xs.
Proof.
  induction 1 as [|v l [x Hx] _ [xs IH]]; [eexists; reflexivity|].
  cbn [Preprocess.numeric_all]. rewrite Hx, IH. eexists. reflexivity.
Qed.

(** A frame holding numbers in its settings columns is normalised
    without an exception. *)
Lemma normalize_settings_returns (h : gmap positive Preprocess.DataFrame)
  (df : positive) (f : Preprocess.DataFrame) :
  h !! df = Some f -> numeric_settings f ->
  exists dfn params h',
    Preprocess.normalize_settings df h = (Ok (dfn, params), h').
Proof.
  intros Hf Hnum. unfold Preprocess.normalize_settings.
  destruct (df_copy_fresh df h f Hf) as (-> & Hnone & Hne).
  set (dfn := fresh (dom h)) in *.
  assert (<[dfn := f]> h !! df = Some f) as Hf1
    by (now rewrite lookup_insert_ne by congruence).
  assert (<[dfn := f]> h !! dfn = Some f) as Hg1 by apply lookup_insert_eq.
  pose proof (normalize_loop_outcome df dfn f Preprocess.settings_columns
                Hne ∅ f (<[dfn := f]> h) Hf1 Hg1) as Hout.
  destruct (Preprocess.normalize_loop df dfn Preprocess.settings_columns ∅
              (<[dfn := f]> h)) as [[params|e] h1]; [eauto|].
  destruct Hout as (c & Hc & Hin & He).
  destruct (Hnum c Hc Hin) as [xs Hxs]. congruence.
Qed.

Lemma dataset_keys_NoDup :
  NoDup ["image_path"; "iso"; "aperture"; "shutter_speed"; "focal_length"].
Proof.
  repeat (apply NoDup_cons_2;
          [rewrite ?not_elem_of_cons; repeat split; try discriminate;
           apply not_elem_of_nil|]).
  apply NoDup_nil_2.
Qed.

(** X22.  The DataFrame that [create_dataset_from_images] returns has at most
    one row per image file found; its columns are image_path, iso,
    aperture, shutter_speed and focal_length as soon as it has a row;
    each row holds the path of one of the files, three floats, and a
    focal length that is a float or the integer 0.  So its settings
    columns hold numbers, and [normalize_settings] returns on it. *)
Theorem dataset_is_normalizable
  `{Imaging.Pillow, Runtime, Preprocess.Platform}
  (image_dir output_path : string) (df : Preprocess.DataFrame)
  (printed : list string) :
  Preprocess.create_dataset_from_images image_dir output_path
  = Ok (df, printed) ->
  let image_files :=
    Preprocess.glob image_dir "*.jpg" ++ Preprocess.glob image_dir "*.jpeg"
    ++ Preprocess.glob image_dir "*.JPG"
    ++ Preprocess.glob image_dir "*.JPEG" in
  (length (Preprocess.rows df) <= length image_files)%nat
  /\ Preprocess.columns df
     = match Preprocess.rows df with
       | [] => []
       | _ :: _ =>
           ["image_path"; "iso"; "aperture"; "shutter_speed"; "focal_length"]
       end
  /\ (forall r, In r (Preprocess.rows df) ->
        exists path iso aperture shutter,
          In path image_files
          /\ r !! "image_path" = Some (VStr path)
          /\ r !! "iso" = Some (VFloat iso)
          /\ r !! "aperture" = Some (VFloat aperture)
          /\ r !! "shutter_speed" = Some (VFloat shutter)
          /\ (r !! "focal_length" = Some (VInt 0)
              \/ exists x, r !! "focal_length" = Some (VFloat x)))
  /\ numeric_settings df
  /\ forall (h : gmap positive Preprocess.DataFrame) (l : positive),
       h !! l = Some df ->
       exists dfn params h',
         Preprocess.normalize_settings l h = (Ok (dfn, params), h').
Proof.
  intros Hc image_files. unfold Preprocess.create_dataset_from_images in Hc.
  fold image_files in Hc.
  match type of Hc with
  | context [Preprocess.collect image_files [] ?out] =>
      destruct (collect_rows image_files [] out) as [out' Hcol]
  end.
  rewrite Hcol in Hc. run_bind. cbn [app] in Hc.
  destruct (Preprocess.to_csv _ output_path) as [[]|e]; [|discriminate].
  run_bind. injection Hc as <- _.
  set (data := omap dataset_row image_files).
  assert (forall r, In r data ->
            exists path iso aperture shutter focal,
              In path image_files
              /\ r = [("image_path", VStr path); ("iso", VFloat iso);
                      ("aperture", VFloat aperture);
                      ("shutter_speed", VFloat shutter);
                      ("focal_length", focal)]
              /\ (focal = VInt 0 \/ exists x, focal = VFloat x)) as Hshape.
  { intros r Hr. apply omap_In in Hr as (path & Hpath & Hrow).
    destruct (dataset_row_shape _ _ Hrow) as (iso & ap & sh & fl & -> & Hfl).
    exists path, iso, ap, sh, fl. auto. }
  assert (forall r, In r (Preprocess.rows (Preprocess.pd_DataFrame data)) ->
            exists path iso aperture shutter,
              In path image_files
              /\ r !! "image_path" = Some (VStr path)
              /\ r !! "iso" = Some (VFloat iso)
              /\ r !! "aperture" = Some (VFloat aperture)
              /\ r !! "shutter_speed" = Some (VFloat shutter)
              /\ (r !! "focal_length" = Some (VInt 0)
                  \/ exists x, r !! "focal_length" = Some (VFloat x)))
    as Hrows.
  { intros r Hr. cbn [Preprocess.pd_DataFrame Preprocess.rows] in Hr.
    apply in_map_iff in Hr as (rec & <- & Hrec).
    destruct (Hshape rec Hrec)
      as (path & iso & ap & sh & fl & Hpath & -> & Hfl).
    exists path, iso, ap, sh. split; [exact Hpath|].
    repeat split; try reflexivity.
    destruct Hfl as [->|[x ->]]; [left | right; exists x]; reflexivity. }
  assert (numeric_settings (Preprocess.pd_DataFrame data)) as Hnum.
  { intros c Hc _. apply numeric_all_numbers.
    unfold Preprocess.get_column. apply Forall_forall. intros v Hv.
    apply list_elem_of_In in Hv. apply in_map_iff in Hv as (r & <- & Hr).
    destruct (Hrows r Hr)
      as (path & iso & ap & sh & _ & _ & Hi & Ha & Hs & Hf).
    unfold Preprocess.settings_columns in Hc. unfold Preprocess.cell.
    repeat (apply elem_of_cons in Hc as [->|Hc]).
    - rewrite Hi. eexists. reflexivity.
    - rewrite Ha. eexists. reflexivity.
    - rewrite Hs. eexists. reflexivity.
    - destruct Hf as [->|[x ->]]; eexists; reflexivity.
    - now apply elem_of_nil in Hc. }
  split; [|split; [|split; [exact Hrows | split; [exact Hnum|]]]].
  - cbn [Preprocess.pd_DataFrame Preprocess.rows]. rewrite length_map.
    apply omap_length_le.
  - rewrite (pd_DataFrame_columns
               ["image_path"; "iso"; "aperture"; "shutter_speed";
                "focal_length"]) by
      (try exact dataset_keys_NoDup;
       intros r Hr;
       destruct (Hshape r Hr) as (? & ? & ? & ? & ? & _ & -> & _);
       reflexivity).
    cbn [Preprocess.pd_DataFrame Preprocess.rows].
    destruct data; reflexivity.
  - intros h l Hl. now apply (normalize_settings_returns h l _ Hl).
Qed.

Lemma dataset_is_normalizable_witness :
  exists df printed,
    @Preprocess.create_dataset_from_images
      (Reference.pillow Reference.album) Reference.runtime
      (Reference.platform Reference.album) "photos" "dataset.csv"
    = Ok (df, printed)
    /\ Preprocess.columns df
       = ["image_path"; "iso"; "aperture"; "shutter_speed"; "focal_length"]
    /\ length (Preprocess.rows df) = 1%nat
    /\ numeric_settings df.
Proof.
  pose proof (@dataset_is_normalizable
                (Reference.pillow Reference.album) Reference.runtime
                (Reference.platform Reference.album) "photos" "dataset.csv")
    as Hd.
  eexists. eexists. split; [vm_compute; reflexivity|].
  split; [reflexivity|]. split; [reflexivity|].
  eapply Hd. vm_compute. reflexivity.
Defined.

(** ** preprocess.py: extract_exif_data and parse_camera_settings *)

Lemma exif_dict_fold `{Imaging.Pillow, Runtime} (items : list (Z * pyval))
  (acc : gmap Preprocess.tag pyval) (k : Preprocess.tag) (v : pyval) :
  fold_left
    (fun d kv =>
       let key : Preprocess.tag :=
         match Imaging.TAGS (fst kv) with
         | Some name => inl name
         | None => inr (fst kv)
         end in
       match snd kv with
       | VBytes b =>
           match bytes_decode b with
           | Ok s => <[key := VStr s]> d
           | Raise _ => d
           end
       | value => <[key := value]> d
       end) items acc !! k = Some v ->
  acc !! k = Some v
  \/ exists tag_id value,
       In (tag_id, value) items
       /\ k = match Imaging.TAGS tag_id with
              | Some name => inl name
              | None => inr tag_id
              end
       /\ kept value v.
Proof.
  revert acc. induction items as [|[tag_id value] items IH]; intros acc;
    cbn [fold_left fst snd]; [auto|].
  intros Hv. apply IH in Hv.
  destruct Hv as [Hacc|(t & x & Hin & Hk & Hx)];
    [|right; exists t, x; split; [now right | auto]].
  set (key := match Imaging.TAGS tag_id with
              | Some name => inl name
              | None => inr tag_id
              end : Preprocess.tag) in *.
  assert (forall w, kept value w ->
            <[key := w]> acc !! k = Some v ->
            acc !! k = Some v
            \/ exists t x, In (t, x) ((tag_id, value) :: items)
                 /\ k = match Imaging.TAGS t with
                        | Some name => inl name
                        | None => inr t
                        end
                 /\ kept x v) as Hins.
  { intros w Hw Hl. destruct (decide (key = k)) as [<-|Hne].
    - rewrite lookup_insert_eq in Hl. injection Hl as <-.
      right. exists tag_id, value. split; [now left | auto].
    - rewrite lookup_insert_ne in Hl by exact Hne. now left. }
  destruct value as [| | | |b|]; try (apply (Hins _ eq_refl); exact Hacc).
  destruct (bytes_decode b) as [s|e] eqn:Hb; [|now left].
  apply (Hins (VStr s)); [|exact Hacc]. unfold kept. now rewrite Hb.
Qed.

(** X23.  [extract_exif_data] returns a table only for an image that Pillow
    opens and that has EXIF entries, and prints nothing then.  No value of
    the table is a bytes object: each is a value of the image, decoded if
    it was bytes; an entry whose bytes do not decode is left out.  When
    Pillow raises, the function returns None and prints one line with the
    path and the message. *)
Theorem extract_exif_data_outcomes `{Imaging.Pillow, Runtime}
  (image_path : string) :
  match Preprocess.extract_exif_data image_path with
  | (Some exif_dict, printed) =>
      printed = []
      /\ exists image item items,
           Imaging.Image_open_path image_path = Ok image
           /\ Imaging.image_getexif image = Ok (item :: items)
           /\ forall k v,
                exif_dict !! k = Some v ->
                is_bytes v = false
                /\ exists tag_id value,
                     In (tag_id, value) (item :: items)
                     /\ k = match Imaging.TAGS tag_id with
                            | Some name => inl name
                            | None => inr tag_id
                            end
                     /\ kept value v
  | (None, printed) =>
      (printed = []
       /\ exists image,
            Imaging.Image_open_path image_path = Ok image
            /\ Imaging.image_getexif image = Ok [])
      \/ exists e,
           printed = ["Error extracting EXIF from " +:+ image_path +:+ ": "
                      +:+ exn_msg e]
           /\ (Imaging.Image_open_path image_path = Raise e
               \/ exists image,
                    Imaging.Image_open_path image_path = Ok image
                    /\ Imaging.image_getexif image = Raise e)
  end.
Proof.
  unfold Preprocess.extract_exif_data.
  destruct (Imaging.Image_open_path image_path) as [image|e] eqn:Ho;
    run_bind; [|right; exists e; split; [reflexivity | now left]].
  destruct (Imaging.image_getexif image) as [[|item items]|e] eqn:Hx;
    run_bind.
  - left. split; [reflexivity|]. exists image. auto.
  - split; [reflexivity|]. exists image, item, items.
    split; [reflexivity|]. split; [exact Hx|].
    intros k v Hv. unfold Preprocess.exif_dict_of in Hv.
    apply exif_dict_fold in Hv.
    destruct Hv as [He|(t & x & Hin & Hk & Hkept)];
      [rewrite lookup_empty in He; discriminate|].
    split; [|eauto].
    unfold kept in Hkept. destruct x; try (subst v; reflexivity).
    destruct (bytes_decode _); [subst v; reflexivity | contradiction].
  - right. exists e. split; [reflexivity|]. right. exists image. auto.
Qed.

(** X24.  [parse_camera_settings] prints exactly when one of the four tags is
    there and does not convert to a number; it then returns None and the
    line carries the message of the failed conversion.  Otherwise it is
    silent, whether it returns settings or None. *)
Theorem parse_camera_settings_prints `{Runtime}
  (exif_data : gmap Preprocess.tag pyval) :
  let failed e :=
    converted exif_data "ISOSpeedRatings" py_float = Some (Raise e)
    \/ converted exif_data "FNumber" Preprocess.number_of = Some (Raise e)
    \/ converted exif_data "ExposureTime" Preprocess.number_of
       = Some (Raise e)
    \/ converted exif_data "FocalLength" Preprocess.number_of
       = Some (Raise e) in
  match Preprocess.parse_camera_settings exif_data with
  | (r, []) => ~ exists e, failed e
  | (r, printed) =>
      r = None
      /\ exists e,
           printed = ["Error parsing camera settings: " +:+ exn_msg e]
           /\ failed e
  end.
Proof.
  intros failed. subst failed. cbn beta.
  unfold Preprocess.parse_camera_settings, Preprocess.parse_body, converted.
  destruct (exif_data !! (inl "ISOSpeedRatings" : Preprocess.tag)) as [vi|];
    cbn [fmap option_fmap option_map];
    [destruct (py_float vi) as [xi|ei]; run_bind|].
  2: { cbv beta iota. split; [reflexivity|]; eexists; split; [reflexivity|];
      first [ left; reflexivity
            | right; left; reflexivity
            | right; right; left; reflexivity
            | right; right; right; reflexivity ]. }
  all: destruct (exif_data !! (inl "FNumber" : Preprocess.tag)) as [va|];
    cbn [fmap option_fmap option_map];
    try (destruct (Preprocess.number_of va) as [xa|ea]; run_bind).
  all: try (cbv beta iota; split; [reflexivity|]; eexists; split; [reflexivity|];
      first [ left; reflexivity
            | right; left; reflexivity
            | right; right; left; reflexivity
            | right; right; right; reflexivity ]).
  all: destruct (exif_data !! (inl "ExposureTime" : Preprocess.tag)) as [vs|];
    cbn [fmap option_fmap option_map];
    try (destruct (Preprocess.number_of vs) as [xs|es]; run_bind).
  all: try (cbv beta iota; split; [reflexivity|]; eexists; split; [reflexivity|];
      first [ left; reflexivity
            | right; left; reflexivity
            | right; right; left; reflexivity
            | right; right; right; reflexivity ]).
  all: destruct (exif_data !! (inl "FocalLength" : Preprocess.tag)) as [vf|];
    cbn [fmap option_fmap option_map];
    try (destruct (Preprocess.number_of vf) as [xf|ef]; run_bind).
  all: try (cbv beta iota; split; [reflexivity|]; eexists; split; [reflexivity|];
      first [ left; reflexivity
            | right; left; reflexivity
            | right; right; left; reflexivity
            | right; right; right; reflexivity ]).
  all: run_bind.
  all: match goal with
       | |- context [Preprocess.has_keys ?l ?m] =>
           destruct (Preprocess.has_keys l m)
       end;
    cbv beta iota; intros [e0 [He|[He|[He|He]]]]; discriminate He.
Qed.

(** ** The two preprocess_image functions *)

Lemma flatten_map_scalars (f : pyfloat -> pyfloat) (a : Imaging.ndarray) :
  Imaging.flatten (Imaging.map_scalars f a) = map f (Imaging.flatten a).
Proof.
  revert a. fix IH 1. intros [x|l]; [reflexivity|].
  cbn [Imaging.map_scalars Imaging.flatten].
  induction l as [|b l IHl]; [reflexivity|].
  cbn [map flat_map]. rewrite map_app, IH, IHl. reflexivity.
Qed.

Lemma scaled_in_unit_range (x : pyfloat) :
  in_range 0 255 x -> in_range 0 1 (np_div x (of_int 255)).
Proof.
  intros (q & -> & H0 & H1). exists (q / inject_Z 255)%Q. split; [reflexivity|].
  split.
  - apply Qle_shift_div_l; [reflexivity | lra].
  - apply Qle_shift_div_r; [reflexivity | unfold inject_Z; lra].
Qed.

(** The numbers of [y] are numbers of [x]. *)
Lemma flat_map_sub (l k : list Imaging.ndarray) :
  Forall2 (fun x y =>
             forall z, In z (Imaging.flatten y) -> In z (Imaging.flatten x))
    l k ->
  forall z, In z (flat_map Imaging.flatten k) ->
            In z (flat_map Imaging.flatten l).
Proof.
  induction 1 as [|x y l k Hxy _ IH]; [auto|].
  intros z Hz. cbn [flat_map] in *. apply in_app_iff in Hz.
  apply in_app_iff. destruct Hz as [Hz|Hz]; [left | right]; auto.
Qed.

Lemma channel_sub (c : nat) (a p : Imaging.ndarray) :
  Imaging.channel c a = Some p ->
  forall z, In z (Imaging.flatten p) -> In z (Imaging.flatten a).
Proof.
  unfold Imaging.channel. destruct a as [x|rows]; [discriminate|].
  cbn [Imaging.children mbind option_bind].
  destruct (mapM _ rows) as [planes|] eqn:Hm; [|discriminate].
  cbn [mbind option_bind]. intros [= <-].
  cbn [Imaging.flatten]. apply flat_map_sub.
  apply mapM_Some in Hm. eapply Forall2_impl; [exact Hm|].
  intros row plane Hrow. cbn beta in Hrow.
  destruct row as [x|pixels]; [discriminate|].
  cbn [Imaging.children mbind option_bind] in Hrow.
  destruct (mapM _ pixels) as [line|] eqn:Hl; [|discriminate].
  cbn [mbind option_bind] in Hrow. injection Hrow as <-.
  cbn [Imaging.flatten]. apply flat_map_sub.
  apply mapM_Some in Hl. eapply Forall2_impl; [exact Hl|].
  intros px y Hpx. cbn beta in Hpx.
  destruct px as [x|chans]; [discriminate|].
  cbn [Imaging.children mbind option_bind] in Hpx.
  intros z Hz. cbn [Imaging.flatten]. apply in_flat_map.
  exists y. split; [|exact Hz].
  apply list_elem_of_In. now apply list_elem_of_lookup_2 in Hpx.
Qed.

Lemma Forall2_In_r {A B : Type} (P : A -> B -> Prop) (l : list A)
  (k : list B) (y : B) :
  Forall2 P l k -> In y k -> exists x, In x l /\ P x y.
Proof.
  induction 1 as [|x y' l k Hxy _ IH]; [intros []|].
  intros [<-|Hy]; [exists x; split; [now left | exact Hxy]|].
  destruct (IH Hy) as (x' & Hx' & HP). exists x'. split; [now right | exact HP].
Qed.

Lemma transpose_sub (a t : Imaging.ndarray) :
  Imaging.transpose_201 a = Ok t ->
  forall z, In z (Imaging.flatten t) -> In z (Imaging.flatten a).
Proof.
  unfold Imaging.transpose_201.
  destruct (Imaging.channels a) as [n|]; [|discriminate].
  destruct (mapM _ (seq 0 n)) as [planes|] eqn:Hm; [|discriminate].
  intros [= <-] z Hz. cbn [Imaging.flatten] in Hz.
  apply in_flat_map in Hz as (p & Hp & Hz).
  apply mapM_Some in Hm.
  destruct (Forall2_In_r _ _ _ _ Hm Hp) as (c & _ & Hc).
  exact (channel_sub c a p Hc z Hz).
Qed.

(** X25.  Both [preprocess_image] functions divide the pixel values of the
    resized RGB image by 255.  The one of the training scripts keeps the
    shape of the array; the one of the predictor returns a batch of one
    transposed array, every number of which is a scaled pixel value.  So
    for pixel values between 0 and 255 all numbers of the result lie
    between 0 and 1. *)
Theorem preprocess_image_scales `{Imaging.Pillow} :
  (forall image_path target_size r,
     Preprocess.preprocess_image image_path target_size = Ok r ->
     exists arr,
       resized_rgb (Imaging.Image_open_path image_path) target_size = Ok arr
       /\ r = Imaging.map_scalars (fun x => np_div x (of_int 255)) arr
       /\ Imaging.flatten r
          = map (fun x => np_div x (of_int 255)) (Imaging.flatten arr)
       /\ (Forall (in_range 0 255) (Imaging.flatten arr) ->
           Forall (in_range 0 1) (Imaging.flatten r)))
  /\ (forall image_bytes r,
        Predictor.preprocess_image image_bytes = Ok r ->
        exists arr t,
          resized_rgb (Imaging.Image_open image_bytes) (224, 224) = Ok arr
          /\ Imaging.transpose_201
               (Imaging.map_scalars (fun x => np_div x (of_int 255)) arr)
             = Ok t
          /\ r = Imaging.Arr [t]
          /\ (forall y, In y (Imaging.flatten r) ->
                exists x, In x (Imaging.flatten arr)
                          /\ y = np_div x (of_int 255))
          /\ (Forall (in_range 0 255) (Imaging.flatten arr) ->
              Forall (in_range 0 1) (Imaging.flatten r))).
Proof.
  split.
  - intros image_path target_size r.
    unfold Preprocess.preprocess_image, resized_rgb.
    intros Hr. peel Hr. injection Hr as <-.
    eexists. split; [first [reflexivity | eassumption]|].
    split; [reflexivity|]. split; [apply flatten_map_scalars|].
    rewrite flatten_map_scalars. intros Hall.
    apply List.Forall_forall. intros y Hy.
    apply in_map_iff in Hy as (x & <- & Hx).
    apply scaled_in_unit_range. revert x Hx. now apply List.Forall_forall.
  - intros image_bytes r.
    unfold Predictor.preprocess_image, resized_rgb, Imaging.expand_dims0.
    intros Hr. peel Hr. injection Hr as <-.
    match goal with
    | E : Imaging.transpose_201 (Imaging.map_scalars _ ?arr) = Ok ?t |- _ =>
        pose proof (transpose_sub _ _ E) as Hsub;
        assert (forall y, In y (Imaging.flatten (Imaging.Arr [t])) ->
                  exists x, In x (Imaging.flatten arr)
                            /\ y = np_div x (of_int 255)) as Hfrom
    end.
    { intros y Hy. cbn [Imaging.flatten flat_map] in Hy.
      rewrite app_nil_r in Hy. apply Hsub in Hy.
      rewrite flatten_map_scalars in Hy.
      apply in_map_iff in Hy. destruct Hy as (px & Hxy & Hpx).
      exists px. split; [exact Hpx | now symmetry]. }
    do 2 eexists. split; [first [reflexivity | eassumption]|].
    split; [first [reflexivity | eassumption]|].
    split; [reflexivity|]. split; [exact Hfrom|].
    intros Hall. apply List.Forall_forall. intros y Hy.
    destruct (Hfrom y Hy) as (x & Hx & ->).
    apply scaled_in_unit_range.
    exact (proj1 (List.Forall_forall _ _) Hall x Hx).
Qed.

(** The training preprocessing of a gray photograph of one pixel of value
    128, resized to 1 x 1: one RGB pixel of three times 128/255. *)
Example preprocess_one_pixel :
  @Preprocess.preprocess_image
    (Reference.pillow [("a.jpg", Reference.photo [])]) "a.jpg" (1, 1)
  = Ok (Imaging.Arr
          [Imaging.Arr
             [Imaging.Arr [Imaging.Scalar (Fin (128 # 255));
                           Imaging.Scalar (Fin (128 # 255));
                           Imaging.Scalar (Fin (128 # 255))]]]).
Proof. vm_compute. reflexivity. Qed.
